(** * The news normalization-and-merge pipeline

    A shallow embedding of [pipeline/parsers.py], [pipeline/orchestrator.py]
    and [api/main.py].  Python values are an inductive type, exceptions are
    an error monad over an explicit state (interaction counter and log), and
    the SQLite table is a list of rows in rowid order. *)

From Stdlib Require Import List ZArith NArith Bool Lia String Ascii.
From Stdlib Require Import PrimFloat Permutation Sorted.
Import ListNotations.

Set Implicit Arguments.
Set Warnings "-register-all".


(** ** Python strings and JSON values *)

(** A Python [str] is a sequence of Unicode code points. *)
Definition codepoint := N.
Definition str := list codepoint.

(** ASCII literals of the source. *)
Definition lit (s : string) : str := map N_of_ascii (list_ascii_of_string s).

(** The three ideographs of the date patterns: 年 U+5E74, 月 U+6708, 日 U+65E5. *)
Definition nian : codepoint := 24180%N.
Definition yue : codepoint := 26376%N.
Definition ri : codepoint := 26085%N.

Fixpoint str_eqb (a b : str) : bool :=
  match a, b with
  | [], [] => true
  | x :: a', y :: b' => (x =? y)%N && str_eqb a' b'
  | _, _ => false
  end.

(** [a.startswith(b)] read backwards: is [pre] a prefix of [s]? *)
Fixpoint is_prefix (pre s : str) : bool :=
  match pre, s with
  | [], _ => true
  | x :: pre', y :: s' => (x =? y)%N && is_prefix pre' s'
  | _ :: _, [] => false
  end.

(** [needle in hay] on two strings. *)
Fixpoint str_contains (needle hay : str) : bool :=
  is_prefix needle hay
  || match hay with
     | [] => false
     | _ :: hay' => str_contains needle hay'
     end.

(** What [json.load] produces, and what the mappers put in their dicts.  A
    dict keeps its insertion order; its keys are strings, as in JSON. *)
Inductive pyval : Type :=
| PNone
| PBool (b : bool)
| PInt (z : Z)
| PFloat (f : float)
| PStr (s : str)
| PList (l : list pyval)
| PDict (d : list (str * pyval)).

(** Truth value of an object ([not x], [x or y], [if x]). *)
Definition truthy (v : pyval) : bool :=
  match v with
  | PNone => false
  | PBool b => b
  | PInt z => negb (z =? 0)%Z
  | PFloat f => negb (PrimFloat.eqb f PrimFloat.zero)
  | PStr s => negb (Nat.eqb (List.length s) 0)
  | PList l => negb (Nat.eqb (List.length l) 0)
  | PDict d => negb (Nat.eqb (List.length d) 0)
  end.

(** [x or y]. *)
Definition py_or (x y : pyval) : pyval := if truthy x then x else y.

Fixpoint dict_get (d : list (str * pyval)) (k : str) : option pyval :=
  match d with
  | [] => None
  | (k', v) :: d' => if str_eqb k' k then Some v else dict_get d' k
  end.

(** [d[k] = v]: replaces the value of an existing key in place, else appends. *)
Fixpoint dict_set (d : list (str * pyval)) (k : str) (v : pyval) : list (str * pyval) :=
  match d with
  | [] => [(k, v)]
  | (k', v') :: d' => if str_eqb k' k then (k', v) :: d' else (k', v') :: dict_set d' k v
  end.

(** ** Exceptions, log records and the monad *)

Inductive exn : Type :=
| KeyError (k : str)
| TypeError
| AttributeError
| ValueError
| OverflowError
| UnicodeEncodeError
| UnicodeDecodeError      (* a file whose bytes are not UTF-8 *)
| OSError                 (* a file that cannot be opened or read *)
| RecursionError          (* JSON nested too deep for the decoder *)
| BackendError            (* whatever the translation backend raised *)
| InterfaceError (p : str) (* sqlite3: a parameter of unsupported type *)
| ProgrammingError (p : str) (* sqlite3: no value supplied for a named parameter *)
| OperationalError        (* sqlite3: the storage could not be written *)
| HTTPException (status : Z)
| ResponseValidationError.

(** One constructor per [logging] call of the pipeline, carrying the values
    its f-string interpolates. *)
Inductive log_entry : Type :=
| WarnTranslation (e : exn)                 (* "Falha na tradução: {e}" *)
| InfoBatchDate (batch_date : str)          (* ">>> DATA DO LOTE DEFINIDA: ..." *)
| WarnFileNotFound (filename : str)         (* "Arquivo não encontrado: ..." *)
| InfoProcessing (filename batch_date : str)(* "Processando: ... com data base ..." *)
| ErrorJson (filename : str)                (* "Erro ao ler JSON: ..." *)
| ErrorSave (filename : str) (e : exn)      (* "Erro ao salvar item no DB (...): {e}" *)
| InfoSaved (count : nat) (filename : str)  (* "Salvos/Atualizados ... itens de ..." *)
| InfoDone                                  (* ">>> FLUXO COMPLETO FINALIZADO ..." *)
| InfoCollectStart                          (* ">>> INICIANDO COLETA DE DADOS ..." *)
| InfoRunScraper (script_name : str)        (* "Executando scraper: ..." *)
| InfoScraperOk (script_name : str)         (* "Sucesso: ..." *)
| ErrorScraper (script_name : str)          (* "ERRO ao rodar ...:" *)
| ErrorScraperStderr (stderr : str)         (* e.stderr *)
| ErrorScraperUnexpected (script_name : str) (e : exn) (* "Erro inesperado ao chamar ..." *)
| InfoCollectDone.                          (* ">>> COLETA FINALIZADA. INICIANDO ETL..." *)

Inductive result (A : Type) : Type :=
| Ret (a : A)
| Raise (e : exn).
Arguments Ret {A} a.
Arguments Raise {A} e.

(** A computation over a state [S] that returns or raises; the state it
    reached is kept in both cases, as a Python [except] block sees it. *)
Definition M (S A : Type) : Type := S -> result A * S.

Definition ret {S A : Type} (a : A) : M S A := fun s => (Ret a, s).
Definition raise {S A : Type} (e : exn) : M S A := fun s => (Raise e, s).
Definition bind {S A B : Type} (m : M S A) (k : A -> M S B) : M S B :=
  fun s => match m s with
           | (Ret a, s') => k a s'
           | (Raise e, s') => (Raise e, s')
           end.
(** [try: body / except ... as e: handler e]. *)
Definition try_except {S A : Type} (body : M S A) (handler : exn -> M S A) : M S A :=
  fun s => match body s with
           | (Ret a, s') => (Ret a, s')
           | (Raise e, s') => handler e s'
           end.
Definition of_result {S A : Type} (r : result A) : M S A := fun s => (r, s).

Declare Scope py_scope.
Delimit Scope py_scope with py.
Notation "x <- m ;; k" := (bind m (fun x => k))
  (at level 61, m at next level, right associativity) : py_scope.
Notation "m ;; k" := (bind m (fun _ => k))
  (at level 61, right associativity) : py_scope.
Open Scope py_scope.

(** The state the mappers act on: how many times the outside world has been
    consulted so far, and the log. *)
Record env : Type := { ticks : nat; logs : list log_entry }.

Definition tick (s : env) : env := {| ticks := S (ticks s); logs := logs s |}.
Definition log_env (l : log_entry) : M env unit :=
  fun s => (Ret tt, {| ticks := ticks s; logs := logs s ++ [l] |}).

(** ** Dates *)

Record datetime : Type := {
  dt_year : Z; dt_month : Z; dt_day : Z;
  dt_hour : Z; dt_minute : Z; dt_second : Z; dt_microsecond : Z;
  dt_utcoffset : option Z
}.

Record timedelta : Type := { td_days : Z; td_seconds : Z; td_microseconds : Z }.

(** [timedelta(minutes=n)] and [timedelta(hours=n)]: normalized to days and
    seconds, [OverflowError] beyond 999999999 days. *)
Definition timedelta_of_seconds (total : Z) : result timedelta :=
  let d := (total / 86400)%Z in
  if (Z.abs d >? 999999999)%Z then Raise OverflowError
  else Ret {| td_days := d; td_seconds := (total mod 86400)%Z; td_microseconds := 0 |}.
Definition timedelta_minutes (n : Z) : result timedelta := timedelta_of_seconds (n * 60).
Definition timedelta_hours (n : Z) : result timedelta := timedelta_of_seconds (n * 3600).

(** [str(n)] for an int. *)
Fixpoint uint_codes (u : Decimal.uint) : str :=
  match u with
  | Decimal.Nil => []
  | Decimal.D0 u' => 48%N :: uint_codes u'
  | Decimal.D1 u' => 49%N :: uint_codes u'
  | Decimal.D2 u' => 50%N :: uint_codes u'
  | Decimal.D3 u' => 51%N :: uint_codes u'
  | Decimal.D4 u' => 52%N :: uint_codes u'
  | Decimal.D5 u' => 53%N :: uint_codes u'
  | Decimal.D6 u' => 54%N :: uint_codes u'
  | Decimal.D7 u' => 55%N :: uint_codes u'
  | Decimal.D8 u' => 56%N :: uint_codes u'
  | Decimal.D9 u' => 57%N :: uint_codes u'
  end.
Definition str_of_Z (z : Z) : str :=
  match Z.to_int z with
  | Decimal.Pos u => uint_codes u
  | Decimal.Neg u => 45%N :: uint_codes u
  end.

(** The format spec [:02d]: zero-filled to width two, sign included. *)
Definition fmt_02d (z : Z) : str :=
  let s := str_of_Z z in
  if (List.length s <? 2)%nat then 48%N :: s else s.

(** ** The outside world

    Everything the pipeline consults but does not define: the wall clock, the
    translation backend, the Unicode tables behind [\d], [\s] and [int], the
    datetime library's parser, printer and subtraction, SQLite's numeric
    conversions, BeautifulSoup, the files the collectors left, whether the
    storage accepts a write, and whether a write it refuses rolls the open
    transaction back.  The clock, the backend and the storage are
    indexed by the interaction counter, so they may answer differently each
    time they are asked. *)

(** What [parse_twitter] reads off the parsed markup: the text of the
    [tweetText] div, the [datetime] attribute of the [time] tag (the tag may
    be absent, and so may the attribute), the [aria-label] of the like button
    (with the default of [.get] applied). *)
Record soup : Type := {
  soup_tweet_text : option str;
  soup_time : option (option str);
  soup_like_aria : option pyval
}.

(** What [process_file] finds under a file name: no file; a file on which
    [json.load] raises [json.JSONDecodeError]; a file on which [open] or
    [json.load] raises anything else (UnicodeDecodeError on bytes that are
    not UTF-8, OSError, RecursionError, ...), which the [except] clause does
    not name; or the decoded value. *)
Inductive file_status : Type :=
| FileMissing
| FileBadJson
| FileRaises (e : exn)
| FileData (data : pyval).

(** SQLite storage classes (no BLOB: nothing in the pipeline binds bytes). *)
Inductive sqlval : Type :=
| SNull
| SInt (z : Z)
| SReal (f : float)
| SText (s : str).

(** How one collector process ended under [subprocess.run(..., check=True)]. *)
Inductive scraper_outcome : Type :=
| ScraperOk
| ScraperFailed (stderr : str)
| ScraperNotRun (e : exn).

Class World : Type := {
  clock : nat -> datetime;
  gtranslate : nat -> pyval -> option pyval;
  uni_decimal : codepoint -> option N;
  uni_space : codepoint -> bool;
  fromisoformat : str -> option datetime;
  isoformat : datetime -> str;
  strftime_Ymd : datetime -> str;
  datetime_sub : datetime -> timedelta -> option datetime;
  bs4_parse : pyval -> result soup;
  output_dir : str -> file_status;
  storage_fault : nat -> bool;
  fault_rolls_back : nat -> bool;
  real_to_text : float -> str;
  numeric_of_text : str -> sqlval;
  integer_of_real : float -> sqlval;
  pydantic_int : sqlval -> option Z;
  int_max_str_digits : option nat;
  scraper_run : nat -> str -> scraper_outcome
}.

Section Pipeline.
Context {W : World}.

(** [datetime.now()]. *)
Definition now : M env datetime := fun s => (Ret (clock (ticks s)), tick s).

(** *** Character classes and the regular expressions of the source *)

(** Digit value of a character of category Nd: the ASCII digits, and beyond
    ASCII what the interpreter's Unicode database says. *)
Definition decimal_value (c : codepoint) : option N :=
  if ((48 <=? c) && (c <=? 57))%N then Some (c - 48)%N
  else if (c <? 128)%N then None
  else uni_decimal c.

(** [\s] on a [str] pattern. *)
Definition is_space (c : codepoint) : bool :=
  if (c <? 128)%N then ((9 <=? c) && (c <=? 13))%N || ((28 <=? c) && (c <=? 32))%N
  else uni_space c.

Inductive charclass : Type := ClsDigit | ClsSpace.

Definition in_class (cls : charclass) (c : codepoint) : bool :=
  match cls with
  | ClsDigit => match decimal_value c with Some _ => true | None => false end
  | ClsSpace => is_space c
  end.

(** The fragment the three patterns use: a literal character, or a character
    class repeated greedily between [lo] and [hi] times, captured or not. *)
Inductive atom : Type :=
| Lit (c : codepoint)
| Rep (cls : charclass) (lo : nat) (hi : option nat) (cap : bool).
Definition regex := list atom.

(** Length of the longest prefix inside the class, up to [limit]. *)
Fixpoint span (p : codepoint -> bool) (limit : option nat) (s : str) : nat :=
  match limit, s with
  | Some O, _ => O
  | _, [] => O
  | _, c :: s' => if p c then S (span p (option_map pred limit) s') else O
  end.

(** Greedy repetition: the longest count first, then one less, down to [lo]. *)
Fixpoint backtrack {A : Type} (k lo : nat) (attempt : nat -> option A) : option A :=
  if (k <? lo)%nat then None
  else match attempt k with
       | Some r => Some r
       | None => match k with
                 | O => None
                 | S k' => backtrack k' lo attempt
                 end
       end.

(** A match anchored at the head of [s]; the result is [groups()]. *)
Fixpoint match_here (re : regex) (s : str) : option (list str) :=
  match re with
  | [] => Some []
  | Lit c :: re' =>
      match s with
      | x :: s' => if (x =? c)%N then match_here re' s' else None
      | [] => None
      end
  | Rep cls lo hi cap :: re' =>
      backtrack (span (in_class cls) hi s) lo
        (fun k => option_map (fun gs => if cap then firstn k s :: gs else gs)
                    (match_here re' (skipn k s)))
  end.

(** [re.search]: the leftmost position where the pattern matches. *)
Fixpoint re_search (re : regex) (s : str) : option (list str) :=
  match match_here re s with
  | Some gs => Some gs
  | None => match s with
            | [] => None
            | _ :: s' => re_search re s'
            end
  end.

(** [re.search(pattern, x)] on any object: [TypeError] unless [x] is a string. *)
Definition py_re_search {S : Type} (re : regex) (x : pyval) : M S (option (list str)) :=
  match x with
  | PStr s => ret (re_search re s)
  | _ => raise TypeError
  end.

(** [int(s)] on a string of decimal digits: its value, or [ValueError] when
    the interpreter limits the number of digits and the string is longer.
    The interpreter accepts no limit below 640, so a limit is 640 plus the
    number the world gives. *)
Definition digits_value (s : str) : Z :=
  fold_left (fun acc c => acc * 10 + Z.of_N (match decimal_value c with Some d => d | None => 0%N end))%Z
            s 0%Z.
Definition py_int {S : Type} (s : str) : M S Z :=
  match int_max_str_digits with
  | Some extra => if (640 + extra <? List.length s)%nat then raise ValueError
                  else ret (digits_value s)
  | None => ret (digits_value s)
  end.

(** r"(\d+)" *)
Definition re_digits : regex := [Rep ClsDigit 1 None true].
(** r"(\d{4})年(\d{1,2})月(\d{1,2})日" *)
Definition re_chinesa : regex :=
  [Rep ClsDigit 4 (Some 4) true; Lit nian;
   Rep ClsDigit 1 (Some 2) true; Lit yue;
   Rep ClsDigit 1 (Some 2) true; Lit ri].
(** r"(\d{1,2})月(\d{1,2})日\s*(\d{1,2}):(\d{1,2})" *)
Definition re_weibo : regex :=
  [Rep ClsDigit 1 (Some 2) true; Lit yue;
   Rep ClsDigit 1 (Some 2) true; Lit ri;
   Rep ClsSpace 0 None false;
   Rep ClsDigit 1 (Some 2) true; Lit 58%N;
   Rep ClsDigit 1 (Some 2) true].

(** *** Object protocol *)

(** [item[k]]. *)
Definition py_getitem {S : Type} (item : pyval) (k : str) : M S pyval :=
  match item with
  | PDict d => match dict_get d k with
               | Some v => ret v
               | None => raise (KeyError k)
               end
  | _ => raise TypeError
  end.

(** [item.get(k, default)], the default already evaluated. *)
Definition py_get {S : Type} (item : pyval) (k : str) (default : pyval) : M S pyval :=
  match item with
  | PDict d => ret (match dict_get d k with Some v => v | None => default end)
  | _ => raise AttributeError
  end.

(** [item[k] = v]. *)
Definition py_setitem {S : Type} (item : pyval) (k : str) (v : pyval) : M S pyval :=
  match item with
  | PDict d => ret (PDict (dict_set d k v))
  | _ => raise TypeError
  end.

Definition is_str (v : pyval) (s : str) : bool :=
  match v with
  | PStr t => str_eqb t s
  | _ => false
  end.

(** [needle in x] for a string [needle]. *)
Definition py_contains {S : Type} (needle : str) (x : pyval) : M S bool :=
  match x with
  | PStr s => ret (str_contains needle s)
  | PList l => ret (existsb (fun v => is_str v needle) l)
  | PDict d => ret (existsb (fun kv => str_eqb (fst kv) needle) d)
  | _ => raise TypeError
  end.

(** [len(x)]. *)
Definition py_len {S : Type} (x : pyval) : M S nat :=
  match x with
  | PStr s => ret (List.length s)
  | PList l => ret (List.length l)
  | PDict d => ret (List.length d)
  | _ => raise TypeError
  end.

(** [datetime.fromisoformat(x)]. *)
Definition py_fromisoformat {S : Type} (x : pyval) : M S datetime :=
  match x with
  | PStr s => match fromisoformat s with
              | Some d => ret d
              | None => raise ValueError
              end
  | _ => raise TypeError
  end.

(** [dt - td]. *)
Definition py_datetime_sub {S : Type} (d : datetime) (td : timedelta) : M S datetime :=
  match datetime_sub d td with
  | Some d' => ret d'
  | None => raise OverflowError
  end.

(** [m.group(1)] on the result of a search with one group. *)
Definition group1 {S : Type} (m : option (list str)) : M S str :=
  match m with
  | Some (g :: _) => ret g
  | Some [] => raise ValueError
  | None => raise AttributeError
  end.

(** *** parsers.py *)

Definition traduzir_pt (texto : pyval) : M env pyval :=
  if negb (truthy texto) then ret texto
  else
    n <- py_len texto ;;
    if (n <? 3)%nat then ret texto
    else
      try_except
        (fun s => match gtranslate (ticks s) texto with
                  | Some r => (Ret r, tick s)
                  | None => (Raise BackendError, tick s)
                  end)
        (fun e => log_env (WarnTranslation e) ;; ret texto).

Definition get_scraped_date (item : pyval) : M env pyval :=
  match item with
  | PDict _ => n <- now ;; py_get item (lit "scraped_at") (PStr (isoformat n))
  | _ => raise AttributeError
  end.

Definition extrair_data_wsj (relative_str scraped_at_str : pyval) : M env pyval :=
  try_except
    (scraped_dt <- py_fromisoformat scraped_at_str ;;
     has_min <- py_contains (lit "min") relative_str ;;
     if has_min then
       m <- py_re_search re_digits relative_str ;;
       g <- group1 m ;;
       mins <- py_int g ;;
       td <- of_result (timedelta_minutes mins) ;;
       d <- py_datetime_sub scraped_dt td ;;
       ret (PStr (isoformat d))
     else
       has_hour <- py_contains (lit "hour") relative_str ;;
       if has_hour then
         m <- py_re_search re_digits relative_str ;;
         g <- group1 m ;;
         hours <- py_int g ;;
         td <- of_result (timedelta_hours hours) ;;
         d <- py_datetime_sub scraped_dt td ;;
         ret (PStr (isoformat d))
       else ret (PStr (isoformat scraped_dt)))
    (fun _ => ret scraped_at_str).

Definition now_isoformat : M env pyval := n <- now ;; ret (PStr (isoformat n)).

Definition extrair_data_chinesa (date_str : pyval) : M env pyval :=
  try_except
    (m <- py_re_search re_chinesa date_str ;;
     match m with
     | Some [y; mo; d] =>
         mo' <- py_int mo ;;
         d' <- py_int d ;;
         ret (PStr (y ++ lit "-" ++ fmt_02d mo' ++ lit "-" ++ fmt_02d d' ++ lit "T00:00:00"))
     | Some _ => raise ValueError
     | None => now_isoformat
     end)
    (fun _ => now_isoformat).

Definition extrair_data_weibo (date_str : pyval) : M env pyval :=
  try_except
    (m <- py_re_search re_weibo date_str ;;
     match m with
     | Some [month; day; hour; minute] =>
         n1 <- now ;;
         let year := dt_year n1 in
         n2 <- now ;;
         is_dec <- (if (dt_month n2 =? 1)%Z
                    then mo <- py_int month ;; ret (mo =? 12)%Z
                    else ret false) ;;
         let year := if is_dec then (year - 1)%Z else year in
         mo' <- py_int month ;;
         d' <- py_int day ;;
         h' <- py_int hour ;;
         mi' <- py_int minute ;;
         ret (PStr (str_of_Z year ++ lit "-" ++ fmt_02d mo' ++ lit "-" ++ fmt_02d d'
                    ++ lit "T" ++ fmt_02d h' ++ lit ":" ++ fmt_02d mi' ++ lit ":00"))
     | Some _ => raise ValueError
     | None => now_isoformat
     end)
    (fun _ => now_isoformat).

Definition parse_peoples_daily (item : pyval) : M env pyval :=
  summary <- py_get item (lit "summary") (PStr []) ;;
  conteudo <- (if truthy summary then ret summary
               else py_get item (lit "title") (PStr [])) ;;
  id_origem <- py_getitem item (lit "url") ;;
  titulo_original <- py_getitem item (lit "title") ;;
  title <- py_getitem item (lit "title") ;;
  titulo_pt <- traduzir_pt title ;;
  conteudo_pt <- traduzir_pt conteudo ;;
  published_date <- py_getitem item (lit "published_date") ;;
  data_publicacao <- extrair_data_chinesa published_date ;;
  data_raspagem <- get_scraped_date item ;;
  url <- py_getitem item (lit "url") ;;
  ret (PDict [(lit "id_origem", id_origem);
              (lit "plataforma", PStr (lit "Peoples Daily"));
              (lit "tipo_fonte", PStr (lit "Midia"));
              (lit "pais", PStr (lit "China"));
              (lit "titulo_original", titulo_original);
              (lit "titulo_pt", titulo_pt);
              (lit "conteudo_original", conteudo);
              (lit "conteudo_pt", conteudo_pt);
              (lit "data_publicacao", data_publicacao);
              (lit "data_raspagem", data_raspagem);
              (lit "engajamento", PInt 0);
              (lit "url", url)]).

Definition parse_wsj (item : pyval) : M env pyval :=
  conteudo <- py_get item (lit "summary") (PStr []) ;;
  id_origem <- py_getitem item (lit "url") ;;
  titulo_original <- py_getitem item (lit "title") ;;
  title <- py_getitem item (lit "title") ;;
  titulo_pt <- traduzir_pt title ;;
  conteudo_pt <- traduzir_pt conteudo ;;
  published_date <- py_getitem item (lit "published_date") ;;
  scraped_at <- get_scraped_date item ;;
  data_publicacao <- extrair_data_wsj published_date scraped_at ;;
  data_raspagem <- get_scraped_date item ;;
  url <- py_getitem item (lit "url") ;;
  ret (PDict [(lit "id_origem", id_origem);
              (lit "plataforma", PStr (lit "WSJ"));
              (lit "tipo_fonte", PStr (lit "Midia"));
              (lit "pais", PStr (lit "USA"));
              (lit "titulo_original", titulo_original);
              (lit "titulo_pt", titulo_pt);
              (lit "conteudo_original", conteudo);
              (lit "conteudo_pt", conteudo_pt);
              (lit "data_publicacao", data_publicacao);
              (lit "data_raspagem", data_raspagem);
              (lit "engajamento", PInt 0);
              (lit "url", url)]).

Definition parse_weibo (item : pyval) : M env pyval :=
  text <- py_getitem item (lit "text") ;;
  texto_pt <- traduzir_pt text ;;
  id_origem <- py_getitem item (lit "mid") ;;
  conteudo_original <- py_getitem item (lit "text") ;;
  timestamp <- py_getitem item (lit "timestamp") ;;
  data_publicacao <- extrair_data_weibo timestamp ;;
  data_raspagem <- get_scraped_date item ;;
  engajamento <- py_get item (lit "likes") (PInt 0) ;;
  url <- py_getitem item (lit "user_url") ;;
  ret (PDict [(lit "id_origem", id_origem);
              (lit "plataforma", PStr (lit "Weibo"));
              (lit "tipo_fonte", PStr (lit "Publico"));
              (lit "pais", PStr (lit "China"));
              (lit "titulo_original", PNone);
              (lit "titulo_pt", PNone);
              (lit "conteudo_original", conteudo_original);
              (lit "conteudo_pt", texto_pt);
              (lit "data_publicacao", data_publicacao);
              (lit "data_raspagem", data_raspagem);
              (lit "engajamento", engajamento);
              (lit "url", url)]).

(** The [try: ... except: pass] around the like count. *)
Definition twitter_likes (sp : soup) : M env Z :=
  try_except
    (match soup_like_aria sp with
     | Some aria =>
         m <- py_re_search re_digits aria ;;
         match m with
         | Some (g :: _) => py_int g
         | _ => ret 0%Z
         end
     | None => ret 0%Z
     end)
    (fun _ => ret 0%Z).

Definition parse_twitter (item : pyval) : M env pyval :=
  raw_html <- py_getitem item (lit "raw_html") ;;
  sp <- of_result (bs4_parse raw_html) ;;
  texto_limpo <- match soup_tweet_text sp with
                 | Some t => ret (PStr t)
                 | None => py_getitem item (lit "text")
                 end ;;
  data_iso <- match soup_time sp with
              | Some (Some d) => ret d
              | Some None => raise (KeyError (lit "datetime"))
              | None => n <- now ;; ret (isoformat n)
              end ;;
  likes <- twitter_likes sp ;;
  scraped_at <- get_scraped_date item ;;
  conteudo_pt <- traduzir_pt texto_limpo ;;
  ret (PDict [(lit "id_origem", PStr (data_iso ++ str_of_Z likes));
              (lit "plataforma", PStr (lit "X (Twitter)"));
              (lit "tipo_fonte", PStr (lit "Publico"));
              (lit "pais", PStr (lit "USA"));
              (lit "titulo_original", PNone);
              (lit "titulo_pt", PNone);
              (lit "conteudo_original", texto_limpo);
              (lit "conteudo_pt", conteudo_pt);
              (lit "data_publicacao", PStr data_iso);
              (lit "data_raspagem", scraped_at);
              (lit "engajamento", PInt likes);
              (lit "url", PStr (lit "https://x.com"))]).

(** *** The table [sentiment_data]

    A column of TEXT affinity holds NULL or text, whatever was bound; the two
    INTEGER columns hold whatever storage class the conversion leaves. *)
Record row : Type := {
  id_origem : option str;
  plataforma : option str;
  tipo_fonte : option str;
  pais : option str;
  titulo_original : option str;
  titulo_pt : option str;
  conteudo_original : option str;
  conteudo_pt : option str;
  data_publicacao : option str;
  data_raspagem : option str;
  engajamento : sqlval;
  ordem_coleta : sqlval;
  url : option str
}.

Definition is_surrogate (c : codepoint) : bool := ((55296 <=? c) && (c <=? 57343))%N.

(** How the [sqlite3] module adapts a Python object bound to parameter [name]. *)
Definition sqlite_bind (name : str) (v : pyval) : result sqlval :=
  match v with
  | PNone => Ret SNull
  | PBool b => Ret (SInt (if b then 1 else 0))
  | PInt z => if ((- 2 ^ 63 <=? z) && (z <? 2 ^ 63))%Z then Ret (SInt z)
              else Raise OverflowError
  | PFloat f => Ret (if PrimFloat.is_nan f then SNull else SReal f)
  | PStr s => if existsb is_surrogate s then Raise UnicodeEncodeError else Ret (SText s)
  | PList _ => Raise (InterfaceError name)
  | PDict _ => Raise (InterfaceError name)
  end.

(** The value of the named parameter [:name], taken from the dict. *)
Definition named_param (d : list (str * pyval)) (name : string) : result sqlval :=
  match dict_get d (lit name) with
  | Some v => sqlite_bind (lit name) v
  | None => Raise (ProgrammingError (lit name))
  end.

(** TEXT affinity: numbers are stored as their text. *)
Definition text_affinity (v : sqlval) : option str :=
  match v with
  | SNull => None
  | SInt z => Some (str_of_Z z)
  | SReal f => Some (real_to_text f)
  | SText s => Some s
  end.

(** INTEGER affinity: text that reads as a number and reals that are whole
    become numbers, by SQLite's own conversions. *)
Definition integer_affinity (v : sqlval) : sqlval :=
  match v with
  | SText s => numeric_of_text s
  | SReal f => integer_of_real f
  | _ => v
  end.

Definition rbind {A B : Type} (r : result A) (k : A -> result B) : result B :=
  match r with
  | Ret a => k a
  | Raise e => Raise e
  end.

(** The row [INSERT INTO sentiment_data VALUES (:id_origem, ...)] offers:
    the thirteen named parameters bound in order, then the column affinities. *)
Definition row_of_params (d : list (str * pyval)) : result row :=
  rbind (named_param d "id_origem") (fun v1 =>
  rbind (named_param d "plataforma") (fun v2 =>
  rbind (named_param d "tipo_fonte") (fun v3 =>
  rbind (named_param d "pais") (fun v4 =>
  rbind (named_param d "titulo_original") (fun v5 =>
  rbind (named_param d "titulo_pt") (fun v6 =>
  rbind (named_param d "conteudo_original") (fun v7 =>
  rbind (named_param d "conteudo_pt") (fun v8 =>
  rbind (named_param d "data_publicacao") (fun v9 =>
  rbind (named_param d "data_raspagem") (fun v10 =>
  rbind (named_param d "engajamento") (fun v11 =>
  rbind (named_param d "ordem_coleta") (fun v12 =>
  rbind (named_param d "url") (fun v13 =>
  Ret {| id_origem := text_affinity v1;
         plataforma := text_affinity v2;
         tipo_fonte := text_affinity v3;
         pais := text_affinity v4;
         titulo_original := text_affinity v5;
         titulo_pt := text_affinity v6;
         conteudo_original := text_affinity v7;
         conteudo_pt := text_affinity v8;
         data_publicacao := text_affinity v9;
         data_raspagem := text_affinity v10;
         engajamento := integer_affinity v11;
         ordem_coleta := integer_affinity v12;
         url := text_affinity v13 |}))))))))))))).

(** [a = b] on a TEXT column, as a uniqueness check or a WHERE clause sees
    it: NULL equals nothing, not even NULL. *)
Definition text_eq (a b : option str) : bool :=
  match a, b with
  | Some s, Some t => str_eqb s t
  | _, _ => false
  end.

(** [ON CONFLICT(id_origem) DO UPDATE SET engajamento=excluded.engajamento,
    conteudo_pt=..., titulo_pt=..., ordem_coleta=..., data_raspagem=...]. *)
Definition do_update (old excluded : row) : row :=
  {| id_origem := id_origem old;
     plataforma := plataforma old;
     tipo_fonte := tipo_fonte old;
     pais := pais old;
     titulo_original := titulo_original old;
     titulo_pt := titulo_pt excluded;
     conteudo_original := conteudo_original old;
     conteudo_pt := conteudo_pt excluded;
     data_publicacao := data_publicacao old;
     data_raspagem := data_raspagem excluded;
     engajamento := engajamento excluded;
     ordem_coleta := ordem_coleta excluded;
     url := url old |}.

(** The whole statement on a table: the offered row is appended unless a row
    holds the same primary key, and then that row is updated instead. *)
Definition upsert (new : row) (table : list row) : list row :=
  if existsb (fun old => text_eq (id_origem old) (id_origem new)) table
  then map (fun old => if text_eq (id_origem old) (id_origem new)
                       then do_update old new else old) table
  else table ++ [new].

(** *** orchestrator.py *)

(** The connection: what the file holds, and what the open transaction has
    written over it. *)
Record database : Type := { committed : list row; working : list row }.

Record session : Type := { s_env : env; s_db : database }.

Definition lift {A : Type} (m : M env A) : M session A :=
  fun w => let (r, e) := m (s_env w) in (r, {| s_env := e; s_db := s_db w |}).

Definition log (l : log_entry) : M session unit := lift (log_env l).

(** The open transaction is rolled back: what it wrote is gone. *)
Definition rollback (db : database) : database :=
  {| committed := committed db; working := committed db |}.

(** One request to the storage: it answers at the current count.  A request
    it refuses changes nothing of its own; some refusals (SQLite on a full
    disk, on an I/O error, when out of memory) also roll back the whole open
    transaction, and the next statement opens a new one. *)
Definition storage_request : M session unit :=
  fun w =>
    let n := ticks (s_env w) in
    if storage_fault n
    then (Raise OperationalError,
          {| s_env := tick (s_env w);
             s_db := if fault_rolls_back n then rollback (s_db w) else s_db w |})
    else (Ret tt, {| s_env := tick (s_env w); s_db := s_db w |}).

Definition set_working (f : list row -> list row) : M session unit :=
  fun w => (Ret tt, {| s_env := s_env w;
                       s_db := {| committed := committed (s_db w);
                                  working := f (working (s_db w)) |} |}).

(** [c.execute("INSERT ... ON CONFLICT ...", parsed)]. *)
Definition execute_upsert (parsed : pyval) : M session unit :=
  match parsed with
  | PDict d =>
      r <- of_result (row_of_params d) ;;
      storage_request ;;
      set_working (upsert r)
  | _ => raise (ProgrammingError [])
  end.

(** [conn.commit()]. *)
Definition commit : M session unit :=
  storage_request ;;
  fun w => (Ret tt, {| s_env := s_env w;
                       s_db := {| committed := working (s_db w);
                                  working := working (s_db w) |} |}).

(** [conn.close()]: what was not committed is rolled back. *)
Definition close : M session unit :=
  fun w => (Ret tt, {| s_env := s_env w;
                       s_db := {| committed := committed (s_db w);
                                  working := committed (s_db w) |} |}).

(** [CREATE TABLE IF NOT EXISTS] and its commit: the rows stay as they are. *)
Definition init_db : M session unit := storage_request.

(** The names of [SCRAPER_SCRIPTS]. *)
Definition SCRAPER_SCRIPTS : list str :=
  [lit "peoples_daily_scraper.py"; lit "wsj_scraper.py";
   lit "weibo_scraper.py"; lit "twitter_scraper.py"].

Definition run_scraper (script_name : str) : M session unit :=
  log (InfoRunScraper script_name) ;;
  outcome <- lift (fun s => (Ret (scraper_run (ticks s) script_name), tick s)) ;;
  match outcome with
  | ScraperOk => log (InfoScraperOk script_name)
  | ScraperFailed stderr => log (ErrorScraper script_name) ;; log (ErrorScraperStderr stderr)
  | ScraperNotRun e => log (ErrorScraperUnexpected script_name e)
  end.

Fixpoint for_each {S A : Type} (f : A -> M S unit) (l : list A) : M S unit :=
  match l with
  | [] => ret tt
  | a :: l' => f a ;; for_each f l'
  end.

Definition run_scrapers : M session unit :=
  log InfoCollectStart ;;
  for_each run_scraper SCRAPER_SCRIPTS ;;
  log InfoCollectDone.

(** What [enumerate(data)] iterates over. *)
Definition py_iter {S : Type} (data : pyval) : M S (list pyval) :=
  match data with
  | PList l => ret l
  | PDict d => ret (map (fun kv => PStr (fst kv)) d)
  | PStr s => ret (map (fun c => PStr [c]) s)
  | _ => raise TypeError
  end.

(** The body of the [try] inside the loop of [process_file]. *)
Definition save_item (parser_func : pyval -> M env pyval) (batch_date : str)
           (index : nat) (item : pyval) : M session unit :=
  parsed <- lift (parser_func item) ;;
  parsed <- py_setitem parsed (lit "data_raspagem") (PStr batch_date) ;;
  parsed <- py_setitem parsed (lit "ordem_coleta") (PInt (Z.of_nat index)) ;;
  execute_upsert parsed.

(** The loop [for index, item in enumerate(data)], from position [index] on,
    with the running [count]. *)
Fixpoint process_items (filename : str) (parser_func : pyval -> M env pyval)
         (batch_date : str) (index : nat) (items : list pyval) (count : nat)
  : M session nat :=
  match items with
  | [] => ret count
  | item :: rest =>
      count' <- try_except
                  (save_item parser_func batch_date index item ;; ret (S count))
                  (fun e => log (ErrorSave filename e) ;; ret count) ;;
      process_items filename parser_func batch_date (S index) rest count'
  end.

Definition process_file (filename : str) (parser_func : pyval -> M env pyval)
           (batch_date : str) : M session unit :=
  match output_dir filename with
  | FileMissing => log (WarnFileNotFound filename)
  | FileBadJson =>
      log (InfoProcessing filename batch_date) ;;
      log (ErrorJson filename)
  | FileRaises e =>
      log (InfoProcessing filename batch_date) ;;
      raise e
  | FileData data =>
      log (InfoProcessing filename batch_date) ;;
      items <- py_iter data ;;
      count <- process_items filename parser_func batch_date 0 items 0 ;;
      commit ;;
      log (InfoSaved count filename)
  end.

Definition main : M session unit :=
  n <- lift now ;;
  let current_batch_date := strftime_Ymd n in
  log (InfoBatchDate current_batch_date) ;;
  run_scrapers ;;
  init_db ;;
  process_file (lit "peoples_daily_raw.json") parse_peoples_daily current_batch_date ;;
  process_file (lit "wsj_raw.json") parse_wsj current_batch_date ;;
  process_file (lit "weibo_raw.json") parse_weibo current_batch_date ;;
  process_file (lit "twitter_raw.json") parse_twitter current_batch_date ;;
  close ;;
  log InfoDone.

End Pipeline.

(** ** api/main.py *)

(** The response model.  It declares twelve of the thirteen columns. *)
Record SentimentItem : Type := {
  item_id_origem : str;
  item_plataforma : str;
  item_tipo_fonte : str;
  item_pais : str;
  item_titulo_original : option str;
  item_titulo_pt : option str;
  item_conteudo_pt : option str;
  item_data_publicacao : str;
  item_data_raspagem : str;
  item_engajamento : Z;
  item_ordem_coleta : Z;
  item_url : option str
}.

(** BINARY collation: code point by code point, a proper prefix first. *)
Fixpoint str_leb (a b : str) : bool :=
  match a, b with
  | [], _ => true
  | _ :: _, [] => false
  | x :: a', y :: b' => if (x <? y)%N then true
                        else if (x =? y)%N then str_leb a' b' else false
  end.

(** Order of a TEXT column: NULL before any text. *)
Definition text_leb (a b : option str) : bool :=
  match a, b with
  | None, _ => true
  | Some _, None => false
  | Some s, Some t => str_leb s t
  end.

(** [ORDER BY data_publicacao DESC], rows of equal key left in rowid order. *)
Fixpoint insert_desc (r : row) (sorted : list row) : list row :=
  match sorted with
  | [] => [r]
  | x :: rest => if text_leb (data_publicacao r) (data_publicacao x)
                 then x :: insert_desc r rest
                 else r :: x :: rest
  end.
Definition order_by_data_publicacao_desc (rows : list row) : list row :=
  fold_left (fun acc r => insert_desc r acc) rows [].

(** [if pais:] on an optional query parameter. *)
Definition given (q : option str) : bool :=
  match q with
  | Some (_ :: _) => true
  | _ => false
  end.

(** "WHERE 1=1" and the clauses appended for the parameters that are given. *)
Definition where_clause (q_pais q_plataforma : option str) (r : row) : bool :=
  (if given q_pais then text_eq (pais r) q_pais else true)
  && (if given q_plataforma then text_eq (plataforma r) q_plataforma else true).

Section Query.
Context {W : World}.

(** A field declared [int]: an integer passes, NULL fails, and what the
    validator makes of a real or a text is the library's affair. *)
Definition validate_int (v : sqlval) : option Z :=
  match v with
  | SInt z => Some z
  | SNull => None
  | _ => pydantic_int v
  end.

(** [dict(row)] validated against [SentimentItem]: a field declared [str]
    refuses NULL, the fields not declared are dropped. *)
Definition to_item (r : row) : option SentimentItem :=
  match id_origem r, plataforma r, tipo_fonte r, pais r,
        data_publicacao r, data_raspagem r,
        validate_int (engajamento r), validate_int (ordem_coleta r) with
  | Some i, Some p, Some t, Some c, Some dp, Some dr, Some e, Some o =>
      Some {| item_id_origem := i;
              item_plataforma := p;
              item_tipo_fonte := t;
              item_pais := c;
              item_titulo_original := titulo_original r;
              item_titulo_pt := titulo_pt r;
              item_conteudo_pt := conteudo_pt r;
              item_data_publicacao := dp;
              item_data_raspagem := dr;
              item_engajamento := e;
              item_ordem_coleta := o;
              item_url := url r |}
  | _, _, _, _, _, _, _, _ => None
  end.

Fixpoint to_items (rows : list row) : option (list SentimentItem) :=
  match rows with
  | [] => Some []
  | r :: rows' => match to_item r, to_items rows' with
                  | Some i, Some is' => Some (i :: is')
                  | _, _ => None
                  end
  end.

(** [get_all_data]; [db] is the table in the database file, if the file exists. *)
Definition get_all_data (db : option (list row)) (q_pais q_plataforma : option str)
  : result (list SentimentItem) :=
  match db with
  | None => Raise (HTTPException 500)
  | Some table =>
      let rows := order_by_data_publicacao_desc
                    (filter (where_clause q_pais q_plataforma) table) in
      match to_items rows with
      | Some items => Ret items
      | None => Raise ResponseValidationError
      end
  end.

End Query.

(** ** The collectors' own data steps *)

(** *** twitter_scraper.py: one tweet per text *)

(** A collected tweet, [{"text": text, "raw_html": art.inner_html()}]. *)
Definition tweet_dict (text raw_html : str) : pyval :=
  PDict [(lit "text", PStr text); (lit "raw_html", PStr raw_html)].

(** [{t["text"]: t for t in tweets_collected}], the dict as it is built. *)
Definition tweets_by_text (tweets_collected : list (str * str)) : list (str * pyval) :=
  fold_left (fun d t => dict_set d (fst t) (tweet_dict (fst t) (snd t)))
            tweets_collected [].

(** [list(unique)], where [unique] is the [.values()] of that dict. *)
Definition unique_tweets (tweets_collected : list (str * str)) : list pyval :=
  map snd (tweets_by_text tweets_collected).

(** *** wsj_scraper.py and twitter_scraper.py: the sameSite of a cookie *)

Definition SAME_SITE_VALUES : list str := [lit "Strict"; lit "Lax"; lit "None"].

(** [v in ["Strict", "Lax", "None"]]. *)
Definition same_site_ok (v : pyval) : bool :=
  existsb (fun s => match v with PStr t => str_eqb t s | _ => false end) SAME_SITE_VALUES.

Section Cookies.
Context {S : Type}.

(** The body of [for c in cookies:]; the cookie after it. *)
Definition fix_same_site (c : pyval) : M S pyval :=
  has <- py_contains (lit "sameSite") c ;;
  if has then
    v <- py_getitem c (lit "sameSite") ;;
    if negb (same_site_ok v) then py_setitem c (lit "sameSite") (PStr (lit "Lax"))
    else ret c
  else ret c.

Fixpoint fix_cookies (cookies : list pyval) : M S (list pyval) :=
  match cookies with
  | [] => ret []
  | c :: rest =>
      c' <- fix_same_site c ;;
      rest' <- fix_cookies rest ;;
      ret (c' :: rest')
  end.

(** The loop on what [json.load] gave, and the object handed to
    [context.add_cookies]: the same list, its dicts updated in place. *)
Definition load_cookies_fix (cookies : pyval) : M S pyval :=
  match cookies with
  | PList l => l' <- fix_cookies l ;; ret (PList l')
  | _ => items <- py_iter cookies ;; fix_cookies items ;; ret cookies
  end.

End Cookies.

(** *** weibo_scraper.py: the posts of one page, the ones not seen yet *)

(** What the loop reads of a post: [post.get("mid")], [post["text"]]; the
    other fields travel along. *)
Record weibo_post : Type := {
  wp_mid : option str;
  wp_text : str;
  wp_rest : list (str * pyval)
}.

(** [(post.get("mid"), post["text"][:120])]. *)
Definition post_key (p : weibo_post) : option str * str :=
  (wp_mid p, firstn 120 (wp_text p)).

Definition key_eqb (a b : option str * str) : bool :=
  match fst a, fst b with
  | None, None => str_eqb (snd a) (snd b)
  | Some x, Some y => str_eqb x y && str_eqb (snd a) (snd b)
  | _, _ => false
  end.

(** The variables the loop over [page_posts] updates. *)
Record scrape_state : Type := {
  all_posts : list weibo_post;
  seen_keys : list (option str * str);
  new_count : nat
}.

(** [for post in page_posts: ...], with its [continue] and its [break]. *)
Fixpoint keep_new_posts (posts_limit : Z) (page_posts : list weibo_post)
         (st : scrape_state) : scrape_state :=
  match page_posts with
  | [] => st
  | post :: rest =>
      let key := post_key post in
      if existsb (key_eqb key) (seen_keys st) then keep_new_posts posts_limit rest st
      else
        let st' := {| all_posts := all_posts st ++ [post];
                      seen_keys := key :: seen_keys st;
                      new_count := S (new_count st) |} in
        if (Z.of_nat (List.length (all_posts st')) >=? posts_limit)%Z then st'
        else keep_new_posts posts_limit rest st'
  end.

(** *** weibo_scraper.py: page after page *)

Definition MAX_NO_NEW_PAGES : nat := 2.

(** [while page_num <= max_pages and len(all_posts) < posts_limit: ...];
    [remaining] is the number of page numbers not yet past [max_pages],
    [fetch page_num] the posts [parse_posts] found on that page, or nothing
    when [page.goto] raised. *)
Fixpoint scrape_pages (fetch : nat -> option (list weibo_post)) (posts_limit : Z)
         (remaining page_num no_new_pages : nat) (st : scrape_state) : scrape_state :=
  match remaining with
  | O => st
  | S remaining' =>
      if (Z.of_nat (List.length (all_posts st)) <? posts_limit)%Z then
        match fetch page_num with
        | None => st
        | Some page_posts =>
            let st' := keep_new_posts posts_limit page_posts
                         {| all_posts := all_posts st;
                            seen_keys := seen_keys st;
                            new_count := 0 |} in
            if Nat.eqb (new_count st') 0 then
              let no_new_pages' := S no_new_pages in
              if (MAX_NO_NEW_PAGES <=? no_new_pages')%nat then st'
              else scrape_pages fetch posts_limit remaining' (S page_num) no_new_pages' st'
            else scrape_pages fetch posts_limit remaining' (S page_num) 0 st'
        end
      else st
  end.

(** The posts [run_scraper] writes to weibo_raw.json. *)
Definition run_scraper_posts (fetch : nat -> option (list weibo_post))
           (posts_limit : Z) (max_pages : nat) : list weibo_post :=
  all_posts (scrape_pages fetch posts_limit max_pages 1 0
               {| all_posts := []; seen_keys := []; new_count := 0 |}).

(** *** peoples_daily_scraper.py: from the cards of the page to the articles *)

(** What the calls on one card give, each a value or what it raised:
    [title_el.inner_text()] and [title_el.get_attribute("href")]
    (AttributeError when the card has no title link), the text of the date
    and of the summary, none when the card has no such element. *)
Record card : Type := {
  card_title : result str;
  card_href : result (option str);
  card_date : result (option str);
  card_summary : result (option str)
}.

Section Peoples_daily_scraper.
Context {W : World}.

Fixpoint lstrip (s : str) : str :=
  match s with
  | [] => []
  | c :: s' => if is_space c then lstrip s' else s
  end.

(** [s.strip()]. *)
Definition py_strip (s : str) : str := rev (lstrip (rev (lstrip s))).

Definition opt_text (o : option str) : pyval :=
  match o with
  | Some s => PStr (py_strip s)
  | None => PNone
  end.

Definition cfg_get (cfg : list (str * pyval)) (k : string) : result pyval :=
  match dict_get cfg (lit k) with
  | Some v => Ret v
  | None => Raise (KeyError (lit k))
  end.

(** The body of the [try] of the loop over the cards; [scraped_at] is
    [datetime.now(timezone.utc).isoformat()] as read for this card. *)
Definition article_of_card (cfg : list (str * pyval)) (c : card) (scraped_at : str)
  : result pyval :=
  rbind (card_title c) (fun t =>
  let title := py_strip t in
  rbind (card_href c) (fun href =>
  rbind (match href with
         | Some h => Ret (if is_prefix (lit "http") h then h
                          else lit "https://data.people.com.cn" ++ h)
         | None => Raise AttributeError
         end) (fun url =>
  rbind (card_date c) (fun date =>
  let published_date := opt_text date in
  rbind (card_summary c) (fun sm =>
  let summary := opt_text sm in
  rbind (cfg_get cfg "source") (fun source =>
  rbind (cfg_get cfg "country") (fun country =>
  Ret (PDict [(lit "source", source);
              (lit "country", country);
              (lit "title", PStr title);
              (lit "url", PStr url);
              (lit "published_date", published_date);
              (lit "summary", summary);
              (lit "author", PNone);
              (lit "scraped_at", PStr scraped_at)])))))))).

(** [cards[:n]] for an integer [n]. *)
Definition slice_to (n : Z) (cards : list card) : list card :=
  if (0 <=? n)%Z then firstn (Z.to_nat n) cards
  else firstn (List.length cards - Z.to_nat (- n)) cards.

(** [for card in ...: try: ... results.append(...) except Exception as e:
    logging.warning(...); continue]: the articles appended, and what the
    warnings report; [clock_iso i] is the time read at the [i]-th card. *)
Fixpoint collect_articles (cfg : list (str * pyval)) (clock_iso : nat -> str)
         (i : nat) (cards : list card) : list pyval * list exn :=
  match cards with
  | [] => ([], [])
  | c :: rest =>
      let (results, warnings) := collect_articles cfg clock_iso (S i) rest in
      match article_of_card cfg c (clock_iso i) with
      | Ret a => (a :: results, warnings)
      | Raise e => (results, e :: warnings)
      end
  end.

(** What [run_peoples_daily_scraper] writes to peoples_daily_raw.json once
    the page has loaded. *)
Definition peoples_daily_results (cfg : list (str * pyval)) (max_articles : Z)
           (clock_iso : nat -> str) (cards : list card) : list pyval :=
  fst (collect_articles cfg clock_iso 0 (slice_to max_articles cards)).

End Peoples_daily_scraper.

(** ** Counting rows by key *)

Definition has_key (k : str) (r : row) : bool := text_eq (id_origem r) (Some k).
Definition count_key (k : str) (table : list row) : nat :=
  List.length (filter (has_key k) table).
Definition unique_keys (table : list row) : Prop :=
  forall k, (count_key k table <= 1)%nat.
Definition upserts (rs : list row) (table : list row) : list row :=
  fold_left (fun t r => upsert r t) rs table.

(** The columns an update leaves alone, and the columns it takes from the
    offered row. *)
Definition same_immutable (a b : row) : Prop :=
  id_origem a = id_origem b /\ plataforma a = plataforma b
  /\ tipo_fonte a = tipo_fonte b /\ pais a = pais b
  /\ titulo_original a = titulo_original b
  /\ conteudo_original a = conteudo_original b
  /\ data_publicacao a = data_publicacao b /\ url a = url b.
Definition takes_mutable (r new : row) : Prop :=
  engajamento r = engajamento new /\ conteudo_pt r = conteudo_pt new
  /\ titulo_pt r = titulo_pt new /\ ordem_coleta r = ordem_coleta new
  /\ data_raspagem r = data_raspagem new.

(** A property of both sides of the connection. *)
Definition db_all (P : list row -> Prop) (db : database) : Prop :=
  P (committed db) /\ P (working db).

(** ** The vocabulary of the properties *)

(** A property of the table a step keeps. *)
Definition preserves {A : Type} (I : database -> Prop) (m : M session A) : Prop :=
  forall w, I (s_db w) -> I (s_db (snd (m w))).

(** Upserting a row that carries the batch date [bd] keeps [P]. *)
Definition closed_under_upsert (bd : str) (P : list row -> Prop) : Prop :=
  forall r t, data_raspagem r = Some bd -> P t -> P (upsert r t).

(** [t] is [t0] after upserts of rows that all carry the batch date [bd]. *)
Definition written (bd : str) (t0 t : list row) : Prop :=
  exists rs, Forall (fun r => data_raspagem r = Some bd) rs /\ t = upserts rs t0.

(** The immutable columns of the rows of [t0], in their order, are those of
    the first rows of [t]. *)
Definition extends (t0 t : list row) : Prop :=
  exists kept rest, t = kept ++ rest /\ Forall2 same_immutable t0 kept.

(** The order of the answer: no row is followed by a row of a later date. *)
Definition not_before (a b : row) : Prop :=
  text_leb (data_publicacao b) (data_publicacao a) = true.

(** What a query parameter asks of a column: nothing when it is absent or
    empty, equality otherwise. *)
Definition asks (q : option str) (column : option str) : Prop :=
  match q with
  | Some (c :: s) => column = Some (c :: s)
  | _ => True
  end.

(** The ASCII digit of a number below ten. *)
Definition digit (a : N) : codepoint := (48 + a)%N.

Section Vocabulary.
Context {W : World}.

(** The text is empty or begins with something that is no digit. *)
Definition no_digit_ahead (s : str) : Prop :=
  match s with
  | [] => True
  | c :: _ => in_class ClsDigit c = false
  end.

(** The input reaches none of the shapes the pattern expects. *)
Definition unmatched (re : regex) (x : pyval) : Prop :=
  match x with
  | PStr s => re_search re s = None
  | _ => True
  end.


(** The twelve fields of an item, read off the row. *)
Definition shows (r : row) (i : SentimentItem) : Prop :=
  id_origem r = Some (item_id_origem i)
  /\ plataforma r = Some (item_plataforma i)
  /\ tipo_fonte r = Some (item_tipo_fonte i)
  /\ pais r = Some (item_pais i)
  /\ titulo_original r = item_titulo_original i
  /\ titulo_pt r = item_titulo_pt i
  /\ conteudo_pt r = item_conteudo_pt i
  /\ data_publicacao r = Some (item_data_publicacao i)
  /\ data_raspagem r = Some (item_data_raspagem i)
  /\ validate_int (engajamento r) = Some (item_engajamento i)
  /\ validate_int (ordem_coleta r) = Some (item_ordem_coleta i)
  /\ url r = item_url i.


(** A row the response model accepts. *)
Definition servable (r : row) : Prop := exists i, to_item r = Some i.

End Vocabulary.



(** The scripts a log says were started, in order. *)
Definition scripts_started (l : list log_entry) : list str :=
  flat_map (fun e => match e with InfoRunScraper n => [n] | _ => [] end) l.

(** What [enumerate] accepts: a list, a dict or a string. *)
Definition iterable (data : pyval) : bool :=
  match data with
  | PList _ | PDict _ | PStr _ => true
  | _ => false
  end.

(** A file the orchestrator reads or skips: it is missing, or the decoder
    raises [json.JSONDecodeError] on it, or it decodes to something
    [enumerate] accepts. *)
Definition readable_or_skipped (st : file_status) : Prop :=
  match st with
  | FileMissing | FileBadJson => True
  | FileRaises _ => False
  | FileData data => iterable data = true
  end.

(** A file the orchestrator skips: it is missing, or the decoder raises
    [json.JSONDecodeError] on it. *)
Definition unreadable (st : file_status) : Prop :=
  match st with
  | FileMissing | FileBadJson => True
  | FileRaises _ | FileData _ => False
  end.

(** A computation that returns from every state. *)
Definition succeeds {S A : Type} (m : M S A) : Prop :=
  forall s, exists a s', m s = (Ret a, s').

(** A row a field of which the response model refuses. *)
Definition lacks_required_field (r : row) : Prop :=
  id_origem r = None \/ plataforma r = None \/ tipo_fonte r = None \/ pais r = None
  \/ data_publicacao r = None \/ data_raspagem r = None
  \/ engajamento r = SNull \/ ordem_coleta r = SNull.

(** [s.zfill(2)] on a string of digits. *)
Definition zfill2 (s : str) : str := if (List.length s <? 2)%nat then 48%N :: s else s.

(** A text short enough for the translator to leave alone, or no text. *)
Definition too_short (texto : pyval) : Prop :=
  match texto with
  | PNone => True
  | PStr s => (List.length s < 3)%nat
  | _ => False
  end.

(** [d.get(k)] with the key written as in the source. *)
Definition field (d : list (str * pyval)) (k : string) : option pyval := dict_get d (lit k).

(** The summary of a raw article is a text, null, or not there. *)
Definition summary_is_text_or_missing (d : list (str * pyval)) : Prop :=
  match field d "summary" with
  | None | Some PNone | Some (PStr _) => True
  | _ => False
  end.

(** A computation that returns from the state [s]. *)
Definition returns_at {S A : Type} (m : M S A) (s : S) : Prop :=
  exists a s', m s = (Ret a, s').

(** The two keys [process_file] writes into a mapper's record. *)
Definition stamp (fields : list (str * pyval)) (bd : str) (index : nat) : list (str * pyval) :=
  dict_set (dict_set fields (lit "data_raspagem") (PStr bd))
           (lit "ordem_coleta") (PInt (Z.of_nat index)).

(** Every raw item that is a dict has a string for url. *)
Definition urls_are_strings (items : list pyval) : Prop :=
  forall item d, In item items -> item = PDict d ->
                 exists u, field d "url" = Some (PStr u).

(** The texts of a run of collected tweets, each once, in the order in which
    they were first seen. *)
Definition first_seen (texts : list str) : list str :=
  fold_left (fun acc t => if existsb (str_eqb t) acc then acc else acc ++ [t]) texts [].

(** The html of the last collected tweet that has the text [text]. *)
Definition last_html (text : str) (tweets : list (str * str)) : str :=
  fold_left (fun acc t => if str_eqb (fst t) text then snd t else acc) tweets [].

(** What the loop of the Weibo collector keeps between two posts: the keys
    seen are the keys of the posts kept, and no two posts kept share a key. *)
Definition keys_in_step (st : scrape_state) : Prop :=
  (forall k, In k (seen_keys st) <-> In k (map post_key (all_posts st)))
  /\ NoDup (map post_key (all_posts st)).

Definition is_dict (v : pyval) : Prop :=
  match v with
  | PDict _ => True
  | _ => False
  end.

(** A cookie and the same cookie after the sameSite fix. *)
Definition same_site_fixed (c c' : pyval) : Prop :=
  exists d d',
    c = PDict d /\ c' = PDict d'
    /\ map fst d' = map fst d
    /\ (forall k, k <> lit "sameSite" -> dict_get d' k = dict_get d k)
    /\ match field d "sameSite" with
       | None => d' = d
       | Some v => field d' "sameSite"
                   = Some (if same_site_ok v then v else PStr (lit "Lax"))
       end
    /\ (forall v, field d' "sameSite" = Some v -> same_site_ok v = true).

(** A raw article as the People's Daily collector builds it: a dict whose
    url is a string that begins with http and whose title is a string. *)
Definition well_formed_article (a : pyval) : Prop :=
  exists d u t,
    a = PDict d /\ field d "url" = Some (PStr u) /\ is_prefix (lit "http") u = true
    /\ field d "title" = Some (PStr t).

Section Items.
Context {W : World}.

(** At the state [e] the mapper returns a record on the item, and the
    statement can bind the record once the batch date and the position
    [index] are written into it. *)
Definition saved_by (parser_func : pyval -> M env pyval) (bd : str) (index : nat)
           (item : pyval) (e : env) : bool :=
  match parser_func item e with
  | (Ret (PDict fields), _) =>
      match row_of_params (stamp fields bd index) with
      | Ret _ => true
      | Raise _ => false
      end
  | _ => false
  end.

(** At the state [e] the mapper raises on the item. *)
Definition refused_by (parser_func : pyval -> M env pyval) (item : pyval) (e : env) : bool :=
  match parser_func item e with
  | (Raise _, _) => true
  | _ => false
  end.

(** The row is the one bound from a record the mapper returned on the item,
    stamped with the batch date and the position the row is paired with. *)
Definition row_of_item (parser_func : pyval -> M env pyval) (bd : str)
           (item : pyval) (jr : nat * row) : Prop :=
  exists e fields e',
    parser_func item e = (Ret (PDict fields), e')
    /\ row_of_params (stamp fields bd (fst jr)) = Ret (snd jr).

End Items.

(** ** A sample world and sample raw items *)

Module Sample.

Definition at_date (y m : Z) : datetime :=
  {| dt_year := y; dt_month := m; dt_day := 15;
     dt_hour := 9; dt_minute := 30; dt_second := 0; dt_microsecond := 0;
     dt_utcoffset := None |}.

(** A world whose clock stands at the 15th of month [m] of year [y], whose
    backend returns every text as it is, and whose storage fails exactly
    when [fault] says so. *)
Definition world (y m : Z) (files : str -> file_status) (fault : nat -> bool) : World :=
  {| clock := fun _ => at_date y m;
     gtranslate := fun _ v => Some v;
     uni_decimal := fun _ => None;
     uni_space := fun _ => false;
     fromisoformat := fun _ => None;
     isoformat := fun d => str_of_Z (dt_year d) ++ lit "-" ++ fmt_02d (dt_month d)
                           ++ lit "-" ++ fmt_02d (dt_day d) ++ lit "T09:30:00";
     strftime_Ymd := fun d => str_of_Z (dt_year d) ++ lit "-" ++ fmt_02d (dt_month d)
                              ++ lit "-" ++ fmt_02d (dt_day d);
     datetime_sub := fun d _ => Some d;
     bs4_parse := fun _ => Raise TypeError;
     output_dir := files;
     storage_fault := fault;
     fault_rolls_back := fun _ => false;
     real_to_text := fun _ => lit "0.0";
     numeric_of_text := fun s => SText s;
     integer_of_real := fun f => SReal f;
     pydantic_int := fun _ => None;
     int_max_str_digits := Some 3660%nat;
     scraper_run := fun _ _ => ScraperOk |}.

Definition no_files : str -> file_status := fun _ => FileMissing.
Definition no_fault : nat -> bool := fun _ => false.

Definition env0 : env := {| ticks := 0; logs := [] |}.
Definition empty_db : database := {| committed := []; working := [] |}.
Definition session0 : session := {| s_env := env0; s_db := empty_db |}.

(** "2025年12月22日" and "12月21日 17:11". *)
Definition chinese_date : str := lit "2025" ++ [nian] ++ lit "12" ++ [yue] ++ lit "22" ++ [ri].
Definition weibo_date : str := lit "12" ++ [yue] ++ lit "21" ++ [ri] ++ lit " 17:11".

(** An article as the People's Daily collector writes it. *)
Definition article_fields (url title : string) (summary : pyval) : list (str * pyval) :=
  [(lit "source", PStr (lit "People's Daily"));
   (lit "country", PStr (lit "China"));
   (lit "title", PStr (lit title));
   (lit "url", PStr (lit url));
   (lit "published_date", PStr chinese_date);
   (lit "summary", summary);
   (lit "author", PNone);
   (lit "scraped_at", PStr (lit "2025-06-01T10:00:00+00:00"))].
Definition article (url title : string) (summary : pyval) : pyval :=
  PDict (article_fields url title summary).

(** The same with no title. *)
Definition untitled (url : string) : pyval :=
  PDict [(lit "source", PStr (lit "People's Daily"));
         (lit "country", PStr (lit "China"));
         (lit "url", PStr (lit url));
         (lit "published_date", PStr chinese_date);
         (lit "summary", PNone);
         (lit "scraped_at", PStr (lit "2025-06-01T10:00:00+00:00"))].

Definition only_peoples_daily (data : pyval) : str -> file_status :=
  fun f => if str_eqb f (lit "peoples_daily_raw.json") then FileData data else FileMissing.

Definition a_row (id : string) (content : string) (published : string) : row :=
  {| id_origem := Some (lit id);
     plataforma := Some (lit "WSJ");
     tipo_fonte := Some (lit "Midia");
     pais := Some (lit "USA");
     titulo_original := Some (lit "title");
     titulo_pt := Some (lit "titulo");
     conteudo_original := Some (lit content);
     conteudo_pt := Some (lit "conteudo");
     data_publicacao := Some (lit published);
     data_raspagem := Some (lit "2025-06-15");
     engajamento := SInt 0;
     ordem_coleta := SInt 0;
     url := Some (lit id) |}.

Definition pd_file : str := lit "peoples_daily_raw.json".

Definition article_a : pyval := article "https://people.cn/a" "AI rises" PNone.
Definition article_b : pyval :=
  article "https://people.cn/b" "AI falls" (PStr (lit "A summary")).
Definition article_c : pyval := article "https://people.cn/c" "AI again" PNone.
Definition article_d : pyval := article "https://people.cn/d" "AI still" PNone.
Definition article_e : pyval := article "https://people.cn/e" "AI ever" PNone.
Definition malformed : pyval := untitled "https://people.cn/x".

(** A world of June 2025 with one People's Daily file and a storage that
    never fails. *)
Definition june (data : list pyval) : World :=
  world 2025 6 (only_peoples_daily (PList data)) no_fault.

(** The same, but the storage refuses the request made at count [n]. *)
Definition june_fault_at (n : nat) (data : list pyval) : World :=
  world 2025 6 (only_peoples_daily (PList data)) (Nat.eqb n).

Definition some_dict (r : result pyval) : list (str * pyval) :=
  match r with
  | Ret (PDict d) => d
  | _ => []
  end.
Definition some_row (r : result row) : row :=
  match r with
  | Ret x => x
  | Raise _ => a_row "" "" ""
  end.

(** The row a WSJ card without href leaves: no origin_id, no url. *)
Definition null_id_row : row :=
  {| id_origem := None;
     plataforma := Some (lit "WSJ");
     tipo_fonte := Some (lit "Midia");
     pais := Some (lit "USA");
     titulo_original := Some (lit "title");
     titulo_pt := Some (lit "titulo");
     conteudo_original := None;
     conteudo_pt := None;
     data_publicacao := Some (lit "2025-06-01T10:00:00");
     data_raspagem := Some (lit "2025-06-15");
     engajamento := SInt 0;
     ordem_coleta := SInt 0;
     url := None |}.

(** The world of [world], with an ISO parser that reads every text as the
    15th of June 2025, 09:30, and a subtraction that moves the minute field. *)
Definition dated_world : World :=
  {| clock := fun _ => at_date 2025 6;
     gtranslate := fun _ v => Some v;
     uni_decimal := fun _ => None;
     uni_space := fun _ => false;
     fromisoformat := fun _ => Some (at_date 2025 6);
     isoformat := fun d => str_of_Z (dt_year d) ++ lit "-" ++ fmt_02d (dt_month d)
                           ++ lit "-" ++ fmt_02d (dt_day d) ++ lit "T"
                           ++ fmt_02d (dt_hour d) ++ lit ":" ++ fmt_02d (dt_minute d)
                           ++ lit ":00";
     strftime_Ymd := fun d => str_of_Z (dt_year d) ++ lit "-" ++ fmt_02d (dt_month d)
                              ++ lit "-" ++ fmt_02d (dt_day d);
     datetime_sub := fun d td =>
       Some {| dt_year := dt_year d; dt_month := dt_month d; dt_day := dt_day d;
               dt_hour := (dt_hour d - td_seconds td / 3600)%Z;
               dt_minute := (dt_minute d - (td_seconds td mod 3600) / 60)%Z;
               dt_second := 0; dt_microsecond := 0; dt_utcoffset := None |};
     bs4_parse := fun _ =>
       Ret {| soup_tweet_text := None;
              soup_time := Some (Some (lit "2025-06-01T10:00:00.000Z"));
              soup_like_aria := Some (PStr (lit "12 Likes. Like")) |};
     output_dir := no_files;
     storage_fault := no_fault;
     fault_rolls_back := fun _ => false;
     real_to_text := fun _ => lit "0.0";
     numeric_of_text := fun s => SText s;
     integer_of_real := fun f => SReal f;
     pydantic_int := fun _ => None;
     int_max_str_digits := Some 3660%nat;
     scraper_run := fun _ _ => ScraperOk |}.

(** A WSJ card whose snippet and timestamp were not found. *)
Definition wsj_card : pyval :=
  PDict [(lit "source", PStr (lit "The Wall Street Journal"));
         (lit "country", PStr (lit "USA"));
         (lit "title", PStr (lit "Chips and tariffs"));
         (lit "url", PStr (lit "https://wsj.com/a"));
         (lit "published_date", PNone);
         (lit "summary", PNone);
         (lit "author", PNone);
         (lit "scraped_at", PStr (lit "2025-06-01T10:00:00.123456"))].

(** A Weibo post as [parse_posts] builds it. *)
Definition weibo_item : pyval :=
  PDict [(lit "mid", PStr (lit "5170000000000001"));
         (lit "text", PStr (lit "a post about models"));
         (lit "raw_html", PStr (lit "<p>a post about models</p>"));
         (lit "user_name", PStr (lit "someone"));
         (lit "user_url", PStr (lit "https://weibo.com/u/1"));
         (lit "timestamp", PStr weibo_date);
         (lit "region", PNone);
         (lit "likes", PInt 42);
         (lit "scraped_at", PStr (lit "2025-06-01T10:00:00+00:00"))].

(** Two tweets of different texts. *)
Definition tweet_one : pyval := tweet_dict (lit "first tweet") (lit "<div>first</div>").
Definition tweet_two : pyval := tweet_dict (lit "second tweet") (lit "<div>second</div>").

Definition the_soup : soup :=
  {| soup_tweet_text := None;
     soup_time := Some (Some (lit "2025-06-01T10:00:00.000Z"));
     soup_like_aria := Some (PStr (lit "12 Likes. Like")) |}.

(** Three collected tweets, the first and the last with the same text. *)
Definition collected : list (str * str) :=
  [(lit "first tweet", lit "<div>early</div>");
   (lit "second tweet", lit "<div>second</div>");
   (lit "first tweet", lit "<div>late</div>")].

Definition post (mid : option str) (text : string) : weibo_post :=
  {| wp_mid := mid; wp_text := lit text; wp_rest := [] |}.

(** A page of three posts, the first and the last with the same key. *)
Definition page : list weibo_post :=
  [post (Some (lit "501")) "a post about models";
   post None "a post with no mid";
   post (Some (lit "501")) "a post about models"].

Definition scrape0 : scrape_state :=
  {| all_posts := []; seen_keys := []; new_count := 0 |}.

(** Cookies as a browser extension exports them. *)
Definition cookies : list pyval :=
  [PDict [(lit "name", PStr (lit "sid")); (lit "sameSite", PStr (lit "no_restriction"))];
   PDict [(lit "name", PStr (lit "lang")); (lit "sameSite", PStr (lit "Strict"))];
   PDict [(lit "name", PStr (lit "tz"))]].

(** Three cards: one whole, one with a relative link and neither date nor
    summary, one with no title link. *)
Definition cards : list card :=
  [{| card_title := Ret (lit " AI rises ");
      card_href := Ret (Some (lit "https://people.cn/a"));
      card_date := Ret (Some chinese_date);
      card_summary := Ret (Some (lit "A summary")) |};
   {| card_title := Ret (lit "AI falls");
      card_href := Ret (Some (lit "/detail/2"));
      card_date := Ret None;
      card_summary := Ret None |};
   {| card_title := Raise AttributeError;
      card_href := Raise AttributeError;
      card_date := Ret None;
      card_summary := Ret None |}].

Definition cfg : list (str * pyval) :=
  [(lit "source", PStr (lit "People's Daily")); (lit "country", PStr (lit "China"));
   (lit "max_articles", PInt 20)].

(** Pages of the Weibo search: the sample page twice, then nothing. *)
Definition fetch (page_num : nat) : option (list weibo_post) :=
  match page_num with
  | 1%nat | 2%nat => Some page
  | _ => None
  end.


(** A connection with nothing uncommitted whose table holds one row, an
    article of an earlier run. *)
Definition earlier_row : row := a_row "https://people.cn/a" "earlier text" "2025-05-30T00:00:00".
Definition session1 : session :=
  {| s_env := env0; s_db := {| committed := [earlier_row]; working := [earlier_row] |} |}.


(** The world [W0] with a storage that refuses the request made at count
    [n] and rolls the open transaction back on it, as on a full disk. *)
Definition disk_full_at (n : nat) (W0 : World) : World :=
  {| clock := @clock W0;
     gtranslate := @gtranslate W0;
     uni_decimal := @uni_decimal W0;
     uni_space := @uni_space W0;
     fromisoformat := @fromisoformat W0;
     isoformat := @isoformat W0;
     strftime_Ymd := @strftime_Ymd W0;
     datetime_sub := @datetime_sub W0;
     bs4_parse := @bs4_parse W0;
     output_dir := @output_dir W0;
     storage_fault := Nat.eqb n;
     fault_rolls_back := Nat.eqb n;
     real_to_text := @real_to_text W0;
     numeric_of_text := @numeric_of_text W0;
     integer_of_real := @integer_of_real W0;
     pydantic_int := @pydantic_int W0;
     int_max_str_digits := @int_max_str_digits W0;
     scraper_run := @scraper_run W0 |}.

(** Files of which one is not JSON and one is not UTF-8. *)
Definition bad_json_files : str -> file_status :=
  fun f => if str_eqb f (lit "wsj_raw.json") then FileBadJson else FileMissing.
Definition not_utf8_files : str -> file_status :=
  fun f => if str_eqb f (lit "peoples_daily_raw.json") then FileRaises UnicodeDecodeError
           else FileMissing.

(** A connection whose open transaction has written one row the database
    file does not hold yet. *)
Definition session_open : session :=
  {| s_env := env0; s_db := {| committed := []; working := [earlier_row] |} |}.

End Sample.

(** ** Strings, dicts and keys *)

Lemma str_eqb_refl (a : str) : str_eqb a a = true.
Proof.
  induction a as [|x a IH]; simpl; [reflexivity|].
  now rewrite N.eqb_refl.
Qed.

Lemma str_eqb_eq (a b : str) : str_eqb a b = true <-> a = b.
Proof.
  split; [|intros ->; apply str_eqb_refl].
  revert b; induction a as [|x a IH]; intros [|y b]; simpl; try discriminate; auto.
  rewrite andb_true_iff, N.eqb_eq. intros [-> H]. f_equal. auto.
Qed.

Lemma str_eqb_neq (a b : str) : str_eqb a b = false <-> a <> b.
Proof.
  rewrite <- str_eqb_eq. destruct (str_eqb a b); split; congruence.
Qed.

Lemma dict_get_set_same (d : list (str * pyval)) (k : str) (v : pyval) :
  dict_get (dict_set d k v) k = Some v.
Proof.
  induction d as [|[k' v'] d IH]; simpl.
  - now rewrite str_eqb_refl.
  - destruct (str_eqb k' k) eqn:E; simpl; rewrite E; auto.
Qed.

Lemma dict_get_set_other (d : list (str * pyval)) (k k' : str) (v : pyval) :
  k <> k' -> dict_get (dict_set d k v) k' = dict_get d k'.
Proof.
  intros Hk. induction d as [|[k1 v1] d IH]; simpl.
  - apply str_eqb_neq in Hk. now rewrite Hk.
  - destruct (str_eqb k1 k) eqn:E; simpl.
    + apply str_eqb_eq in E; subst k1.
      apply str_eqb_neq in Hk. now rewrite Hk.
    + destruct (str_eqb k1 k'); auto.
Qed.

Lemma has_key_iff (k : str) (r : row) : has_key k r = true <-> id_origem r = Some k.
Proof.
  unfold has_key, text_eq. destruct (id_origem r) as [s|]; [|split; discriminate].
  rewrite str_eqb_eq. split; congruence.
Qed.

Lemma text_eq_key (a : option str) (k : str) : text_eq a (Some k) = true <-> a = Some k.
Proof.
  unfold text_eq. destruct a as [s|]; [|split; discriminate].
  rewrite str_eqb_eq. split; congruence.
Qed.

(** ** The upsert on a table *)

Lemma count_key_app (k : str) (t1 t2 : list row) :
  count_key k (t1 ++ t2) = (count_key k t1 + count_key k t2)%nat.
Proof. unfold count_key. now rewrite filter_app, length_app. Qed.

Lemma count_key_map (k : str) (f : row -> row) (t : list row) :
  (forall r, id_origem (f r) = id_origem r) ->
  count_key k (map f t) = count_key k t.
Proof.
  intros Hf. unfold count_key. induction t as [|r t IH]; simpl; [reflexivity|].
  assert (E : has_key k (f r) = has_key k r) by (unfold has_key; now rewrite Hf).
  rewrite E. destruct (has_key k r); simpl; auto.
Qed.

Lemma existsb_count_key (k : str) (t : list row) :
  existsb (has_key k) t = negb (Nat.eqb (count_key k t) 0).
Proof.
  unfold count_key. induction t as [|r t IH]; simpl; [reflexivity|].
  destruct (has_key k r); simpl; auto.
Qed.

Lemma upsert_key (new : row) (k : str) (t : list row) :
  id_origem new = Some k ->
  upsert new t =
    if existsb (has_key k) t
    then map (fun old => if has_key k old then do_update old new else old) t
    else t ++ [new].
Proof. intros Hk. unfold upsert, has_key. now rewrite Hk. Qed.

Lemma upsert_null (new : row) (t : list row) :
  id_origem new = None -> upsert new t = t ++ [new].
Proof.
  intros Hk. unfold upsert. rewrite Hk.
  replace (existsb _ t) with false; [reflexivity|].
  induction t as [|r t IH]; simpl; [reflexivity|].
  rewrite <- IH. unfold text_eq. now destruct (id_origem r).
Qed.

Lemma keep_id_origem (k : str) (new old : row) :
  id_origem (if has_key k old then do_update old new else old) = id_origem old.
Proof. now destruct (has_key k old). Qed.

(** The key just offered is held by one row if it was new, and by as many
    rows as before otherwise. *)
Lemma count_key_upsert_same (new : row) (k : str) (t : list row) :
  id_origem new = Some k ->
  count_key k (upsert new t) = (if Nat.eqb (count_key k t) 0 then 1 else count_key k t)%nat.
Proof.
  intros Hk. rewrite (upsert_key _ t Hk), existsb_count_key.
  destruct (Nat.eqb (count_key k t) 0) eqn:E; simpl.
  - rewrite count_key_app. apply Nat.eqb_eq in E. rewrite E. unfold count_key. simpl.
    apply has_key_iff in Hk. now rewrite Hk.
  - apply count_key_map. intros r. apply keep_id_origem.
Qed.

(** Every other key is held by as many rows as before. *)
Lemma count_key_upsert_other (new : row) (k : str) (t : list row) :
  id_origem new <> Some k -> count_key k (upsert new t) = count_key k t.
Proof.
  intros Hk. destruct (id_origem new) as [k'|] eqn:Hid.
  - rewrite (upsert_key _ t Hid).
    destruct (existsb (has_key k') t).
    + apply count_key_map. intros r. apply keep_id_origem.
    + rewrite count_key_app. unfold count_key at 2. simpl.
      replace (has_key k new) with false; [simpl; lia|].
      symmetry. apply not_true_is_false. rewrite has_key_iff. congruence.
  - rewrite (upsert_null _ t Hid), count_key_app. unfold count_key at 2. simpl.
    replace (has_key k new) with false; [simpl; lia|].
    symmetry. apply not_true_is_false. rewrite has_key_iff. congruence.
Qed.

Lemma option_str_dec (a b : option str) : {a = b} + {a <> b}.
Proof. decide equality. apply list_eq_dec. apply N.eq_dec. Qed.

Lemma unique_keys_upsert (new : row) (t : list row) :
  unique_keys t -> unique_keys (upsert new t).
Proof.
  intros Hu k. specialize (Hu k).
  destruct (option_str_dec (id_origem new) (Some k)) as [Hk|Hk].
  - rewrite (count_key_upsert_same _ t Hk).
    destruct (Nat.eqb (count_key k t) 0); lia.
  - now rewrite (count_key_upsert_other _ t Hk).
Qed.

Lemma unique_keys_upserts (rs : list row) (t : list row) :
  unique_keys t -> unique_keys (upserts rs t).
Proof.
  revert t. induction rs as [|r rs IH]; intros t Hu; simpl; auto.
  apply IH. now apply unique_keys_upsert.
Qed.

Lemma unique_keys_nil : unique_keys [].
Proof. intros k. unfold count_key. simpl. lia. Qed.



Lemma upserts_app (rs1 rs2 : list row) (t : list row) :
  upserts (rs1 ++ rs2) t = upserts rs2 (upserts rs1 t).
Proof. apply fold_left_app. Qed.






(** What the table does with a record whose origin_id is NULL (a raw item
    whose url is null): PRIMARY KEY on a TEXT column does not refuse it and
    never finds it in conflict, so each write adds a row. *)
Example null_origin_id_repeats :
  let r := {| id_origem := None;
              plataforma := Some (lit "WSJ"); tipo_fonte := Some (lit "Midia");
              pais := Some (lit "USA"); titulo_original := None; titulo_pt := None;
              conteudo_original := None; conteudo_pt := None;
              data_publicacao := None; data_raspagem := Some (lit "2025-06-15");
              engajamento := SInt 0; ordem_coleta := SInt 0; url := None |} in
  List.length (upserts [r; r] []) = 2%nat /\ unique_keys (upserts [r; r] []).
Proof.
  intros r. split; [reflexivity|].
  apply unique_keys_upserts, unique_keys_nil.
Qed.

Lemma Forall2_map_r {A B : Type} (R : A -> B -> Prop) (f : A -> B) (l : list A) :
  (forall a, In a l -> R a (f a)) -> Forall2 R l (map f l).
Proof.
  induction l as [|a l IH]; intros H; simpl; constructor.
  - apply H. now left.
  - apply IH. intros b Hb. apply H. now right.
Qed.

Lemma count_key_In (k : str) (r : row) (t : list row) :
  In r t -> id_origem r = Some k -> (1 <= count_key k t)%nat.
Proof.
  intros Hin Hk. apply has_key_iff in Hk. unfold count_key.
  assert (Hf : In r (filter (has_key k) t)) by (apply filter_In; auto).
  destruct (filter (has_key k) t); [destruct Hf|simpl; lia].
Qed.

(** C2: an upsert on an origin_id the table already holds changes no row
    count and no row order; row by row, every immutable column (origin_id,
    platform, source_kind, country, title_original, content_original,
    published_at, url) keeps its value, a row of another origin_id is left
    as it is, and the row of that origin_id takes engagement, translated
    content, translated title, collection_order and the batch_date column
    from the record offered. *)
Theorem upsert_updates_mutable_fields_only (table : list row) (old new : row) (k : str) :
  In old table -> id_origem old = Some k -> id_origem new = Some k ->
  Forall2 (fun r r' => same_immutable r r'
                       /\ (id_origem r = Some k -> takes_mutable r' new)
                       /\ (id_origem r <> Some k -> r' = r))
          table (upsert new table).
Proof.
  intros Hin Hold Hnew.
  rewrite (upsert_key _ table Hnew), existsb_count_key.
  pose proof (count_key_In _ _ Hin Hold) as Hc.
  destruct (Nat.eqb (count_key k table) 0) eqn:E; [apply Nat.eqb_eq in E; lia|].
  simpl. apply Forall2_map_r. intros r _.
  destruct (has_key k r) eqn:Hr.
  - apply has_key_iff in Hr. split; [|split].
    + unfold same_immutable. simpl. repeat split.
    + intros _. unfold takes_mutable. simpl. repeat split.
    + congruence.
  - assert (id_origem r <> Some k).
    { intros Hk. apply has_key_iff in Hk. congruence. }
    split; [|split].
    + unfold same_immutable. repeat split.
    + congruence.
    + reflexivity.
Qed.

Lemma upsert_updates_mutable_fields_only_witness :
  let old := Sample.a_row "https://wsj.com/a" "first text" "2025-06-01T10:00:00" in
  let new := Sample.a_row "https://wsj.com/a" "second text" "2025-06-09T10:00:00" in
  let other := Sample.a_row "https://wsj.com/b" "other" "2025-06-02T10:00:00" in
  Forall2 (fun r r' => same_immutable r r'
                       /\ (id_origem r = Some (lit "https://wsj.com/a") -> takes_mutable r' new)
                       /\ (id_origem r <> Some (lit "https://wsj.com/a") -> r' = r))
          [other; old] (upsert new [other; old]).
Proof.
  exact (@upsert_updates_mutable_fields_only
           [Sample.a_row "https://wsj.com/b" "other" "2025-06-02T10:00:00";
            Sample.a_row "https://wsj.com/a" "first text" "2025-06-01T10:00:00"]
           (Sample.a_row "https://wsj.com/a" "first text" "2025-06-01T10:00:00")
           (Sample.a_row "https://wsj.com/a" "second text" "2025-06-09T10:00:00")
           (lit "https://wsj.com/a") (or_intror (or_introl eq_refl)) eq_refl eq_refl).
Defined.

(** ** The orchestrator, step by step *)

Section Orchestrator_properties.
Context {W : World}.

Lemma named_param_str (d : list (str * pyval)) (name : string) (s : str) (v : sqlval) :
  dict_get d (lit name) = Some (PStr s) -> named_param d name = Ret v -> v = SText s.
Proof.
  unfold named_param. intros ->. simpl.
  destruct (existsb is_surrogate s); intros H; inversion H; reflexivity.
Qed.

Lemma named_param_int (d : list (str * pyval)) (name : string) (z : Z) (v : sqlval) :
  dict_get d (lit name) = Some (PInt z) -> named_param d name = Ret v -> v = SInt z.
Proof.
  unfold named_param. intros ->. unfold sqlite_bind.
  destruct (_ && _); intros H; inversion H; reflexivity.
Qed.

(** What the statement reads from the two keys [process_file] writes. *)
Lemma row_of_params_stamps (d : list (str * pyval)) (r : row) (bd : str) (i : Z) :
  dict_get d (lit "data_raspagem") = Some (PStr bd) ->
  dict_get d (lit "ordem_coleta") = Some (PInt i) ->
  row_of_params d = Ret r ->
  data_raspagem r = Some bd /\ ordem_coleta r = SInt i.
Proof.
  intros Hbd Hi. unfold row_of_params, rbind.
  repeat match goal with
         | |- context [named_param d ?n] => destruct (named_param d n) eqn:?
         end; try discriminate.
  intros [= <-]. simpl.
  match goal with
  | H : named_param d "data_raspagem" = Ret _ |- _ => rewrite (named_param_str _ _ Hbd H)
  end.
  match goal with
  | H : named_param d "ordem_coleta" = Ret _ |- _ => rewrite (named_param_int _ _ Hi H)
  end.
  auto.
Qed.

(** One item either writes one stamped row through the upsert, or writes
    nothing: the table is left as it was, or the open transaction is rolled
    back. *)
Lemma save_item_cases (parser_func : pyval -> M env pyval) (bd : str) (index : nat)
      (item : pyval) (w : session) :
  match save_item parser_func bd index item w with
  | (Ret _, w') =>
      exists r, data_raspagem r = Some bd
                /\ ordem_coleta r = SInt (Z.of_nat index)
                /\ s_db w' = {| committed := committed (s_db w);
                                working := upsert r (working (s_db w)) |}
  | (Raise _, w') =>
      s_db w' = s_db w
      \/ (s_db w' = rollback (s_db w)
          /\ exists n, storage_fault n = true /\ fault_rolls_back n = true)
  end.
Proof.
  unfold save_item, bind, lift.
  destruct (parser_func item (s_env w)) as [[parsed|e] e1]; simpl; [|now left].
  destruct parsed; simpl; try (now left).
  unfold bind, of_result.
  destruct (row_of_params _) as [r|e] eqn:Hr; simpl; [|now left].
  unfold storage_request. simpl.
  destruct (storage_fault (ticks e1)) eqn:Ef; simpl;
    [destruct (fault_rolls_back (ticks e1)) eqn:Eb; [right; eauto|now left]|].
  exists r.
  assert (Hne : lit "data_raspagem" <> lit "ordem_coleta")
    by (apply str_eqb_neq; reflexivity).
  apply row_of_params_stamps with (bd := bd) (i := Z.of_nat index) in Hr.
  - destruct Hr as [H1 H2]. auto.
  - rewrite dict_get_set_other by exact (not_eq_sym Hne). apply dict_get_set_same.
  - apply dict_get_set_same.
Qed.

Lemma process_items_step (filename : str) (parser_func : pyval -> M env pyval) (bd : str)
      (index : nat) (item : pyval) (rest : list pyval) (count : nat) (w : session) :
  process_items filename parser_func bd index (item :: rest) count w =
  match save_item parser_func bd index item w with
  | (Ret _, w1) => process_items filename parser_func bd (S index) rest (S count) w1
  | (Raise e, w1) =>
      process_items filename parser_func bd (S index) rest count
                    (snd (log (ErrorSave filename e) w1))
  end.
Proof.
  simpl. unfold bind at 1. unfold try_except. unfold bind at 1.
  destruct (save_item parser_func bd index item w) as [[u|e] w1]; [reflexivity|].
  unfold bind at 1. unfold log, lift, log_env. simpl. reflexivity.
Qed.

(** The loop runs to its end whatever the items do. *)
Lemma process_items_returns (filename : str) (parser_func : pyval -> M env pyval) (bd : str)
      (items : list pyval) :
  forall index count w,
  exists count' w', process_items filename parser_func bd index items count w = (Ret count', w').
Proof.
  induction items as [|item rest IH]; intros index count w.
  - simpl. unfold ret. eauto.
  - rewrite process_items_step.
    destruct (save_item parser_func bd index item w) as [[u|e] w1]; apply IH.
Qed.

Lemma process_items_app (filename : str) (parser_func : pyval -> M env pyval) (bd : str)
      (pre post : list pyval) :
  forall index count w,
  process_items filename parser_func bd index (pre ++ post) count w =
  match process_items filename parser_func bd index pre count w with
  | (Ret c1, w1) =>
      process_items filename parser_func bd (index + List.length pre) post c1 w1
  | (Raise e, w1) => (Raise e, w1)
  end.
Proof.
  induction pre as [|item pre IH]; intros index count w.
  - simpl. unfold ret. now rewrite Nat.add_0_r.
  - rewrite <- app_comm_cons, !process_items_step. simpl List.length.
    rewrite <- Nat.add_succ_comm.
    destruct (save_item parser_func bd index item w) as [[u|e] w1]; apply IH.
Qed.

(** *** Properties of the table every step keeps *)

Lemma preserves_bind {A B : Type} (I : database -> Prop) (m : M session A) (k : A -> M session B) :
  preserves I m -> (forall a, preserves I (k a)) -> preserves I (bind m k).
Proof.
  intros Hm Hk w Hw. unfold bind. specialize (Hm w Hw).
  destruct (m w) as [[a|e] w1]; simpl in *; [now apply Hk|assumption].
Qed.

Lemma preserves_lift {A : Type} (I : database -> Prop) (m : M env A) : preserves I (lift m).
Proof. intros w Hw. unfold lift. now destruct (m (s_env w)). Qed.

Lemma preserves_log (I : database -> Prop) (l : log_entry) : preserves I (log l).
Proof. apply preserves_lift. Qed.

Lemma db_all_rollback (P : list row -> Prop) (db : database) :
  db_all P db -> db_all P (rollback db).
Proof. intros [Hc _]. split; exact Hc. Qed.

Lemma preserves_storage_request (P : list row -> Prop) : preserves (db_all P) storage_request.
Proof.
  intros w Hw. unfold storage_request. simpl.
  destruct (storage_fault (ticks (s_env w))); simpl; [|exact Hw].
  destruct (fault_rolls_back (ticks (s_env w))); [now apply db_all_rollback|exact Hw].
Qed.

Lemma preserves_py_iter (I : database -> Prop) (data : pyval) : preserves I (py_iter data).
Proof. intros w Hw. now destruct data. Qed.

Lemma preserves_for_each {A : Type} (I : database -> Prop) (f : A -> M session unit) (l : list A) :
  (forall a, preserves I (f a)) -> preserves I (for_each f l).
Proof.
  intros Hf. induction l as [|a l IH]; simpl.
  - intros w Hw. exact Hw.
  - apply preserves_bind; auto.
Qed.

Lemma preserves_run_scrapers (I : database -> Prop) : preserves I run_scrapers.
Proof.
  unfold run_scrapers.
  apply preserves_bind; [apply preserves_log|intros _].
  apply preserves_bind; [|intros _; apply preserves_log].
  apply preserves_for_each. intros name. unfold run_scraper.
  apply preserves_bind; [apply preserves_log|intros _].
  apply preserves_bind; [apply preserves_lift|intros [| |]].
  - apply preserves_log.
  - apply preserves_bind; [apply preserves_log|intros _; apply preserves_log].
  - apply preserves_log.
Qed.

Lemma preserves_commit (P : list row -> Prop) : preserves (db_all P) commit.
Proof.
  intros w [Hc Hw]. unfold commit, bind, storage_request. simpl.
  destruct (storage_fault (ticks (s_env w))); simpl; [|split; assumption].
  destruct (fault_rolls_back (ticks (s_env w))); split; assumption.
Qed.

Lemma preserves_close (P : list row -> Prop) : preserves (db_all P) close.
Proof. intros w [Hc Hw]. split; assumption. Qed.

Lemma preserves_save_item (P : list row -> Prop) (parser_func : pyval -> M env pyval)
      (bd : str) (index : nat) (item : pyval) :
  closed_under_upsert bd P -> preserves (db_all P) (save_item parser_func bd index item).
Proof.
  intros HP w [Hc Hw]. pose proof (save_item_cases parser_func bd index item w) as H.
  destruct (save_item parser_func bd index item w) as [[u|e] w1]; simpl.
  - destruct H as (r & Hr & _ & ->). split; simpl; auto.
  - destruct H as [->|[-> _]]; [split; assumption|split; exact Hc].
Qed.

Lemma preserves_process_items (P : list row -> Prop) (filename : str)
      (parser_func : pyval -> M env pyval) (bd : str) (items : list pyval) :
  closed_under_upsert bd P ->
  forall index count,
    preserves (db_all P) (process_items filename parser_func bd index items count).
Proof.
  intros HP. induction items as [|item rest IH]; intros index count w Hw.
  - exact Hw.
  - rewrite process_items_step.
    pose proof (preserves_save_item parser_func index item HP w Hw) as Hs.
    destruct (save_item parser_func bd index item w) as [[u|e] w1]; simpl in Hs.
    + now apply IH.
    + apply IH. now apply preserves_log.
Qed.

Lemma preserves_process_file (P : list row -> Prop) (filename : str)
      (parser_func : pyval -> M env pyval) (bd : str) :
  closed_under_upsert bd P -> preserves (db_all P) (process_file filename parser_func bd).
Proof.
  intros HP. unfold process_file. destruct (output_dir filename).
  - apply preserves_log.
  - apply preserves_bind; [apply preserves_log|intros _; apply preserves_log].
  - apply preserves_bind; [apply preserves_log|intros _ w Hw; exact Hw].
  - apply preserves_bind; [apply preserves_log|intros _].
    apply preserves_bind; [apply preserves_py_iter|intros items].
    apply preserves_bind; [now apply preserves_process_items|intros count].
    apply preserves_bind; [apply preserves_commit|intros _; apply preserves_log].
Qed.

(** Whatever holds of the table and survives the upsert of a row stamped
    with this run's batch date, holds after the run. *)
Lemma preserves_main (P : list row -> Prop) (w : session) :
  closed_under_upsert (strftime_Ymd (clock (ticks (s_env w)))) P ->
  db_all P (s_db w) -> db_all P (s_db (snd (main w))).
Proof.
  intros HP Hw. unfold main. unfold bind at 1. unfold lift at 1, now at 1.
  cbv beta iota zeta.
  set (bd := strftime_Ymd (clock (ticks (s_env w)))) in *.
  match goal with
  | |- db_all P (s_db (snd (?m ?w1))) =>
      cut (preserves (db_all P) m); [intros Hp; exact (Hp w1 Hw)|]
  end.
  apply preserves_bind; [apply preserves_log|intros _].
  apply preserves_bind; [apply preserves_run_scrapers|intros _].
  apply preserves_bind; [apply preserves_storage_request|intros _].
  do 4 (apply preserves_bind; [now apply preserves_process_file|intros _]).
  apply preserves_bind; [apply preserves_close|intros _; apply preserves_log].
Qed.

Lemma unique_keys_closed (bd : str) : closed_under_upsert bd unique_keys.
Proof. intros r t _. apply unique_keys_upsert. Qed.

(** X2: run after run, no origin_id is held by two rows: a whole run of the
    pipeline, with its failed collectors, missing files and failed items,
    keeps the keys of the table distinct, on both sides of the connection. *)
Lemma main_keeps_unique_keys (w : session) :
  db_all unique_keys (s_db w) -> db_all unique_keys (s_db (snd (main w))).
Proof. apply preserves_main, unique_keys_closed. Qed.

Lemma same_immutable_refl (r : row) : same_immutable r r.
Proof. unfold same_immutable. repeat split. Qed.

Lemma same_immutable_trans (a b c : row) :
  same_immutable a b -> same_immutable b c -> same_immutable a c.
Proof.
  unfold same_immutable.
  intros (A1 & A2 & A3 & A4 & A5 & A6 & A7 & A8) (B1 & B2 & B3 & B4 & B5 & B6 & B7 & B8).
  repeat split; congruence.
Qed.

Lemma same_immutable_do_update (old new : row) : same_immutable old (do_update old new).
Proof. unfold same_immutable. simpl. repeat split. Qed.

Lemma extends_refl (t : list row) : extends t t.
Proof.
  exists t, []. split; [now rewrite app_nil_r|].
  induction t; constructor; [apply same_immutable_refl|assumption].
Qed.

Lemma extends_upsert (t0 t : list row) (r : row) : extends t0 t -> extends t0 (upsert r t).
Proof.
  intros (kept & rest & -> & Hk). unfold upsert.
  destruct (existsb _ (kept ++ rest)).
  - rewrite map_app. eexists. eexists. split; [reflexivity|].
    clear rest. induction Hk as [|a b t0 kept Hab Hk IH]; simpl; constructor; [|exact IH].
    destruct (text_eq (id_origem b) (id_origem r)); [|exact Hab].
    eapply same_immutable_trans; [exact Hab|apply same_immutable_do_update].
  - rewrite <- app_assoc. exists kept, (rest ++ [r]). auto.
Qed.

(** A run changes no immutable column of a row the table already held, and
    removes no row. *)
Lemma main_keeps_immutable_columns (w : session) :
  db_all (fun t => extends (committed (s_db w)) t \/ extends (working (s_db w)) t)
         (s_db (snd (main w))).
Proof.
  apply preserves_main.
  - intros r t _ [H|H]; [left|right]; now apply extends_upsert.
  - split; [left|right]; apply extends_refl.
Qed.

(** *** The batch date *)

Lemma written_refl (bd : str) (t : list row) : written bd t t.
Proof. exists []. split; [constructor|reflexivity]. Qed.

Lemma written_upsert (bd : str) (t0 t : list row) (r : row) :
  data_raspagem r = Some bd -> written bd t0 t -> written bd t0 (upsert r t).
Proof.
  intros Hr (rs & Hrs & ->). exists (rs ++ [r]). split.
  - apply Forall_app. split; [assumption|]. constructor; [assumption|constructor].
  - now rewrite upserts_app.
Qed.

Lemma upsert_rows (bd : str) (Q : row -> Prop) (r : row) (t : list row) :
  data_raspagem r = Some bd ->
  Forall (fun x => Q x \/ data_raspagem x = Some bd) t ->
  Forall (fun x => Q x \/ data_raspagem x = Some bd) (upsert r t).
Proof.
  intros Hr Ht. unfold upsert.
  destruct (existsb _ t).
  - apply Forall_map. eapply Forall_impl; [|exact Ht]. intros x Hx. simpl.
    destruct (text_eq (id_origem x) (id_origem r)); [right; exact Hr|exact Hx].
  - apply Forall_app. split; [assumption|]. constructor; [now right|constructor].
Qed.

(** C3: every record written during one run of [main] carries the same
    batch_date, the one value computed from the clock when the run starts,
    whatever the four raw files hold (any source, any per-item scraped_at),
    whatever fails on the way.  First half: each side of the connection after
    the run is one of the two sides before the run, after upserts of rows that
    all carry that batch_date.  Second half, row by row: every row after the
    run is a row from before the run or carries that batch_date. *)
Theorem batch_date_uniform (w : session) :
  let batch_date := strftime_Ymd (clock (ticks (s_env w))) in
  let before := s_db w in
  let after := s_db (snd (main w)) in
  db_all (fun t => written batch_date (committed before) t
                   \/ written batch_date (working before) t) after
  /\ db_all (Forall (fun r => (In r (committed before) \/ In r (working before))
                               \/ data_raspagem r = Some batch_date)) after.
Proof.
  intros batch_date before after. split.
  - apply preserves_main.
    + intros r t Hr [H|H]; [left|right]; now apply written_upsert.
    + split; [left|right]; apply written_refl.
  - apply preserves_main.
    + intros r t Hr Ht. now apply upsert_rows.
    + split; apply Forall_forall; intros x Hx; left; [left|right]; exact Hx.
Qed.

(** What one item writes, and from what the mapper returned. *)
Lemma save_item_row (parser_func : pyval -> M env pyval) (bd : str) (index : nat)
      (item : pyval) (w w' : session) :
  save_item parser_func bd index item w = (Ret tt, w') ->
  exists fields e1 r,
    parser_func item (s_env w) = (Ret (PDict fields), e1)
    /\ row_of_params (stamp fields bd index) = Ret r
    /\ s_db w' = {| committed := committed (s_db w);
                    working := upsert r (working (s_db w)) |}.
Proof.
  unfold save_item, bind, lift.
  destruct (parser_func item (s_env w)) as [[parsed|e] e1]; simpl; [|discriminate].
  destruct parsed; simpl; try discriminate.
  unfold bind, of_result. fold (stamp d bd index).
  destruct (row_of_params (stamp d bd index)) as [r|e] eqn:Hr; simpl; [|discriminate].
  unfold storage_request. simpl.
  destruct (storage_fault (ticks e1)); simpl; [discriminate|].
  intros [= <-]. exists d, e1, r. auto.
Qed.

(** C4 as the code has it: the helper of the mappers returns the
    collector-supplied scraped_at when the raw item has one, else the time of
    normalization; but whatever record the mapper returned, and so whatever
    it put under data_raspagem, the row [process_file] writes for the item
    is the one bound from that record after data_raspagem was set to the
    run's batch_date, and carries the batch_date in that column, the only
    scraped-date column of the table. *)
Theorem persisted_scraped_at_is_batch_date (parser_func : pyval -> M env pyval)
        (batch_date : str) (index : nat) (item : pyval) (w w' : session) :
  save_item parser_func batch_date index item w = (Ret tt, w') ->
  (forall d e, get_scraped_date (PDict d) e
               = (Ret (match dict_get d (lit "scraped_at") with
                       | Some v => v
                       | None => PStr (isoformat (clock (ticks e)))
                       end), tick e))
  /\ exists fields e1 r,
       parser_func item (s_env w) = (Ret (PDict fields), e1)
       /\ row_of_params (stamp fields batch_date index) = Ret r
       /\ data_raspagem r = Some batch_date
       /\ s_db w' = {| committed := committed (s_db w);
                       working := upsert r (working (s_db w)) |}.
Proof.
  intros H. split; [reflexivity|].
  destruct (save_item_row _ _ _ _ _ H) as (fields & e1 & r & Hp & Hr & Hdb).
  exists fields, e1, r. split; [exact Hp|]. split; [exact Hr|]. split; [|exact Hdb].
  refine (proj1 (@row_of_params_stamps _ _ batch_date (Z.of_nat index) _ _ Hr)).
  - unfold stamp. rewrite dict_get_set_other by discriminate. apply dict_get_set_same.
  - unfold stamp. apply dict_get_set_same.
Qed.

(** *** Failures inside the loop *)

Lemma save_item_storage_fault (parser_func : pyval -> M env pyval) (bd : str) (index : nat)
      (item : pyval) (w : session) (d : list (str * pyval)) (env1 : env) (r : row) :
  parser_func item (s_env w) = (Ret (PDict d), env1) ->
  row_of_params (dict_set (dict_set d (lit "data_raspagem") (PStr bd))
                          (lit "ordem_coleta") (PInt (Z.of_nat index))) = Ret r ->
  save_item parser_func bd index item w =
  if storage_fault (ticks env1)
  then (Raise OperationalError,
        {| s_env := tick env1;
           s_db := if fault_rolls_back (ticks env1) then rollback (s_db w) else s_db w |})
  else (Ret tt, {| s_env := tick env1;
                   s_db := {| committed := committed (s_db w);
                              working := upsert r (working (s_db w)) |} |}).
Proof.
  intros Hp Hr. unfold save_item, bind, lift. rewrite Hp. simpl.
  unfold bind, of_result. rewrite Hr. unfold storage_request. simpl.
  destruct (storage_fault (ticks env1)); reflexivity.
Qed.

Lemma save_item_parser_raises (parser_func : pyval -> M env pyval) (bd : str) (index : nat)
      (item : pyval) (w : session) (e : exn) (env1 : env) :
  parser_func item (s_env w) = (Raise e, env1) ->
  save_item parser_func bd index item w = (Raise e, {| s_env := env1; s_db := s_db w |}).
Proof. intros Hp. unfold save_item, bind, lift. now rewrite Hp. Qed.

Lemma process_items_committed (filename : str) (parser_func : pyval -> M env pyval) (bd : str)
      (items : list pyval) :
  forall index count w,
    committed (s_db (snd (process_items filename parser_func bd index items count w)))
    = committed (s_db w).
Proof.
  induction items as [|item rest IH]; intros index count w; [reflexivity|].
  rewrite process_items_step.
  pose proof (save_item_cases parser_func bd index item w) as Hc.
  destruct (save_item parser_func bd index item w) as [[u|e] w1].
  - destruct Hc as (r & _ & _ & Hdb). rewrite IH, Hdb. reflexivity.
  - rewrite IH. simpl. destruct Hc as [->|[-> _]]; reflexivity.
Qed.

(** C5 as the code has it.  A write the storage refuses while one item is
    inserted raises inside the same [try] as the mapper: the handler logs the
    file name with the error, and the loop goes on with the next item and the
    same count.  The refused statement writes nothing; when the refusal rolls
    the open transaction back, the loop goes on from the table the database
    file holds, and the rows of the earlier items are gone, though counted.
    After the loop the commit is made, whenever the storage accepts it,
    whatever failed in the loop.  What is outside the [try] is the commit:
    when the storage refuses it, [process_file] raises and what the file
    holds stays as it was. *)
Theorem store_write_failure_is_caught (filename : str) (parser_func : pyval -> M env pyval)
        (batch_date : str) (index : nat) (item : pyval) (rest : list pyval) (count : nat)
        (w : session) (d : list (str * pyval)) (env1 : env) (r : row) :
  parser_func item (s_env w) = (Ret (PDict d), env1) ->
  row_of_params (dict_set (dict_set d (lit "data_raspagem") (PStr batch_date))
                          (lit "ordem_coleta") (PInt (Z.of_nat index))) = Ret r ->
  storage_fault (ticks env1) = true ->
  process_items filename parser_func batch_date index (item :: rest) count w
  = process_items filename parser_func batch_date (S index) rest count
      {| s_env := {| ticks := S (ticks env1);
                     logs := logs env1 ++ [ErrorSave filename OperationalError] |};
         s_db := if fault_rolls_back (ticks env1) then rollback (s_db w) else s_db w |}
  /\ (forall items w0,
        output_dir filename = FileData (PList items) ->
        let w1 := snd (process_items filename parser_func batch_date 0 items 0
                         (snd (log (InfoProcessing filename batch_date) w0))) in
        storage_fault (ticks (s_env w1)) = true ->
        process_file filename parser_func batch_date w0
        = (Raise OperationalError,
           {| s_env := tick (s_env w1);
              s_db := if fault_rolls_back (ticks (s_env w1))
                      then rollback (s_db w1) else s_db w1 |})
        /\ committed (s_db w1) = committed (s_db w0))
  /\ (forall items w0,
        output_dir filename = FileData (PList items) ->
        let w1 := snd (process_items filename parser_func batch_date 0 items 0
                         (snd (log (InfoProcessing filename batch_date) w0))) in
        storage_fault (ticks (s_env w1)) = false ->
        exists w2,
          process_file filename parser_func batch_date w0 = (Ret tt, w2)
          /\ committed (s_db w2) = working (s_db w1)
          /\ working (s_db w2) = working (s_db w1)).
Proof.
  intros Hp Hr Hf. split; [|split].
  - rewrite process_items_step, (@save_item_storage_fault _ _ _ _ _ _ _ _ Hp Hr), Hf.
    reflexivity.
  - intros items w0 Hfile w1 Hfault. split.
    + unfold process_file. rewrite Hfile.
      unfold bind at 1.
      destruct (log (InfoProcessing filename batch_date) w0) as [[u|e] w00] eqn:Hlog;
        [|discriminate Hlog].
      unfold bind at 1. simpl py_iter. unfold ret at 1.
      unfold bind at 1. subst w1. simpl in Hfault |- *.
      destruct (process_items_returns filename parser_func batch_date items 0 0 w00)
        as (c & w2 & Hpi).
      rewrite Hpi in Hfault |- *. simpl in Hfault |- *.
      unfold bind at 1. unfold commit, bind at 1, storage_request. cbv zeta.
      rewrite Hfault. reflexivity.
    + subst w1. rewrite process_items_committed. reflexivity.
  - intros items w0 Hfile w1 Hok.
    unfold process_file. rewrite Hfile.
    unfold bind at 1.
    destruct (log (InfoProcessing filename batch_date) w0) as [[u|e] w00] eqn:Hlog;
      [|discriminate Hlog].
    unfold bind at 1. simpl py_iter. unfold ret at 1.
    unfold bind at 1. subst w1. simpl in Hok |- *.
    destruct (process_items_returns filename parser_func batch_date items 0 0 w00)
      as (c & w2 & Hpi).
    rewrite Hpi in Hok |- *. simpl in Hok |- *.
    unfold bind at 1. unfold commit, bind at 1, storage_request. cbv zeta.
    rewrite Hok. cbv beta iota.
    unfold log, lift, log_env. cbv beta iota.
    eexists. split; [reflexivity|]. simpl. split; reflexivity.
Qed.

(** A run of items that are all saved: each writes its row, in order. *)
Lemma process_items_all_saved (filename : str) (parser_func : pyval -> M env pyval)
      (bd : str) (items : list pyval) :
  (forall n, storage_fault n = false) ->
  forall index count w,
    (forall i it e, nth_error items i = Some it ->
                    saved_by parser_func bd (index + i) it e = true) ->
    exists rs w',
      process_items filename parser_func bd index items count w
      = (Ret (count + List.length items)%nat, w')
      /\ map fst rs = seq index (List.length items)
      /\ Forall2 (row_of_item parser_func bd) items rs
      /\ working (s_db w') = upserts (map snd rs) (working (s_db w)).
Proof.
  intros Hf. induction items as [|item rest IH]; intros index count w Hall.
  - exists [], w. simpl. unfold ret. rewrite Nat.add_0_r.
    split; [reflexivity|]. split; [reflexivity|]. split; [constructor|reflexivity].
  - pose proof (Hall 0%nat item (s_env w) eq_refl) as H0.
    rewrite Nat.add_0_r in H0. unfold saved_by in H0.
    destruct (parser_func item (s_env w)) as [[parsed|x] e1] eqn:Hp; [|discriminate H0].
    destruct parsed as [| | | | | |fields]; try discriminate H0.
    destruct (row_of_params (stamp fields bd index)) as [r|x] eqn:Hr; [|discriminate H0].
    rewrite process_items_step,
      (@save_item_storage_fault _ _ _ _ _ _ _ _ Hp Hr), Hf.
    match goal with |- context [process_items _ _ _ _ _ _ ?w1] =>
      destruct (IH (S index) (S count) w1) as (rs & w' & Hrun & Hpos & Hrows & Hwork) end.
    { intros i it e Hi. replace (S index + i)%nat with (index + S i)%nat by lia.
      exact (Hall (S i) it e Hi). }
    exists ((index, r) :: rs), w'.
    split; [rewrite Hrun; simpl; f_equal; f_equal; lia|].
    split; [simpl; now rewrite Hpos|].
    split; [|rewrite Hwork; reflexivity].
    constructor; [|exact Hrows].
    exists (s_env w), fields, e1. split; [exact Hp|exact Hr].
Qed.

(** C6 as the code has it.  Take a file whose items are all saved when
    their turn comes, but for one, [item], on which the mapper raises, and a
    storage that accepts every write.  The loop processes the items before
    it ([pre]); at [item] the handler adds one error record to the log,
    which carries the file name and the exception (and no position), and
    leaves the table as [pre] left it; the loop goes on with the items after
    it ([post]) at their own positions, and returns.  At the end the count is
    the number of the other items, and the table is the one before after one
    upsert for each of them, in the order of the file: each row was bound
    from the record the mapper returned on its item, stamped with the item's
    position in the file. *)
Theorem failed_item_is_logged_and_skipped (filename : str)
        (parser_func : pyval -> M env pyval) (batch_date : str)
        (pre post : list pyval) (item : pyval) (w : session) :
  (forall n, storage_fault n = false) ->
  (forall e, refused_by parser_func item e = true) ->
  (forall i it e, nth_error (pre ++ item :: post) i = Some it -> i <> List.length pre ->
                  saved_by parser_func batch_date i it e = true) ->
  exists rs1 rs2 w1 x env1 w',
    process_items filename parser_func batch_date 0 pre 0 w = (Ret (List.length pre), w1)
    /\ parser_func item (s_env w1) = (Raise x, env1)
    /\ process_items filename parser_func batch_date 0 (pre ++ item :: post) 0 w
       = process_items filename parser_func batch_date (S (List.length pre)) post
           (List.length pre)
           {| s_env := {| ticks := ticks env1;
                          logs := logs env1 ++ [ErrorSave filename x] |};
              s_db := s_db w1 |}
    /\ process_items filename parser_func batch_date 0 (pre ++ item :: post) 0 w
       = (Ret (List.length pre + List.length post)%nat, w')
    /\ map fst rs1 = seq 0 (List.length pre)
    /\ map fst rs2 = seq (S (List.length pre)) (List.length post)
    /\ Forall2 (row_of_item parser_func batch_date) pre rs1
    /\ Forall2 (row_of_item parser_func batch_date) post rs2
    /\ working (s_db w') = upserts (map snd (rs1 ++ rs2)) (working (s_db w)).
Proof.
  intros Hf Hbad Hgood.
  destruct (@process_items_all_saved filename parser_func batch_date pre Hf 0 0 w)
    as (rs1 & w1 & Hpre & Hpos1 & Hrows1 & Hwork1).
  { intros i it e Hi. simpl. apply Hgood.
    - rewrite nth_error_app1; [exact Hi|]. apply nth_error_Some. congruence.
    - assert (i < List.length pre)%nat by (apply nth_error_Some; congruence). lia. }
  simpl in Hpre.
  specialize (Hbad (s_env w1)). unfold refused_by in Hbad.
  destruct (parser_func item (s_env w1)) as [[v|x] env1] eqn:Hp; [discriminate Hbad|].
  set (w1' := {| s_env := {| ticks := ticks env1;
                             logs := logs env1 ++ [ErrorSave filename x] |};
                 s_db := s_db w1 |}).
  destruct (@process_items_all_saved filename parser_func batch_date post Hf
              (S (List.length pre)) (List.length pre) w1')
    as (rs2 & w' & Hpost & Hpos2 & Hrows2 & Hwork2).
  { intros j it e Hj. apply Hgood; [|lia].
    rewrite nth_error_app2 by lia.
    replace (S (List.length pre) + j - List.length pre)%nat with (S j) by lia.
    exact Hj. }
  assert (Hstep : process_items filename parser_func batch_date 0 (pre ++ item :: post) 0 w
                  = process_items filename parser_func batch_date (S (List.length pre)) post
                      (List.length pre) w1').
  { rewrite process_items_app, Hpre, process_items_step.
    rewrite (@save_item_parser_raises _ batch_date (0 + List.length pre) _ _ _ _ Hp).
    reflexivity. }
  exists rs1, rs2, w1, x, env1, w'.
  split; [exact Hpre|]. split; [exact Hp|]. split; [exact Hstep|].
  split; [rewrite Hstep; exact Hpost|].
  split; [exact Hpos1|]. split; [exact Hpos2|]. split; [exact Hrows1|]. split; [exact Hrows2|].
  rewrite Hwork2, map_app, upserts_app. simpl. now rewrite Hwork1.
Qed.

End Orchestrator_properties.

(** ** The claims on the sample data *)

Lemma persisted_scraped_at_is_batch_date_witness :
  let W := Sample.june [] in
  let d := Sample.article_fields "https://people.cn/a" "AI rises" PNone in
  let w' := snd (save_item parse_peoples_daily (lit "2025-06-15") 0 (PDict d) Sample.session0) in
  (forall d e, get_scraped_date (PDict d) e
               = (Ret (match dict_get d (lit "scraped_at") with
                       | Some v => v
                       | None => PStr (isoformat (clock (ticks e)))
                       end), tick e))
  /\ exists fields e1 r,
       parse_peoples_daily (PDict d) (s_env Sample.session0) = (Ret (PDict fields), e1)
       /\ row_of_params (stamp fields (lit "2025-06-15") 0) = Ret r
       /\ data_raspagem r = Some (lit "2025-06-15")
       /\ s_db w' = {| committed := committed (s_db Sample.session0);
                       working := upsert r (working (s_db Sample.session0)) |}.
Proof.
  intros W d w'.
  apply (@persisted_scraped_at_is_batch_date W parse_peoples_daily (lit "2025-06-15") 0
           (PDict d) Sample.session0 w').
  vm_compute. reflexivity.
Defined.

(** C4 as stated fails: the raw item supplies scraped_at
    2025-06-01T10:00:00+00:00, the mapper returns that timestamp under
    data_raspagem, the run of 15 June 2025 stores one row for the item, and
    the only scraped-date column of that row holds 2025-06-15, the batch
    date, not the collector's timestamp. *)
Lemma collector_scraped_at_is_overwritten :
  let W := Sample.june [Sample.article_a] in
  let after := s_db (snd (main Sample.session0)) in
  dict_get (Sample.article_fields "https://people.cn/a" "AI rises" PNone) (lit "scraped_at")
  = Some (PStr (lit "2025-06-01T10:00:00+00:00"))
  /\ field (Sample.some_dict (fst (parse_peoples_daily Sample.article_a Sample.env0)))
           "data_raspagem"
     = Some (PStr (lit "2025-06-01T10:00:00+00:00"))
  /\ map id_origem (committed after) = [Some (lit "https://people.cn/a")]
  /\ map data_raspagem (committed after) = [Some (lit "2025-06-15")]
  /\ Some (lit "2025-06-15") <> Some (lit "2025-06-01T10:00:00+00:00").
Proof.
  intros W after.
  split; [vm_compute; reflexivity|].
  split; [vm_compute; reflexivity|].
  split; [vm_compute; reflexivity|].
  split; [vm_compute; reflexivity|].
  vm_compute. discriminate.
Qed.

Lemma store_write_failure_is_caught_witness :
  let W := Sample.disk_full_at 3 (Sample.june [Sample.article_a; Sample.article_b]) in
  let filename := Sample.pd_file in
  let batch_date := lit "2025-06-15" in
  let env1 := snd (parse_peoples_daily Sample.article_a Sample.env0) in
  process_items filename parse_peoples_daily batch_date 0
                (Sample.article_a :: [Sample.article_b]) 0 Sample.session_open
  = process_items filename parse_peoples_daily batch_date 1 [Sample.article_b] 0
      {| s_env := {| ticks := S (ticks env1);
                     logs := logs env1 ++ [ErrorSave filename OperationalError] |};
         s_db := if fault_rolls_back (ticks env1)
                 then rollback (s_db Sample.session_open) else s_db Sample.session_open |}
  /\ (forall items w0,
        output_dir filename = FileData (PList items) ->
        let w1 := snd (process_items filename parse_peoples_daily batch_date 0 items 0
                         (snd (log (InfoProcessing filename batch_date) w0))) in
        storage_fault (ticks (s_env w1)) = true ->
        process_file filename parse_peoples_daily batch_date w0
        = (Raise OperationalError,
           {| s_env := tick (s_env w1);
              s_db := if fault_rolls_back (ticks (s_env w1))
                      then rollback (s_db w1) else s_db w1 |})
        /\ committed (s_db w1) = committed (s_db w0))
  /\ (forall items w0,
        output_dir filename = FileData (PList items) ->
        let w1 := snd (process_items filename parse_peoples_daily batch_date 0 items 0
                         (snd (log (InfoProcessing filename batch_date) w0))) in
        storage_fault (ticks (s_env w1)) = false ->
        exists w2,
          process_file filename parse_peoples_daily batch_date w0 = (Ret tt, w2)
          /\ committed (s_db w2) = working (s_db w1)
          /\ working (s_db w2) = working (s_db w1)).
Proof.
  intros W filename batch_date env1.
  refine (@store_write_failure_is_caught W filename parse_peoples_daily batch_date 0
            Sample.article_a [Sample.article_b] 0 Sample.session_open
            (Sample.some_dict (fst (parse_peoples_daily Sample.article_a Sample.env0)))
            env1
            (Sample.some_row
               (row_of_params
                  (dict_set
                     (dict_set
                        (Sample.some_dict
                           (fst (parse_peoples_daily Sample.article_a Sample.env0)))
                        (lit "data_raspagem") (PStr batch_date))
                     (lit "ordem_coleta") (PInt (Z.of_nat 0))))) _ _ _).
  - vm_compute. reflexivity.
  - vm_compute. reflexivity.
  - vm_compute. reflexivity.
Defined.

(** The disk is full when the second of three articles is inserted: the
    first article's row, written and counted, is rolled back with the open
    transaction; the third is written; the file's commit holds the third
    alone, and the count reported is two. *)
Example rolled_back_rows_stay_counted :
  let data := [Sample.article_a; Sample.article_b; Sample.article_c] in
  let W := Sample.disk_full_at 7 (Sample.june data) in
  let outcome := process_file Sample.pd_file parse_peoples_daily (lit "2025-06-15")
                              Sample.session0 in
  fst outcome = Ret tt
  /\ map id_origem (committed (s_db (snd outcome))) = [Some (lit "https://people.cn/c")]
  /\ logs (s_env (snd outcome))
     = [InfoProcessing Sample.pd_file (lit "2025-06-15");
        ErrorSave Sample.pd_file OperationalError;
        InfoSaved 2 Sample.pd_file].
Proof.
  intros data W outcome.
  split; [vm_compute; reflexivity|].
  split; vm_compute; reflexivity.
Qed.

(** C5 as stated fails: the storage refuses the insert of the first of two
    articles; [main] returns normally all the same, the error is in the log
    under the file's name, the second article is processed, and the commit
    of the file is made, with the second article alone. *)
Lemma store_write_failure_does_not_propagate :
  let W := Sample.june_fault_at 9 [Sample.article_a; Sample.article_b] in
  let outcome := main Sample.session0 in
  fst outcome = Ret tt
  /\ In (ErrorSave Sample.pd_file OperationalError) (logs (s_env (snd outcome)))
  /\ In (InfoSaved 1 Sample.pd_file) (logs (s_env (snd outcome)))
  /\ map id_origem (committed (s_db (snd outcome))) = [Some (lit "https://people.cn/b")].
Proof.
  intros W outcome.
  split; [vm_compute; reflexivity|].
  split; [vm_compute; tauto|].
  split; [vm_compute; tauto|].
  vm_compute; reflexivity.
Qed.

Lemma failed_item_is_logged_and_skipped_witness :
  let W := Sample.june [] in
  let filename := Sample.pd_file in
  let batch_date := lit "2025-06-15" in
  let pre := [Sample.article_a; Sample.article_b] in
  let post := [Sample.article_c; Sample.article_d; Sample.article_e] in
  exists rs1 rs2 w1 x env1 w',
    process_items filename parse_peoples_daily batch_date 0 pre 0 Sample.session1
    = (Ret (List.length pre), w1)
    /\ parse_peoples_daily Sample.malformed (s_env w1) = (Raise x, env1)
    /\ process_items filename parse_peoples_daily batch_date 0
                     (pre ++ Sample.malformed :: post) 0 Sample.session1
       = process_items filename parse_peoples_daily batch_date (S (List.length pre)) post
           (List.length pre)
           {| s_env := {| ticks := ticks env1;
                          logs := logs env1 ++ [ErrorSave filename x] |};
              s_db := s_db w1 |}
    /\ process_items filename parse_peoples_daily batch_date 0
                     (pre ++ Sample.malformed :: post) 0 Sample.session1
       = (Ret (List.length pre + List.length post)%nat, w')
    /\ map fst rs1 = seq 0 (List.length pre)
    /\ map fst rs2 = seq (S (List.length pre)) (List.length post)
    /\ Forall2 (row_of_item parse_peoples_daily batch_date) pre rs1
    /\ Forall2 (row_of_item parse_peoples_daily batch_date) post rs2
    /\ working (s_db w') = upserts (map snd (rs1 ++ rs2)) (working (s_db Sample.session1)).
Proof.
  intros W filename batch_date pre post.
  refine (@failed_item_is_logged_and_skipped W filename parse_peoples_daily batch_date
            pre post Sample.malformed Sample.session1 _ _ _).
  - intros n. reflexivity.
  - intros e. vm_compute. reflexivity.
  - intros i it e Hi Hne.
    destruct i as [|[|[|[|[|[|i]]]]]]; simpl in Hi;
      try (injection Hi as <-; vm_compute; reflexivity).
    + exfalso. apply Hne. reflexivity.
    + destruct i; discriminate Hi.
Defined.

(** C6 as stated fails where it says the position is logged: a file whose
    first item is malformed and a file whose second item is malformed leave
    the very same log, one error record with the file name and the
    exception; the position (0 or 1) is nowhere in it. *)
Lemma log_does_not_tell_the_position :
  let bad_first := [Sample.malformed; Sample.article_a] in
  let bad_second := [Sample.article_a; Sample.malformed] in
  let log_of (data : list pyval) :=
    logs (s_env (snd (@process_file (Sample.june data) Sample.pd_file
                        (@parse_peoples_daily (Sample.june data))
                        (lit "2025-06-15") Sample.session0))) in
  log_of bad_first = log_of bad_second
  /\ log_of bad_first = [InfoProcessing Sample.pd_file (lit "2025-06-15");
                         ErrorSave Sample.pd_file (KeyError (lit "title"));
                         InfoSaved 1 Sample.pd_file].
Proof. split; vm_compute; reflexivity. Qed.

(** One malformed item among five valid ones: five rows are stored, in the
    order of the file, the count reported is five, and the failure is in the
    log. *)
Example one_malformed_among_five_valid :
  let data := [Sample.article_a; Sample.article_b; Sample.malformed;
               Sample.article_c; Sample.article_d; Sample.article_e] in
  let W := Sample.june data in
  let outcome := process_file Sample.pd_file parse_peoples_daily (lit "2025-06-15")
                              Sample.session0 in
  fst outcome = Ret tt
  /\ map id_origem (committed (s_db (snd outcome)))
     = map (fun u => Some (lit u))
           ["https://people.cn/a"; "https://people.cn/b"; "https://people.cn/c";
            "https://people.cn/d"; "https://people.cn/e"]%string
  /\ map ordem_coleta (committed (s_db (snd outcome)))
     = [SInt 0; SInt 1; SInt 3; SInt 4; SInt 5]
  /\ logs (s_env (snd outcome))
     = [InfoProcessing Sample.pd_file (lit "2025-06-15");
        ErrorSave Sample.pd_file (KeyError (lit "title"));
        InfoSaved 5 Sample.pd_file].
Proof.
  intros data W outcome.
  split; [vm_compute; reflexivity|].
  split; [vm_compute; reflexivity|].
  split; vm_compute; reflexivity.
Qed.

(** ** The date normalizers *)

Section Date_normalizers.
Context {W : World}.

Lemma now_isoformat_returns (e : env) :
  now_isoformat e = (Ret (PStr (isoformat (clock (ticks e)))), tick e).
Proof. reflexivity. Qed.

Lemma py_int_cases (s : str) (e : env) :
  py_int s e = (Ret (digits_value s), e) \/ py_int s e = (Raise ValueError, e).
Proof.
  unfold py_int. destruct int_max_str_digits as [extra|]; [|now left].
  destruct (640 + extra <? List.length s)%nat; [now right|now left].
Qed.

Lemma py_int_short (s : str) (e : env) :
  (List.length s <= 640)%nat -> py_int s e = (Ret (digits_value s), e).
Proof.
  intros Hs. unfold py_int. destruct int_max_str_digits as [extra|]; [|reflexivity].
  replace (640 + extra <? List.length s)%nat with false; [reflexivity|].
  symmetry. apply Nat.ltb_ge. lia.
Qed.

Lemma extrair_data_chinesa_returns (date_str : pyval) (e : env) :
  exists s e', extrair_data_chinesa date_str e = (Ret (PStr s), e')
               /\ (unmatched re_chinesa date_str ->
                   s = isoformat (clock (ticks e)) /\ e' = tick e).
Proof.
  unfold extrair_data_chinesa, try_except.
  destruct date_str as [| | | |s| |]; simpl;
    try (do 2 eexists; split; [reflexivity|intros _; split; reflexivity]).
  unfold bind at 1, ret at 1.
  destruct (re_search re_chinesa s) as [gs|] eqn:Hs.
  - destruct gs as [|y [|mo [|d [|x gs]]]]; simpl;
      try (do 2 eexists; split; [reflexivity|intros H; discriminate H]).
    unfold bind.
    destruct (py_int_cases mo e) as [-> | ->];
      [|do 2 eexists; split; [reflexivity|intros H; discriminate H]].
    destruct (py_int_cases d e) as [-> | ->];
      do 2 eexists; (split; [reflexivity|intros H; discriminate H]).
  - simpl. do 2 eexists. split; [reflexivity|]. intros _. split; reflexivity.
Qed.

Lemma extrair_data_weibo_returns (date_str : pyval) (e : env) :
  exists s e', extrair_data_weibo date_str e = (Ret (PStr s), e')
               /\ (unmatched re_weibo date_str ->
                   s = isoformat (clock (ticks e)) /\ e' = tick e).
Proof.
  unfold extrair_data_weibo, try_except.
  destruct date_str as [| | | |s| |]; simpl;
    try (do 2 eexists; split; [reflexivity|intros _; split; reflexivity]).
  unfold bind at 1, ret at 1.
  destruct (re_search re_weibo s) as [gs|] eqn:Hs.
  - destruct gs as [|mo [|d [|h [|mi [|x gs]]]]]; simpl;
      try (do 2 eexists; split; [reflexivity|intros H; discriminate H]).
    unfold bind, now. simpl.
    destruct (dt_month (clock (S (ticks e))) =? 1)%Z.
    + destruct (py_int_cases mo (tick (tick e))) as [-> | ->];
        [|do 2 eexists; split; [reflexivity|intros H; discriminate H]].
      unfold ret at 1.
      destruct (py_int_cases mo (tick (tick e))) as [-> | ->];
        [|do 2 eexists; split; [reflexivity|intros H; discriminate H]].
      destruct (py_int_cases d (tick (tick e))) as [-> | ->];
        [|do 2 eexists; split; [reflexivity|intros H; discriminate H]].
      destruct (py_int_cases h (tick (tick e))) as [-> | ->];
        [|do 2 eexists; split; [reflexivity|intros H; discriminate H]].
      destruct (py_int_cases mi (tick (tick e))) as [-> | ->];
        do 2 eexists; (split; [reflexivity|intros H; discriminate H]).
    + unfold ret at 1.
      destruct (py_int_cases mo (tick (tick e))) as [-> | ->];
        [|do 2 eexists; split; [reflexivity|intros H; discriminate H]].
      destruct (py_int_cases d (tick (tick e))) as [-> | ->];
        [|do 2 eexists; split; [reflexivity|intros H; discriminate H]].
      destruct (py_int_cases h (tick (tick e))) as [-> | ->];
        [|do 2 eexists; split; [reflexivity|intros H; discriminate H]].
      destruct (py_int_cases mi (tick (tick e))) as [-> | ->];
        do 2 eexists; (split; [reflexivity|intros H; discriminate H]).
  - simpl. do 2 eexists. split; [reflexivity|]. intros _. split; reflexivity.
Qed.



End Date_normalizers.

(** ** The implicit-year rule *)

Section Implicit_year.
Context {W : World}.

Lemma decimal_value_digit (a : N) : (a < 10)%N -> decimal_value (digit a) = Some a.
Proof.
  intros Ha. unfold decimal_value, digit.
  replace ((48 <=? 48 + a)%N && (48 + a <=? 57)%N) with true.
  - f_equal. lia.
  - symmetry. apply andb_true_iff. split; apply N.leb_le; lia.
Qed.

Lemma in_class_digit (a : N) : (a < 10)%N -> in_class ClsDigit (digit a) = true.
Proof. intros Ha. unfold in_class. now rewrite decimal_value_digit. Qed.

Lemma digit_is_no_space (a : N) : (a < 10)%N -> in_class ClsSpace (digit a) = false.
Proof.
  intros Ha. unfold in_class, is_space, digit.
  replace (48 + a <? 128)%N with true by (symmetry; apply N.ltb_lt; lia).
  apply orb_false_iff. split; apply andb_false_iff.
  - right. apply N.leb_gt. lia.
  - right. apply N.leb_gt. lia.
Qed.

Lemma span_zero (p : codepoint -> bool) (s : str) : span p (Some 0%nat) s = 0%nat.
Proof. now destruct s. Qed.

(** A group of one or two digits, on two digits: both are taken. *)
Lemma match_two_digits (re' : regex) (c1 c2 : codepoint) (s : str) (gs : list str) :
  in_class ClsDigit c1 = true -> in_class ClsDigit c2 = true ->
  match_here re' s = Some gs ->
  match_here (Rep ClsDigit 1 (Some 2) true :: re') (c1 :: c2 :: s) = Some ([c1; c2] :: gs).
Proof.
  intros H1 H2 Hs. cbn -[in_class]. rewrite H1, H2. cbn -[in_class].
  rewrite span_zero. cbn. now rewrite Hs.
Qed.

Lemma match_lit (re' : regex) (c : codepoint) (s : str) :
  match_here (Lit c :: re') (c :: s) = match_here re' s.
Proof. cbn. now rewrite N.eqb_refl. Qed.

(** Optional blanks, on one blank before something that is no blank. *)
Lemma match_one_blank (re' : regex) (b c : codepoint) (s : str) (gs : list str) :
  in_class ClsSpace b = true -> in_class ClsSpace c = false ->
  match_here re' (c :: s) = Some gs ->
  match_here (Rep ClsSpace 0 None false :: re') (b :: c :: s) = Some gs.
Proof.
  intros Hb Hc Hs. cbn -[in_class]. rewrite Hb, Hc. cbn -[in_class].
  now rewrite Hs.
Qed.

Lemma re_search_here (re : regex) (s : str) (gs : list str) :
  match_here re s = Some gs -> re_search re s = Some gs.
Proof. intros H. destruct s; simpl; now rewrite H. Qed.

Lemma weibo_pattern_found (a1 a2 a3 a4 a5 a6 a7 a8 : N) :
  (a1 < 10)%N -> (a2 < 10)%N -> (a3 < 10)%N -> (a4 < 10)%N ->
  (a5 < 10)%N -> (a6 < 10)%N -> (a7 < 10)%N -> (a8 < 10)%N ->
  re_search re_weibo
    ([digit a1; digit a2] ++ [yue] ++ [digit a3; digit a4] ++ [ri] ++ lit " "
     ++ [digit a5; digit a6] ++ lit ":" ++ [digit a7; digit a8])
  = Some [[digit a1; digit a2]; [digit a3; digit a4];
          [digit a5; digit a6]; [digit a7; digit a8]].
Proof.
  intros H1 H2 H3 H4 H5 H6 H7 H8.
  apply re_search_here. unfold re_weibo.
  change (lit " ") with [32%N]. change (lit ":") with [58%N]. cbn [app].
  apply match_two_digits; auto using in_class_digit. rewrite match_lit.
  apply match_two_digits; auto using in_class_digit. rewrite match_lit.
  apply match_one_blank; [reflexivity|now apply digit_is_no_space|].
  apply match_two_digits; auto using in_class_digit. rewrite match_lit.
  apply (@match_two_digits [] _ _ [] []); auto using in_class_digit.
Qed.

Lemma digits_value_two (a b : N) :
  (a < 10)%N -> (b < 10)%N -> digits_value [digit a; digit b] = Z.of_N (10 * a + b).
Proof.
  intros Ha Hb. unfold digits_value. cbn [fold_left].
  rewrite !decimal_value_digit by assumption. lia.
Qed.

Lemma digit_cases (a : N) :
  (a < 10)%N ->
  a = 0%N \/ a = 1%N \/ a = 2%N \/ a = 3%N \/ a = 4%N
  \/ a = 5%N \/ a = 6%N \/ a = 7%N \/ a = 8%N \/ a = 9%N.
Proof. lia. Qed.

(** Two digits print back as themselves under [:02d]. *)
Lemma fmt_02d_two (a b : N) :
  (a < 10)%N -> (b < 10)%N -> fmt_02d (Z.of_N (10 * a + b)) = [digit a; digit b].
Proof.
  intros Ha Hb.
  destruct (digit_cases Ha) as [->|[->|[->|[->|[->|[->|[->|[->|[->| ->]]]]]]]]];
    destruct (digit_cases Hb) as [->|[->|[->|[->|[->|[->|[->|[->|[->| ->]]]]]]]]];
    reflexivity.
Qed.

(** C8: on a text of the form MM月DD日 HH:MM (two decimal digits each) the
    implicit-year normalizer reads the clock twice, takes the year of the
    first reading, takes one year off when the second reading is in January
    and the month written is 12, and returns year-MM-DDTHH:MM:00 with the
    digits of the text. *)
Theorem implicit_year_rollback (e : env) (a1 a2 a3 a4 a5 a6 a7 a8 : N) :
  (a1 < 10)%N -> (a2 < 10)%N -> (a3 < 10)%N -> (a4 < 10)%N ->
  (a5 < 10)%N -> (a6 < 10)%N -> (a7 < 10)%N -> (a8 < 10)%N ->
  let month := [digit a1; digit a2] in
  let day := [digit a3; digit a4] in
  let hour := [digit a5; digit a6] in
  let minute := [digit a7; digit a8] in
  let current_year := dt_year (clock (ticks e)) in
  let in_january := (dt_month (clock (S (ticks e))) =? 1)%Z in
  let of_december := (Z.of_N (10 * a1 + a2) =? 12)%Z in
  let year := if in_january && of_december then (current_year - 1)%Z else current_year in
  extrair_data_weibo
    (PStr (month ++ [yue] ++ day ++ [ri] ++ lit " " ++ hour ++ lit ":" ++ minute)) e
  = (Ret (PStr (str_of_Z year ++ lit "-" ++ month ++ lit "-" ++ day
                ++ lit "T" ++ hour ++ lit ":" ++ minute ++ lit ":00")),
     tick (tick e)).
Proof.
  intros H1 H2 H3 H4 H5 H6 H7 H8 month day hour minute current_year in_january
         of_december year.
  unfold extrair_data_weibo, try_except.
  unfold bind at 1. unfold py_re_search, ret at 1.
  subst month day hour minute. rewrite weibo_pattern_found by assumption.
  cbv beta iota. unfold bind, now. cbv beta iota.
  change (ticks (tick e)) with (S (ticks e)). fold current_year. fold in_january.
  destruct in_january; unfold ret;
    repeat (cbv beta iota; rewrite py_int_short by (simpl; lia));
    cbv beta iota;
    rewrite ?digits_value_two by assumption;
    rewrite !fmt_02d_two by assumption;
    subst year; simpl andb; reflexivity.
Qed.

End Implicit_year.

(** "12月21日 17:11" read in June 2025, and read in January 2026. *)
Lemma implicit_year_rollback_witness :
  fst (@extrair_data_weibo (Sample.world 2025 6 Sample.no_files Sample.no_fault)
         (PStr Sample.weibo_date) Sample.env0)
  = Ret (PStr (lit "2025-12-21T17:11:00"))
  /\ fst (@extrair_data_weibo (Sample.world 2026 1 Sample.no_files Sample.no_fault)
            (PStr Sample.weibo_date) Sample.env0)
     = Ret (PStr (lit "2025-12-21T17:11:00")).
Proof.
  split.
  - exact (f_equal fst
             (@implicit_year_rollback (Sample.world 2025 6 Sample.no_files Sample.no_fault)
                Sample.env0 1 2 2 1 1 7 1 1
                eq_refl eq_refl eq_refl eq_refl eq_refl eq_refl eq_refl eq_refl)).
  - exact (f_equal fst
             (@implicit_year_rollback (Sample.world 2026 1 Sample.no_files Sample.no_fault)
                Sample.env0 1 2 2 1 1 7 1 1
                eq_refl eq_refl eq_refl eq_refl eq_refl eq_refl eq_refl eq_refl)).
Defined.

(** "2025年12月22日" gives 2025-12-22T00:00:00 without consulting the clock. *)
Example localized_date_example :
  @extrair_data_chinesa (Sample.world 2025 6 Sample.no_files Sample.no_fault)
    (PStr Sample.chinese_date) Sample.env0
  = (Ret (PStr (lit "2025-12-22T00:00:00")), Sample.env0).
Proof. vm_compute. reflexivity. Qed.

(** A text with no date in it gives the clock's time; so does an object that
    is no string at all. *)
Example malformed_dates_example :
  let W := Sample.world 2025 6 Sample.no_files Sample.no_fault in
  fst (extrair_data_chinesa (PStr (lit "yesterday")) Sample.env0)
  = Ret (PStr (lit "2025-06-15T09:30:00"))
  /\ fst (extrair_data_weibo PNone Sample.env0) = Ret (PStr (lit "2025-06-15T09:30:00"))
  /\ fst (extrair_data_wsj PNone (PStr (lit "2025-06-01T10:00:00")) Sample.env0)
     = Ret (PStr (lit "2025-06-01T10:00:00")).
Proof.
  intros W.
  split; [vm_compute; reflexivity|].
  split; vm_compute; reflexivity.
Qed.

(** ** The People's Daily mapper *)

Section Mappers.
Context {W : World}.

Lemma bind_ret_inv {S A B : Type} (m : M S A) (k : A -> M S B) (s s' : S) (b : B) :
  bind m k s = (Ret b, s') ->
  exists a s1, m s = (Ret a, s1) /\ k a s1 = (Ret b, s').
Proof.
  unfold bind. destruct (m s) as [[a|e] s1]; [eauto|discriminate].
Qed.

Lemma py_getitem_ret_inv (d : list (str * pyval)) (k : str) (e e' : env) (v : pyval) :
  py_getitem (PDict d) k e = (Ret v, e') -> dict_get d k = Some v /\ e' = e.
Proof.
  unfold py_getitem. destruct (dict_get d k); [|discriminate].
  intros [= -> ->]. auto.
Qed.

(** C10: whenever the People's Daily mapper accepts a raw item, the item has
    a title, and the record's content_original is the item's summary when
    the summary is present and not empty, and the item's title otherwise;
    the record's translated content is the translator applied to that same
    text; so content_original is not empty whenever the title is not. *)
Theorem peoples_daily_content_falls_back_to_title
        (d : list (str * pyval)) (e e' : env) (out : pyval) :
  parse_peoples_daily (PDict d) e = (Ret out, e') ->
  let summary := match dict_get d (lit "summary") with
                 | Some v => v
                 | None => PStr []
                 end in
  exists title fields conteudo_pt e1 e2,
    dict_get d (lit "title") = Some title
    /\ out = PDict fields
    /\ dict_get fields (lit "conteudo_original") = Some (py_or summary title)
    /\ dict_get fields (lit "conteudo_pt") = Some conteudo_pt
    /\ traduzir_pt (py_or summary title) e1 = (Ret conteudo_pt, e2)
    /\ (truthy title = true -> truthy (py_or summary title) = true).
Proof.
  intros H summary. unfold parse_peoples_daily in H.
  apply bind_ret_inv in H. destruct H as (s0 & x0 & Hs & H).
  simpl in Hs. injection Hs as <- <-. fold summary in H.
  apply bind_ret_inv in H. destruct H as (conteudo & x1 & Hc & H).
  apply bind_ret_inv in H. destruct H as (id & x2 & Hid & H).
  apply bind_ret_inv in H. destruct H as (title & x3 & Ht & H).
  apply bind_ret_inv in H. destruct H as (title' & x4 & Ht' & H).
  apply bind_ret_inv in H. destruct H as (titulo_pt & x5 & Htp & H).
  apply bind_ret_inv in H. destruct H as (conteudo_pt & x6 & Hcp & H).
  apply bind_ret_inv in H. destruct H as (pd & x7 & Hpd & H).
  apply bind_ret_inv in H. destruct H as (dp & x8 & Hdp & H).
  apply bind_ret_inv in H. destruct H as (dr & x9 & Hdr & H).
  apply bind_ret_inv in H. destruct H as (url & x10 & Hurl & H).
  injection H as <- <-.
  apply py_getitem_ret_inv in Ht. destruct Ht as [Ht ->].
  assert (Hconteudo : conteudo = py_or summary title /\ x1 = e).
  { unfold py_or. destruct (truthy summary).
    - injection Hc as <- <-. auto.
    - simpl in Hc. rewrite Ht in Hc. injection Hc as <- <-. auto. }
  destruct Hconteudo as [-> ->].
  exists title. eexists. exists conteudo_pt, x5, x6.
  split; [exact Ht|]. split; [reflexivity|].
  split; [reflexivity|]. split; [reflexivity|].
  split; [exact Hcp|].
  intros Htitle. unfold py_or. destruct (truthy summary) eqn:Hsum; assumption.
Qed.

End Mappers.

Lemma peoples_daily_content_falls_back_to_title_witness :
  let W := Sample.june [] in
  let d := Sample.article_fields "https://people.cn/a" "AI rises" PNone in
  let outcome := parse_peoples_daily (PDict d) Sample.env0 in
  let summary := match dict_get d (lit "summary") with
                 | Some v => v
                 | None => PStr []
                 end in
  exists title fields conteudo_pt e1 e2,
    dict_get d (lit "title") = Some title
    /\ Sample.some_dict (fst outcome) = fields
    /\ dict_get fields (lit "conteudo_original") = Some (py_or summary title)
    /\ dict_get fields (lit "conteudo_pt") = Some conteudo_pt
    /\ traduzir_pt (py_or summary title) e1 = (Ret conteudo_pt, e2)
    /\ (truthy title = true -> truthy (py_or summary title) = true).
Proof.
  intros W d outcome summary.
  destruct (@peoples_daily_content_falls_back_to_title W d Sample.env0 (snd outcome)
              (PDict (Sample.some_dict (fst outcome))))
    as (title & fields & cpt & e1 & e2 & H1 & H2 & H3 & H4 & H5 & H6).
  - vm_compute. reflexivity.
  - exists title, fields, cpt, e1, e2.
    injection H2 as H2.
    split; [exact H1|]. split; [exact H2|]. split; [exact H3|].
    split; [exact H4|]. split; [exact H5|exact H6].
Defined.

(** A summary that is null, absent or empty gives way to the title; a
    summary with text in it is the content. *)
Example peoples_daily_content_examples :
  let W := Sample.june [] in
  let content (item : pyval) :=
    dict_get (Sample.some_dict (fst (parse_peoples_daily item Sample.env0)))
             (lit "conteudo_original") in
  content (Sample.article "https://people.cn/a" "AI rises" PNone)
  = Some (PStr (lit "AI rises"))
  /\ content (Sample.article "https://people.cn/a" "AI rises" (PStr []))
     = Some (PStr (lit "AI rises"))
  /\ content Sample.article_b = Some (PStr (lit "A summary")).
Proof.
  intros W content.
  split; [vm_compute; reflexivity|].
  split; vm_compute; reflexivity.
Qed.

(** ** The query endpoint *)

Lemma str_leb_total (a b : str) : str_leb a b = false -> str_leb b a = true.
Proof.
  revert b. induction a as [|x a IH]; intros [|y b]; simpl; try discriminate; auto.
  destruct (x <? y)%N eqn:Hlt; [discriminate|].
  destruct (x =? y)%N eqn:Heq.
  - apply N.eqb_eq in Heq. subst y. rewrite N.ltb_irrefl, N.eqb_refl. apply IH.
  - intros _. apply N.ltb_ge in Hlt. apply N.eqb_neq in Heq.
    replace (y <? x)%N with true; [reflexivity|]. symmetry. apply N.ltb_lt. lia.
Qed.

Lemma text_leb_total (a b : option str) : text_leb a b = false -> text_leb b a = true.
Proof.
  destruct a as [s|], b as [t|]; simpl; try discriminate; auto. apply str_leb_total.
Qed.

Lemma insert_desc_perm (r : row) (l : list row) : Permutation (insert_desc r l) (r :: l).
Proof.
  induction l as [|x l IH]; simpl; [reflexivity|].
  destruct (text_leb (data_publicacao r) (data_publicacao x)); [|reflexivity].
  rewrite IH. apply perm_swap.
Qed.

Lemma insert_desc_sorted (r : row) (l : list row) :
  Sorted not_before l -> Sorted not_before (insert_desc r l).
Proof.
  induction 1 as [|x l Hl IH Hx]; simpl.
  - repeat constructor.
  - destruct (text_leb (data_publicacao r) (data_publicacao x)) eqn:E.
    + constructor; [exact IH|].
      destruct l as [|y l]; simpl.
      * constructor. exact E.
      * destruct (text_leb (data_publicacao r) (data_publicacao y)).
        -- inversion Hx; subst. now constructor.
        -- constructor. exact E.
    + constructor; [now constructor|]. constructor. now apply text_leb_total.
Qed.

Lemma order_by_spec (rows : list row) :
  Permutation (order_by_data_publicacao_desc rows) rows
  /\ Sorted not_before (order_by_data_publicacao_desc rows).
Proof.
  unfold order_by_data_publicacao_desc.
  assert (H : forall acc, Sorted not_before acc ->
                          Permutation (fold_left (fun a r => insert_desc r a) rows acc)
                                      (acc ++ rows)
                          /\ Sorted not_before (fold_left (fun a r => insert_desc r a) rows acc)).
  { induction rows as [|r rows IH]; intros acc Hacc; simpl.
    - rewrite app_nil_r. auto.
    - destruct (IH (insert_desc r acc) (insert_desc_sorted r Hacc)) as [Hp Hs].
      split; [|exact Hs]. rewrite Hp, insert_desc_perm.
      apply Permutation_middle. }
  destruct (H [] (Sorted_nil _)) as [Hp Hs]. auto.
Qed.

Lemma where_clause_spec (q_pais q_plataforma : option str) (r : row) :
  where_clause q_pais q_plataforma r = true
  <-> asks q_pais (pais r) /\ asks q_plataforma (plataforma r).
Proof.
  unfold where_clause, asks, given. rewrite andb_true_iff.
  assert (H : forall q column,
             (if match q with Some (_ :: _) => true | _ => false end
              then text_eq column q else true) = true
             <-> match q with Some (c :: s) => column = Some (c :: s) | _ => True end).
  { intros [[|c s]|] column; try tauto. apply text_eq_key. }
  now rewrite !H.
Qed.

Section Query_properties.
Context {W : World}.

Lemma to_item_shows (r : row) (i : SentimentItem) : to_item r = Some i -> shows r i.
Proof.
  unfold to_item, shows.
  destruct (id_origem r), (plataforma r), (tipo_fonte r), (pais r),
    (data_publicacao r), (data_raspagem r),
    (validate_int (engajamento r)), (validate_int (ordem_coleta r));
    try discriminate.
  intros [= <-]. simpl. repeat split.
Qed.

Lemma to_items_shows (rows : list row) :
  forall items, to_items rows = Some items -> Forall2 shows rows items.
Proof.
  induction rows as [|r rows IH]; simpl; intros items.
  - intros [= <-]. constructor.
  - destruct (to_item r) as [i|] eqn:Hi; [|discriminate].
    destruct (to_items rows) as [is'|]; [|discriminate].
    intros [= <-]. constructor; [now apply to_item_shows|now apply IH].
Qed.

(** C9 as the code has it: when the endpoint answers, its answer is, item
    for item, a list of rows that holds exactly the rows of the table
    matching the parameters that are given and not empty, no row followed by
    one of a later published_at; each item exposes the twelve fields the
    response model declares, which are all the columns but content_original. *)
Theorem query_answer (table : list row) (q_pais q_plataforma : option str)
        (items : list SentimentItem) :
  get_all_data (Some table) q_pais q_plataforma = Ret items ->
  exists rows,
    Permutation rows (filter (where_clause q_pais q_plataforma) table)
    /\ (forall r, In r rows <->
                  In r table /\ asks q_pais (pais r) /\ asks q_plataforma (plataforma r))
    /\ Sorted not_before rows
    /\ Forall2 shows rows items.
Proof.
  unfold get_all_data.
  set (rows := order_by_data_publicacao_desc _).
  destruct (to_items rows) as [is'|] eqn:Hi; [|discriminate].
  intros [= <-]. exists rows.
  destruct (order_by_spec (filter (where_clause q_pais q_plataforma) table)) as [Hp Hs].
  split; [exact Hp|]. split; [|split; [exact Hs|now apply to_items_shows]].
  intros r. split.
  - intros Hr. apply (Permutation_in _ Hp) in Hr. apply filter_In in Hr.
    now rewrite where_clause_spec in Hr.
  - intros [Hr Hq]. apply (Permutation_in _ (Permutation_sym Hp)).
    apply filter_In. now rewrite where_clause_spec.
Qed.

End Query_properties.

Lemma query_answer_witness :
  let W := Sample.june [] in
  let table := [Sample.a_row "https://wsj.com/a" "first text" "2025-06-01T10:00:00";
                Sample.a_row "https://wsj.com/b" "other text" "2025-06-09T10:00:00"] in
  let q_pais := Some (lit "USA") in
  let items := match get_all_data (Some table) q_pais None with
               | Ret l => l
               | Raise _ => []
               end in
  exists rows,
    Permutation rows (filter (where_clause q_pais None) table)
    /\ (forall r, In r rows <->
                  In r table /\ asks q_pais (pais r) /\ asks None (plataforma r))
    /\ Sorted not_before rows
    /\ Forall2 shows rows items.
Proof.
  intros W table q_pais items.
  apply (@query_answer W table q_pais None items).
  vm_compute. reflexivity.
Defined.

(** C9 as stated fails.  Two tables that differ in content_original alone
    get the same answer, so the answer does not expose that column; and a
    country parameter given as the empty string selects every row, though no
    row has the empty country. *)
Lemma answer_omits_content_original :
  let W := Sample.june [] in
  let r1 := Sample.a_row "https://wsj.com/a" "first text" "2025-06-01T10:00:00" in
  let r2 := Sample.a_row "https://wsj.com/a" "second text" "2025-06-01T10:00:00" in
  conteudo_original r1 <> conteudo_original r2
  /\ (exists items, get_all_data (Some [r1]) None None = Ret items
                    /\ get_all_data (Some [r2]) None None = Ret items
                    /\ List.length items = 1%nat)
  /\ (exists items, get_all_data (Some [r1]) (Some []) None = Ret items
                    /\ List.length items = 1%nat
                    /\ pais r1 <> Some []).
Proof.
  intros W r1 r2.
  split; [vm_compute; discriminate|].
  split.
  - eexists. split; [vm_compute; reflexivity|].
    split; [vm_compute; reflexivity|reflexivity].
  - eexists. split; [vm_compute; reflexivity|].
    split; [reflexivity|vm_compute; discriminate].
Qed.

(** The answer is in descending order of published_at, and a missing
    database file is an error of its own, not an empty answer. *)
Example query_order_example :
  let W := Sample.june [] in
  let table := [Sample.a_row "https://wsj.com/a" "first text" "2025-06-01T10:00:00";
                Sample.a_row "https://wsj.com/b" "other text" "2025-06-09T10:00:00"] in
  match get_all_data (Some table) None (Some (lit "WSJ")) with
  | Ret items => map item_id_origem items = [lit "https://wsj.com/b"; lit "https://wsj.com/a"]
  | Raise _ => False
  end
  /\ get_all_data (Some table) (Some (lit "China")) None = Ret []
  /\ get_all_data None None None = Raise (HTTPException 500).
Proof.
  intros W table.
  split; [vm_compute; reflexivity|].
  split; vm_compute; reflexivity.
Qed.

(** ** More on the table *)

Lemma do_update_self (r : row) : do_update r r = r.
Proof. now destruct r. Qed.

Lemma existsb_has_key_false (k : str) (t : list row) :
  existsb (has_key k) t = false -> forall r, In r t -> has_key k r = false.
Proof.
  intros H r Hr. destruct (has_key k r) eqn:E; [|reflexivity].
  assert (existsb (has_key k) t = true) by (apply existsb_exists; eauto). congruence.
Qed.

(** X1: writing the same record twice in a row is writing it once: the
    second upsert of a record with a text origin_id changes nothing. *)
Theorem upsert_idempotent (r : row) (k : str) (t : list row) :
  id_origem r = Some k -> upsert r (upsert r t) = upsert r t.
Proof.
  intros Hk.
  set (f := fun old => if has_key k old then do_update old r else old).
  assert (Hf : forall old, f (f old) = f old).
  { intros old. unfold f. destruct (has_key k old) eqn:E; [|now rewrite E].
    assert (E' : has_key k (do_update old r) = true) by exact E.
    now rewrite E'. }
  rewrite (upsert_key _ t Hk). fold f.
  destruct (existsb (has_key k) t) eqn:Ht.
  - rewrite (upsert_key _ _ Hk). fold f.
    replace (existsb (has_key k) (map f t)) with true.
    + rewrite map_map. apply map_ext. exact Hf.
    + symmetry. rewrite existsb_count_key in *.
      rewrite count_key_map; [exact Ht|]. intros x. apply keep_id_origem.
  - rewrite (upsert_key _ _ Hk). fold f.
    replace (existsb (has_key k) (t ++ [r])) with true.
    + rewrite map_app. simpl. f_equal.
      * rewrite <- (map_id t) at 2. apply map_ext_in. intros x Hx.
        unfold f. now rewrite (existsb_has_key_false _ _ Ht x Hx).
      * unfold f. apply has_key_iff in Hk. rewrite Hk. now rewrite do_update_self.
    + symmetry. rewrite existsb_app. apply orb_true_iff. right. simpl.
      apply has_key_iff in Hk. now rewrite Hk.
Qed.

Lemma upsert_idempotent_witness :
  let r := Sample.a_row "https://wsj.com/a" "first text" "2025-06-01T10:00:00" in
  let t := [Sample.a_row "https://wsj.com/b" "other" "2025-06-02T10:00:00"] in
  upsert r (upsert r t) = upsert r t.
Proof.
  exact (@upsert_idempotent (Sample.a_row "https://wsj.com/a" "first text" "2025-06-01T10:00:00")
           (lit "https://wsj.com/a")
           [Sample.a_row "https://wsj.com/b" "other" "2025-06-02T10:00:00"] eq_refl).
Defined.

Lemma main_keeps_unique_keys_witness :
  let W := Sample.june [Sample.article_a; Sample.article_a] in
  db_all unique_keys (s_db (snd (main Sample.session0))).
Proof.
  intros W. apply (@main_keeps_unique_keys W Sample.session0).
  split; exact unique_keys_nil.
Defined.

(** ** More on the orchestrator *)

Section Orchestrator_runs.
Context {W : World}.



Lemma succeeds_bind {S A B : Type} (m : M S A) (k : A -> M S B) :
  succeeds m -> (forall a, succeeds (k a)) -> succeeds (bind m k).
Proof.
  intros Hm Hk s. destruct (Hm s) as (a & s1 & H1). destruct (Hk a s1) as (b & s2 & H2).
  exists b, s2. unfold bind. now rewrite H1.
Qed.

Lemma succeeds_lift {A : Type} (m : M env A) : succeeds m -> succeeds (lift m).
Proof.
  intros Hm w. destruct (Hm (s_env w)) as (a & e & H). unfold lift. rewrite H. eauto.
Qed.

Lemma succeeds_log (l : log_entry) : succeeds (log l).
Proof. intros w. unfold log, lift, log_env. eauto. Qed.

Lemma succeeds_for_each {S A : Type} (f : A -> M S unit) (l : list A) :
  (forall a, succeeds (f a)) -> succeeds (for_each f l).
Proof.
  intros Hf. induction l as [|a l IH]; simpl.
  - intros s. unfold ret. eauto.
  - apply succeeds_bind; auto.
Qed.

Lemma succeeds_run_scrapers : succeeds run_scrapers.
Proof.
  unfold run_scrapers.
  apply succeeds_bind; [apply succeeds_log|intros _].
  apply succeeds_bind; [|intros _; apply succeeds_log].
  apply succeeds_for_each. intros name. unfold run_scraper.
  apply succeeds_bind; [apply succeeds_log|intros _].
  apply succeeds_bind; [intros w; unfold lift; eauto|intros [| |]].
  - apply succeeds_log.
  - apply succeeds_bind; [apply succeeds_log|intros _; apply succeeds_log].
  - apply succeeds_log.
Qed.

Lemma succeeds_storage_request :
  (forall n, storage_fault n = false) -> succeeds storage_request.
Proof. intros Hf w. unfold storage_request. rewrite Hf. eauto. Qed.

Lemma succeeds_process_file (filename : str) (parser_func : pyval -> M env pyval) (bd : str) :
  (forall n, storage_fault n = false) ->
  readable_or_skipped (output_dir filename) ->
  succeeds (process_file filename parser_func bd).
Proof.
  intros Hf Hr. unfold process_file. destruct (output_dir filename) as [| |e|data].
  - apply succeeds_log.
  - apply succeeds_bind; [apply succeeds_log|intros _; apply succeeds_log].
  - destruct Hr.
  - apply succeeds_bind; [apply succeeds_log|intros _].
    apply succeeds_bind.
    + intros w. simpl in Hr. destruct data; try discriminate; simpl; unfold ret; eauto.
    + intros items. apply succeeds_bind.
      * intros w. destruct (process_items_returns filename parser_func bd items 0 0 w)
          as (c & w' & H). eauto.
      * intros count. apply succeeds_bind; [|intros _; apply succeeds_log].
        unfold commit. apply succeeds_bind; [now apply succeeds_storage_request|].
        intros _ w. eauto.
Qed.

Lemma main_returns (w : session) :
  (forall n, storage_fault n = false) ->
  (forall filename, readable_or_skipped (output_dir filename)) ->
  exists w', main w = (Ret tt, w') /\ working (s_db w') = committed (s_db w').
Proof.
  intros Hf Hr.
  assert (Hm : succeeds main).
  { unfold main.
    apply succeeds_bind; [apply succeeds_lift; intros e; unfold now; eauto|intros n].
    apply succeeds_bind; [apply succeeds_log|intros _].
    apply succeeds_bind; [apply succeeds_run_scrapers|intros _].
    apply succeeds_bind; [now apply succeeds_storage_request|intros _].
    do 4 (apply succeeds_bind; [now apply succeeds_process_file|intros _]).
    apply succeeds_bind; [intros s; unfold close; eauto|intros _; apply succeeds_log]. }
  destruct (Hm w) as ([] & w' & Hw'). exists w'. split; [exact Hw'|].
  unfold main in Hw'.
  do 8 (apply bind_ret_inv in Hw'; destruct Hw' as (? & ? & _ & Hw')).
  apply bind_ret_inv in Hw'. destruct Hw' as (? & w1 & Hclose & Hw').
  unfold close in Hclose. injection Hclose as _ <-.
  unfold log, lift, log_env in Hw'. simpl in Hw'. injection Hw' as <-. reflexivity.
Qed.

(** X5: a run completes when the storage accepts every request and each
    raw file is missing, or is one on which the decoder raises
    json.JSONDecodeError, or decodes to a list (or a dict or a string):
    failed collectors, such files and failed items are all survived, and at
    the end nothing is left uncommitted.  A file whose reading raises
    anything else is outside this: it aborts the run. *)
Theorem main_completes (w : session) :
  (forall n, storage_fault n = false) ->
  (forall filename, readable_or_skipped (output_dir filename)) ->
  exists w', main w = (Ret tt, w') /\ working (s_db w') = committed (s_db w').
Proof. exact (main_returns w). Qed.

End Orchestrator_runs.

Lemma main_completes_witness :
  let W := Sample.june [Sample.article_a; Sample.malformed] in
  exists w', main Sample.session0 = (Ret tt, w') /\ working (s_db w') = committed (s_db w').
Proof.
  intros W. apply (@main_completes W Sample.session0).
  - intros n. reflexivity.
  - intros filename. simpl. unfold Sample.only_peoples_daily.
    destruct (str_eqb filename (lit "peoples_daily_raw.json")); reflexivity.
Defined.

Section Orchestrator_edges.
Context {W : World}.

Lemma run_scraper_runs (script_name : str) (w : session) :
  exists l,
    run_scraper script_name w
    = (Ret tt, {| s_env := {| ticks := S (ticks (s_env w));
                              logs := logs (s_env w) ++ InfoRunScraper script_name :: l |};
                  s_db := s_db w |})
    /\ scripts_started l = [].
Proof.
  unfold run_scraper, bind, log, lift, log_env. simpl.
  destruct (scraper_run (ticks (s_env w)) script_name); simpl;
    eexists; (split; [rewrite <- ?app_assoc; reflexivity|reflexivity]).
Qed.

Lemma scripts_started_app (l1 l2 : list log_entry) :
  scripts_started (l1 ++ l2) = scripts_started l1 ++ scripts_started l2.
Proof. unfold scripts_started. apply flat_map_app. Qed.

Lemma for_each_run_scraper (names : list str) :
  forall w, exists l,
    for_each run_scraper names w
    = (Ret tt, {| s_env := {| ticks := List.length names + ticks (s_env w);
                              logs := logs (s_env w) ++ l |};
                  s_db := s_db w |})
    /\ scripts_started l = names.
Proof.
  induction names as [|name names IH]; intros w.
  - exists []. simpl. unfold ret. rewrite app_nil_r. destruct w as [[t l] db]. auto.
  - destruct (run_scraper_runs name w) as (l1 & H1 & Hs1).
    simpl for_each. unfold bind. rewrite H1.
    match goal with |- context [for_each run_scraper names ?w1] =>
      destruct (IH w1) as (l2 & H2 & Hs2); rewrite H2 end.
    simpl. exists (InfoRunScraper name :: l1 ++ l2). split.
    + rewrite <- app_assoc. simpl. do 3 f_equal. f_equal. lia.
    + change (InfoRunScraper name :: l1 ++ l2) with ([InfoRunScraper name] ++ l1 ++ l2).
      rewrite !scripts_started_app, Hs1, Hs2. reflexivity.
Qed.

Lemma run_scrapers_returns (w : session) :
  exists l,
    run_scrapers w
    = (Ret tt, {| s_env := {| ticks := 4 + ticks (s_env w);
                              logs := logs (s_env w) ++ [InfoCollectStart] ++ l
                                      ++ [InfoCollectDone] |};
                  s_db := s_db w |})
    /\ scripts_started l = SCRAPER_SCRIPTS.
Proof.
  unfold run_scrapers. unfold bind at 1. unfold log at 1, lift, log_env. cbv beta iota.
  unfold bind at 1.
  match goal with |- context [for_each run_scraper SCRAPER_SCRIPTS ?w1] =>
    destruct (for_each_run_scraper SCRAPER_SCRIPTS w1) as (l & H & Hs); rewrite H end.
  unfold log, lift, log_env. simpl. exists l. split; [|exact Hs].
  rewrite <- !app_assoc. reflexivity.
Qed.

(** X6: the collection step never fails and never touches the table: it
    starts the four collectors in their order, each exactly once, whatever
    the earlier ones did (exit code, stderr, or not starting at all), and
    consults the outside world four times. *)
Theorem run_scrapers_attempts_all (w : session) :
  exists l,
    run_scrapers w
    = (Ret tt, {| s_env := {| ticks := 4 + ticks (s_env w);
                              logs := logs (s_env w) ++ [InfoCollectStart] ++ l
                                      ++ [InfoCollectDone] |};
                  s_db := s_db w |})
    /\ scripts_started l = SCRAPER_SCRIPTS.
Proof. exact (run_scrapers_returns w). Qed.

Lemma bind_ret_step {S A B : Type} (m : M S A) (k : A -> M S B) (s s1 : S) (a : A) :
  m s = (Ret a, s1) -> bind m k s = k a s1.
Proof. intros H. unfold bind. now rewrite H. Qed.

Lemma bind_raise_step {S A B : Type} (m : M S A) (k : A -> M S B) (s s1 : S) (e : exn) :
  m s = (Raise e, s1) -> bind m k s = (Raise e, s1).
Proof. intros H. unfold bind. now rewrite H. Qed.

(** X7: a raw file that decodes to something [enumerate] does not accept
    (a number, a boolean, null) is not skipped: the first source's file
    being such, the run ends there with a TypeError, having written nothing,
    and no later source is processed. *)
Theorem main_aborts_on_non_iterable_file (w : session) (data : pyval) :
  (forall n, storage_fault n = false) ->
  output_dir (lit "peoples_daily_raw.json") = FileData data ->
  iterable data = false ->
  exists w', main w = (Raise TypeError, w') /\ s_db w' = s_db w.
Proof.
  intros Hf Hfile Hdata. unfold main.
  unfold bind at 1. unfold lift at 1, now at 1. cbv beta iota.
  unfold bind at 1. unfold log at 1, lift at 1, log_env at 1. cbv beta iota.
  match goal with |- context [bind run_scrapers _ ?w1] =>
    destruct (run_scrapers_returns w1) as (l & Hrun & _);
    rewrite (@bind_ret_step _ _ _ _ _ _ _ _ Hrun) end.
  unfold bind at 1. unfold init_db, storage_request. rewrite Hf. cbv beta iota.
  eexists. split.
  - apply bind_raise_step. unfold process_file. rewrite Hfile.
    unfold bind at 1. unfold log, lift, log_env. cbv beta iota.
    apply bind_raise_step. destruct data; try discriminate Hdata; reflexivity.
  - reflexivity.
Qed.

Lemma preserves_process_file_unreadable (I : database -> Prop) (filename : str)
      (parser_func : pyval -> M env pyval) (bd : str) :
  unreadable (output_dir filename) -> preserves I (process_file filename parser_func bd).
Proof.
  intros Hu. unfold process_file.
  destruct (output_dir filename); [| |destruct Hu|destruct Hu].
  - apply preserves_log.
  - apply preserves_bind; [apply preserves_log|intros _; apply preserves_log].
Qed.

Lemma storage_request_committed (c : list row) :
  preserves (fun db => committed db = c) storage_request.
Proof.
  intros w Hw. unfold storage_request. simpl.
  destruct (storage_fault (ticks (s_env w))); simpl; [|exact Hw].
  destruct (fault_rolls_back (ticks (s_env w))); exact Hw.
Qed.

(** X30: a raw file whose reading raises anything but json.JSONDecodeError
    (bytes that are not UTF-8, an I/O error, JSON nested too deep) is not
    skipped: the [except] clause names that one exception only.  The first
    source's file being such, the run ends there with that exception, the
    table as it was, and no later source is processed. *)
Theorem main_aborts_on_unreadable_file (w : session) (e : exn) :
  (forall n, storage_fault n = false) ->
  output_dir (lit "peoples_daily_raw.json") = FileRaises e ->
  exists w', main w = (Raise e, w') /\ s_db w' = s_db w.
Proof.
  intros Hf Hfile. unfold main.
  unfold bind at 1. unfold lift at 1, now at 1. cbv beta iota.
  unfold bind at 1. unfold log at 1, lift at 1, log_env at 1. cbv beta iota.
  match goal with |- context [bind run_scrapers _ ?w1] =>
    destruct (run_scrapers_returns w1) as (l & Hrun & _);
    rewrite (@bind_ret_step _ _ _ _ _ _ _ _ Hrun) end.
  unfold bind at 1. unfold init_db, storage_request. cbv zeta. rewrite Hf. cbv beta iota.
  eexists. split.
  - apply bind_raise_step. unfold process_file. rewrite Hfile.
    unfold bind at 1. unfold log, lift, log_env. cbv beta iota. reflexivity.
  - reflexivity.
Qed.

(** X8: when each of the four raw files is missing or is one on which the
    decoder raises json.JSONDecodeError, and the storage answers, the run
    still returns normally, and what the database file holds is what it held
    before. *)
Theorem main_skips_unreadable_files (w : session) :
  (forall n, storage_fault n = false) ->
  (forall filename, unreadable (output_dir filename)) ->
  exists w', main w = (Ret tt, w')
             /\ committed (s_db w') = committed (s_db w)
             /\ working (s_db w') = committed (s_db w).
Proof.
  intros Hf Hu.
  destruct (main_returns w Hf) as (w' & Hmain & Hwc).
  { intros filename. specialize (Hu filename). unfold readable_or_skipped.
    destruct (output_dir filename); [exact I|exact I|destruct Hu|destruct Hu]. }
  exists w'. split; [exact Hmain|].
  assert (Hc : committed (s_db (snd (main w))) = committed (s_db w)).
  { set (I0 := fun db : database => committed db = committed (s_db w)).
    unfold main. unfold bind at 1. unfold lift at 1, now at 1. cbv beta iota.
    match goal with
    | |- committed (s_db (snd (?m ?w1))) = _ =>
        cut (preserves I0 m); [intros Hp; exact (Hp w1 eq_refl)|]
    end.
    apply preserves_bind; [apply preserves_log|intros _].
    apply preserves_bind; [apply preserves_run_scrapers|intros _].
    apply preserves_bind; [apply storage_request_committed|intros _].
    do 4 (apply preserves_bind; [now apply preserves_process_file_unreadable|intros _]).
    apply preserves_bind; [|intros _; apply preserves_log].
    intros s Hs. exact Hs. }
  rewrite Hmain in Hc. simpl in Hc. rewrite Hwc. auto.
Qed.

End Orchestrator_edges.

Lemma main_aborts_on_non_iterable_file_witness :
  let W := Sample.world 2025 6 (Sample.only_peoples_daily (PInt 7)) Sample.no_fault in
  exists w', main Sample.session0 = (Raise TypeError, w') /\ s_db w' = s_db Sample.session0.
Proof.
  intros W. apply (@main_aborts_on_non_iterable_file W Sample.session0 (PInt 7)).
  - intros n. reflexivity.
  - reflexivity.
  - reflexivity.
Defined.

Lemma main_skips_unreadable_files_witness :
  let W := Sample.world 2025 6 Sample.bad_json_files Sample.no_fault in
  exists w', main Sample.session1 = (Ret tt, w')
             /\ committed (s_db w') = committed (s_db Sample.session1)
             /\ working (s_db w') = committed (s_db Sample.session1).
Proof.
  intros W. apply (@main_skips_unreadable_files W Sample.session1).
  - intros n. reflexivity.
  - intros filename. simpl. unfold Sample.bad_json_files.
    destruct (str_eqb filename (lit "wsj_raw.json")); exact I.
Defined.

Lemma main_aborts_on_unreadable_file_witness :
  let W := Sample.world 2025 6 Sample.not_utf8_files Sample.no_fault in
  exists w', main Sample.session1 = (Raise UnicodeDecodeError, w')
             /\ s_db w' = s_db Sample.session1.
Proof.
  intros W. apply (@main_aborts_on_unreadable_file W Sample.session1 UnicodeDecodeError).
  - intros n. reflexivity.
  - reflexivity.
Defined.

(** ** More on the query endpoint *)

Section Query_edges.
Context {W : World}.

Lemma to_item_refuses (r : row) : lacks_required_field r -> to_item r = None.
Proof.
  unfold lacks_required_field, to_item.
  intros [H|[H|[H|[H|[H|[H|[H|H]]]]]]]; rewrite H; simpl;
    repeat match goal with
           | |- context [match ?x with _ => _ end] => destruct x
           end; reflexivity.
Qed.

Lemma to_items_refuses (rows : list row) (r : row) :
  In r rows -> to_item r = None -> to_items rows = None.
Proof.
  induction rows as [|x rows IH]; intros Hin Hr; [destruct Hin|].
  simpl. destruct Hin as [-> | Hin].
  - now rewrite Hr.
  - rewrite (IH Hin Hr). now destruct (to_item x).
Qed.

(** One row the response model refuses fails the whole answer. *)
Lemma get_all_data_refuses (table : list row) (q_pais q_plataforma : option str)
        (r : row) :
  In r table -> where_clause q_pais q_plataforma r = true -> lacks_required_field r ->
  get_all_data (Some table) q_pais q_plataforma = Raise ResponseValidationError.
Proof.
  intros Hin Hq Hr. unfold get_all_data.
  rewrite (@to_items_refuses _ r); [reflexivity| |now apply to_item_refuses].
  destruct (order_by_spec (filter (where_clause q_pais q_plataforma) table)) as [Hp _].
  apply (Permutation_in _ (Permutation_sym Hp)). apply filter_In. auto.
Qed.

(** X9: one stored row with NULL in a column the response model declares
    as required (origin_id, platform, source_kind, country, published_at,
    the batch_date column, engagement, collection_order) makes every request
    whose filters select that row fail as a whole: the answer is a
    validation error, not the other rows. *)
Theorem null_field_fails_answer (table : list row) (q_pais q_plataforma : option str)
        (r : row) :
  In r table -> where_clause q_pais q_plataforma r = true -> lacks_required_field r ->
  get_all_data (Some table) q_pais q_plataforma = Raise ResponseValidationError.
Proof. apply get_all_data_refuses. Qed.

End Query_edges.

Lemma null_field_fails_answer_witness :
  let W := Sample.june [] in
  let good := Sample.a_row "https://wsj.com/a" "first text" "2025-06-01T10:00:00" in
  let bad := Sample.null_id_row in
  get_all_data (Some [good; bad]) None None = Raise ResponseValidationError.
Proof.
  intros W good bad.
  apply (@null_field_fails_answer W [good; bad] None None bad).
  - right. left. reflexivity.
  - reflexivity.
  - left. reflexivity.
Defined.

(** ** More on the translator and the date normalizers *)

Section Parsers_more.
Context {W : World}.

Lemma traduzir_pt_short (texto : pyval) (e : env) :
  too_short texto -> traduzir_pt texto e = (Ret texto, e).
Proof.
  destruct texto as [| | | |s| |]; simpl; try contradiction; [reflexivity|].
  intros Hs. unfold traduzir_pt. simpl.
  destruct s as [|c s]; [reflexivity|]. simpl.
  unfold bind, py_len, ret. simpl.
  replace (S (List.length s) <? 3)%nat with true; [reflexivity|].
  symmetry. apply Nat.ltb_lt. simpl in Hs. lia.
Qed.

(** X10: the translator leaves alone what is too short to be worth a
    request: on null, on the empty string and on any string of fewer than
    three characters it returns its argument, asks the backend nothing and
    logs nothing. *)
Theorem traduzir_pt_keeps_short_text (texto : pyval) (e : env) :
  too_short texto -> traduzir_pt texto e = (Ret texto, e).
Proof. exact (traduzir_pt_short texto e). Qed.

Lemma traduzir_pt_text (s : str) (e : env) :
  exists v e',
    traduzir_pt (PStr s) e = (Ret v, e')
    /\ (v = PStr s \/ gtranslate (ticks e) (PStr s) = Some v)
    /\ (ticks e' <= S (ticks e))%nat
    /\ (gtranslate (ticks e) (PStr s) = None -> (3 <= List.length s)%nat ->
        v = PStr s /\ ticks e' = S (ticks e)
        /\ logs e' = logs e ++ [WarnTranslation BackendError]).
Proof.
  destruct (Nat.ltb (List.length s) 3) eqn:Hlen.
  - exists (PStr s), e. apply Nat.ltb_lt in Hlen.
    rewrite traduzir_pt_short by exact Hlen.
    split; [reflexivity|]. split; [now left|]. split; [lia|]. intros _ H. lia.
  - unfold traduzir_pt.
    assert (Ht : truthy (PStr s) = true).
    { apply Nat.ltb_ge in Hlen. destruct s; simpl in *; [lia|reflexivity]. }
    rewrite Ht. change (negb true) with false. cbv iota.
    unfold bind, py_len, ret. rewrite Hlen. unfold try_except. cbv beta iota.
    destruct (gtranslate (ticks e) (PStr s)) as [r|] eqn:Hg.
    + exists r, (tick e). split; [reflexivity|]. split; [now right|].
      split; [simpl; lia|]. intros H. discriminate H.
    + eexists. eexists. split; [reflexivity|]. split; [now left|].
      split; [simpl; lia|]. intros _ _. simpl. auto.
Qed.

(** X11: on a string the translator never fails.  It returns the
    backend's answer or the string itself, asks the backend at most once,
    and when the backend raises on a string of three characters or more it
    returns the string with one warning added to the log. *)
Theorem traduzir_pt_returns_on_text (s : str) (e : env) :
  exists v e',
    traduzir_pt (PStr s) e = (Ret v, e')
    /\ (v = PStr s \/ gtranslate (ticks e) (PStr s) = Some v)
    /\ (ticks e' <= S (ticks e))%nat
    /\ (gtranslate (ticks e) (PStr s) = None -> (3 <= List.length s)%nat ->
        v = PStr s /\ ticks e' = S (ticks e)
        /\ logs e' = logs e ++ [WarnTranslation BackendError]).
Proof. exact (traduzir_pt_text s e). Qed.

Lemma span_all (p : codepoint -> bool) (ds post : str) :
  Forall (fun c => p c = true) ds ->
  match post with [] => True | c :: _ => p c = false end ->
  span p None (ds ++ post) = List.length ds.
Proof.
  intros Hds Hpost. induction Hds as [|c ds Hc _ IH].
  - destruct post as [|c post]; simpl; [reflexivity|]. now rewrite Hpost.
  - simpl. rewrite Hc. now rewrite IH.
Qed.

Lemma match_digits_run (ds post : str) :
  ds <> [] ->
  Forall (fun c => in_class ClsDigit c = true) ds -> no_digit_ahead post ->
  match_here re_digits (ds ++ post) = Some [ds].
Proof.
  intros Hne Hds Hpost. unfold re_digits. cbn [match_here].
  rewrite (@span_all _ _ _ Hds Hpost).
  destruct ds as [|c ds]; [congruence|].
  cbn [List.length backtrack]. change (S (List.length ds) <? 1)%nat with false.
  cbv iota.
  change (skipn (S (List.length ds)) ((c :: ds) ++ post))
    with (skipn (List.length ds) (ds ++ post)).
  change (firstn (S (List.length ds)) ((c :: ds) ++ post))
    with (c :: firstn (List.length ds) (ds ++ post)).
  rewrite firstn_app, firstn_all, Nat.sub_diag. simpl. now rewrite app_nil_r.
Qed.

Lemma match_digits_none (c : codepoint) (s : str) :
  in_class ClsDigit c = false -> match_here re_digits (c :: s) = None.
Proof. intros Hc. unfold re_digits. cbn [match_here span]. now rewrite Hc. Qed.

Lemma re_search_digits :
  (forall pre ds post,
      Forall (fun c => in_class ClsDigit c = false) pre ->
      ds <> [] -> Forall (fun c => in_class ClsDigit c = true) ds ->
      no_digit_ahead post ->
      re_search re_digits (pre ++ ds ++ post) = Some [ds])
  /\ (forall s, Forall (fun c => in_class ClsDigit c = false) s ->
                re_search re_digits s = None).
Proof.
  split.
  - intros pre ds post Hpre Hne Hds Hpost.
    induction Hpre as [|c pre Hc _ IH]; simpl app.
    + apply re_search_here. now apply match_digits_run.
    + cbn [re_search]. rewrite match_digits_none by exact Hc. exact IH.
  - intros s Hs. induction Hs as [|c s Hc _ IH]; [reflexivity|].
    cbn [re_search]. rewrite match_digits_none by exact Hc. exact IH.
Qed.

(** X12: the pattern (\d+) as the source uses it finds the first run of
    digits of a text, whole: past a prefix with no digit in it, up to the
    first character that is no digit; in a text with no digit it finds
    nothing. *)
Theorem re_digits_finds_first_run :
  (forall pre ds post,
      Forall (fun c => in_class ClsDigit c = false) pre ->
      ds <> [] -> Forall (fun c => in_class ClsDigit c = true) ds ->
      no_digit_ahead post ->
      re_search re_digits (pre ++ ds ++ post) = Some [ds])
  /\ (forall s, Forall (fun c => in_class ClsDigit c = false) s ->
                re_search re_digits s = None).
Proof. exact re_search_digits. Qed.

End Parsers_more.

Lemma traduzir_pt_keeps_short_text_witness :
  let W := Sample.june [] in
  traduzir_pt (PStr (lit "AI")) Sample.env0 = (Ret (PStr (lit "AI")), Sample.env0)
  /\ traduzir_pt PNone Sample.env0 = (Ret PNone, Sample.env0).
Proof.
  intros W. split.
  - apply (@traduzir_pt_keeps_short_text W (PStr (lit "AI")) Sample.env0). simpl. lia.
  - apply (@traduzir_pt_keeps_short_text W PNone Sample.env0). exact I.
Defined.

Section Relative_dates.
Context {W : World}.

(** X13: a relative date whose text contains "min" moves the observed
    time back by the first number of the text, taken as minutes, and this
    whether or not the text also names hours (in "1 hour 5 min ago" the
    number is 1 and the unit is minutes). *)
Theorem relative_minutes (pre ds post sc : str) (dt d' : datetime) (td : timedelta)
        (e : env) :
  Forall (fun c => in_class ClsDigit c = false) pre ->
  ds <> [] -> Forall (fun c => in_class ClsDigit c = true) ds -> no_digit_ahead post ->
  (List.length ds <= 640)%nat ->
  str_contains (lit "min") (pre ++ ds ++ post) = true ->
  fromisoformat sc = Some dt ->
  timedelta_minutes (digits_value ds) = Ret td ->
  datetime_sub dt td = Some d' ->
  extrair_data_wsj (PStr (pre ++ ds ++ post)) (PStr sc) e = (Ret (PStr (isoformat d')), e).
Proof.
  intros Hpre Hne Hds Hpost Hlen Hmin Hiso Htd Hsub.
  destruct re_search_digits as [Hrun _].
  unfold extrair_data_wsj, try_except, bind, py_fromisoformat, py_contains,
    py_re_search, group1, of_result, py_datetime_sub, ret.
  rewrite Hiso, Hmin, (Hrun pre ds post Hpre Hne Hds Hpost).
  rewrite (py_int_short _ _ Hlen), Htd, Hsub. reflexivity.
Qed.

(** X14: a relative date whose text contains "hour" and not "min" moves
    the observed time back by the first number of the text, taken as
    hours. *)
Theorem relative_hours (pre ds post sc : str) (dt d' : datetime) (td : timedelta)
        (e : env) :
  Forall (fun c => in_class ClsDigit c = false) pre ->
  ds <> [] -> Forall (fun c => in_class ClsDigit c = true) ds -> no_digit_ahead post ->
  (List.length ds <= 640)%nat ->
  str_contains (lit "min") (pre ++ ds ++ post) = false ->
  str_contains (lit "hour") (pre ++ ds ++ post) = true ->
  fromisoformat sc = Some dt ->
  timedelta_hours (digits_value ds) = Ret td ->
  datetime_sub dt td = Some d' ->
  extrair_data_wsj (PStr (pre ++ ds ++ post)) (PStr sc) e = (Ret (PStr (isoformat d')), e).
Proof.
  intros Hpre Hne Hds Hpost Hlen Hmin Hhour Hiso Htd Hsub.
  destruct re_search_digits as [Hrun _].
  unfold extrair_data_wsj, try_except, bind, py_fromisoformat, py_contains,
    py_re_search, group1, of_result, py_datetime_sub, ret.
  rewrite Hiso, Hmin, Hhour, (Hrun pre ds post Hpre Hne Hds Hpost).
  rewrite (py_int_short _ _ Hlen), Htd, Hsub. reflexivity.
Qed.

End Relative_dates.

(** "1 hour 5 min ago", observed on 15 June 2025 at 09:30: one minute back. *)
Lemma relative_minutes_witness :
  @extrair_data_wsj Sample.dated_world (PStr (lit "1 hour 5 min ago"))
    (PStr (lit "2025-06-15T09:30:00")) Sample.env0
  = (Ret (PStr (lit "2025-06-15T09:29:00")), Sample.env0).
Proof.
  refine (@relative_minutes Sample.dated_world [] (lit "1") (lit " hour 5 min ago")
            (lit "2025-06-15T09:30:00") (Sample.at_date 2025 6)
            {| dt_year := 2025; dt_month := 6; dt_day := 15;
               dt_hour := 9; dt_minute := 29; dt_second := 0; dt_microsecond := 0;
               dt_utcoffset := None |}
            {| td_days := 0; td_seconds := 60; td_microseconds := 0 |}
            Sample.env0 _ _ _ _ _ _ _ _ _).
  - constructor.
  - discriminate.
  - repeat constructor.
  - reflexivity.
  - simpl. lia.
  - reflexivity.
  - reflexivity.
  - reflexivity.
  - reflexivity.
Defined.

(** "3 hours ago", observed on 15 June 2025 at 09:30: three hours back. *)
Lemma relative_hours_witness :
  @extrair_data_wsj Sample.dated_world (PStr (lit "3 hours ago"))
    (PStr (lit "2025-06-15T09:30:00")) Sample.env0
  = (Ret (PStr (lit "2025-06-15T06:30:00")), Sample.env0).
Proof.
  refine (@relative_hours Sample.dated_world [] (lit "3") (lit " hours ago")
            (lit "2025-06-15T09:30:00") (Sample.at_date 2025 6)
            {| dt_year := 2025; dt_month := 6; dt_day := 15;
               dt_hour := 6; dt_minute := 30; dt_second := 0; dt_microsecond := 0;
               dt_utcoffset := None |}
            {| td_days := 0; td_seconds := 10800; td_microseconds := 0 |}
            Sample.env0 _ _ _ _ _ _ _ _ _ _).
  - constructor.
  - discriminate.
  - repeat constructor.
  - reflexivity.
  - simpl. lia.
  - reflexivity.
  - reflexivity.
  - reflexivity.
  - reflexivity.
  - reflexivity.
Defined.

Section Localized_dates.
Context {W : World}.

Lemma no_digit_beyond_ascii (c : codepoint) :
  (128 <= c)%N -> uni_decimal c = None -> in_class ClsDigit c = false.
Proof.
  intros Hc Hu. unfold in_class, decimal_value.
  replace ((48 <=? c)%N && (c <=? 57)%N) with false.
  - replace (c <? 128)%N with false; [now rewrite Hu|].
    symmetry. apply N.ltb_ge. exact Hc.
  - symmetry. apply andb_false_iff. right. apply N.leb_gt. lia.
Qed.

Lemma match_four_digits (re' : regex) (c1 c2 c3 c4 : codepoint) (s : str) (gs : list str) :
  in_class ClsDigit c1 = true -> in_class ClsDigit c2 = true ->
  in_class ClsDigit c3 = true -> in_class ClsDigit c4 = true ->
  match_here re' s = Some gs ->
  match_here (Rep ClsDigit 4 (Some 4) true :: re') (c1 :: c2 :: c3 :: c4 :: s)
  = Some ([c1; c2; c3; c4] :: gs).
Proof.
  intros H1 H2 H3 H4 Hs. cbn -[in_class]. rewrite H1, H2, H3, H4. cbn -[in_class].
  rewrite span_zero. cbn. now rewrite Hs.
Qed.

(** One or two digits before a literal that is no digit. *)
Lemma match_digits_lit (re' : regex) (ds : str) (l : codepoint) (s : str) (gs : list str) :
  List.length ds = 1%nat \/ List.length ds = 2%nat ->
  Forall (fun c => in_class ClsDigit c = true) ds ->
  in_class ClsDigit l = false ->
  match_here re' s = Some gs ->
  match_here (Rep ClsDigit 1 (Some 2) true :: Lit l :: re') (ds ++ l :: s)
  = Some (ds :: gs).
Proof.
  intros Hlen Hds Hl Hs.
  destruct ds as [|c1 [|c2 [|c3 ds]]]; simpl in Hlen; try (destruct Hlen; discriminate).
  - inversion Hds as [|? ? H1 _]; subst.
    cbn -[in_class]. rewrite H1, Hl. cbn -[in_class].
    rewrite N.eqb_refl. now rewrite Hs.
  - inversion Hds as [|? ? H1 Hds']; subst. inversion Hds' as [|? ? H2 _]; subst.
    simpl app. apply match_two_digits; auto. rewrite match_lit. exact Hs.
Qed.

Lemma digits_are_digits (l : list N) :
  Forall (fun a => (a < 10)%N) l -> Forall (fun c => in_class ClsDigit c = true) (map digit l).
Proof.
  intros H. induction H as [|a l Ha _ IH]; simpl; constructor; auto.
  now apply in_class_digit.
Qed.

Lemma fmt_02d_one (a : N) : (a < 10)%N -> fmt_02d (Z.of_N a) = [48%N; digit a].
Proof.
  intros Ha.
  destruct (digit_cases Ha) as [->|[->|[->|[->|[->|[->|[->|[->|[->| ->]]]]]]]]];
    reflexivity.
Qed.

(** One or two digits read as a number and printed under [:02d]. *)
Lemma fmt_02d_digits (l : list N) :
  List.length l = 1%nat \/ List.length l = 2%nat ->
  Forall (fun a => (a < 10)%N) l ->
  fmt_02d (digits_value (map digit l)) = zfill2 (map digit l).
Proof.
  intros Hlen Hl.
  destruct l as [|a [|b [|c l]]]; simpl in Hlen; try (destruct Hlen; discriminate).
  - inversion Hl as [|? ? Ha _]; subst.
    unfold digits_value. cbn [map fold_left]. rewrite decimal_value_digit by assumption.
    replace (0 * 10 + Z.of_N a)%Z with (Z.of_N a) by lia.
    now rewrite fmt_02d_one.
  - inversion Hl as [|? ? Ha Hl']; subst. inversion Hl' as [|? ? Hb _]; subst.
    cbn [map]. rewrite digits_value_two by assumption.
    now rewrite fmt_02d_two.
Qed.

(** X15: on a text that begins with YYYY年M月D日, month and day of one or
    two digits, whatever follows, the localized-calendar normalizer returns
    YYYY-MM-DDT00:00:00 with month and day zero-filled to two digits, and
    does not consult the clock.  (The Unicode tables are those where 月 and
    日 are not decimal digits.) *)
Theorem localized_date_format (e : env) (y1 y2 y3 y4 : N) (mo d : list N) (rest : str) :
  uni_decimal yue = None -> uni_decimal ri = None ->
  (y1 < 10)%N -> (y2 < 10)%N -> (y3 < 10)%N -> (y4 < 10)%N ->
  List.length mo = 1%nat \/ List.length mo = 2%nat ->
  List.length d = 1%nat \/ List.length d = 2%nat ->
  Forall (fun a => (a < 10)%N) mo -> Forall (fun a => (a < 10)%N) d ->
  let year := map digit [y1; y2; y3; y4] in
  extrair_data_chinesa
    (PStr (year ++ [nian] ++ map digit mo ++ [yue] ++ map digit d ++ [ri] ++ rest)) e
  = (Ret (PStr (year ++ lit "-" ++ zfill2 (map digit mo) ++ lit "-"
                ++ zfill2 (map digit d) ++ lit "T00:00:00")), e).
Proof.
  intros Hyue Hri H1 H2 H3 H4 Lmo Ld Hmo Hd year.
  assert (Hsearch :
            re_search re_chinesa
              (year ++ [nian] ++ map digit mo ++ [yue] ++ map digit d ++ [ri] ++ rest)
            = Some [year; map digit mo; map digit d]).
  { apply re_search_here. unfold re_chinesa. subst year. cbn [map app].
    apply match_four_digits; auto using in_class_digit. rewrite match_lit.
    apply match_digits_lit;
      [now rewrite length_map|now apply digits_are_digits
      |now apply no_digit_beyond_ascii|].
    apply (@match_digits_lit [] (map digit d) ri rest []);
      [now rewrite length_map|now apply digits_are_digits
      |now apply no_digit_beyond_ascii|reflexivity]. }
  unfold extrair_data_chinesa, try_except.
  unfold bind at 1. unfold py_re_search, ret at 1. rewrite Hsearch. cbv beta iota.
  unfold bind.
  rewrite py_int_short by (rewrite length_map; destruct Lmo as [-> | ->]; lia).
  rewrite py_int_short by (rewrite length_map; destruct Ld as [-> | ->]; lia).
  rewrite !fmt_02d_digits by assumption. reflexivity.
Qed.

End Localized_dates.

(** "2025年1月5日 10:30" gives 2025-01-05T00:00:00. *)
Lemma localized_date_format_witness :
  @extrair_data_chinesa (Sample.june [])
    (PStr (lit "2025" ++ [nian] ++ lit "1" ++ [yue] ++ lit "5" ++ [ri] ++ lit " 10:30"))
    Sample.env0
  = (Ret (PStr (lit "2025-01-05T00:00:00")), Sample.env0).
Proof.
  refine (@localized_date_format (Sample.june []) Sample.env0 2 0 2 5 [1%N] [5%N]
            (lit " 10:30") _ _ _ _ _ _ _ _ _ _).
  - reflexivity.
  - reflexivity.
  - reflexivity.
  - reflexivity.
  - reflexivity.
  - reflexivity.
  - left. reflexivity.
  - left. reflexivity.
  - repeat constructor.
  - repeat constructor.
Defined.

(** ** More on the mappers *)

Section Mappers_more.
Context {W : World}.

Lemma returns_at_bind {S A B : Type} (m : M S A) (k : A -> M S B) (s : S) :
  returns_at m s ->
  (forall a s1, m s = (Ret a, s1) -> returns_at (k a) s1) ->
  returns_at (bind m k) s.
Proof.
  intros (a & s1 & Hm) Hk. destruct (Hk a s1 Hm) as (b & s2 & H2).
  exists b, s2. unfold bind. now rewrite Hm.
Qed.

Lemma returns_at_intro {S A : Type} (m : M S A) (s s1 : S) (a : A) :
  m s = (Ret a, s1) -> returns_at m s.
Proof. intros H. now exists a, s1. Qed.

Lemma py_getitem_returns (d : list (str * pyval)) (k : str) (v : pyval) (e : env) :
  dict_get d k = Some v -> py_getitem (PDict d) k e = (Ret v, e).
Proof. intros H. unfold py_getitem. now rewrite H. Qed.

Lemma traduzir_pt_returns_at (texto : pyval) (e : env) :
  (texto = PNone \/ exists s, texto = PStr s) -> returns_at (traduzir_pt texto) e.
Proof.
  intros [-> | (s & ->)].
  - exists PNone, e. reflexivity.
  - destruct (traduzir_pt_text s e) as (v & e' & H & _). now exists v, e'.
Qed.

Lemma get_scraped_date_returns (d : list (str * pyval)) (e : env) :
  returns_at (get_scraped_date (PDict d)) e.
Proof. unfold returns_at. simpl. unfold bind, now, py_get, ret. eauto. Qed.

(** The raw articles the People's Daily mapper returns on. *)
Lemma parse_peoples_daily_returns (d : list (str * pyval)) (e : env) (u p : pyval) (t : str) :
  field d "url" = Some u -> field d "title" = Some (PStr t) ->
  field d "published_date" = Some p -> summary_is_text_or_missing d ->
  exists fields e', parse_peoples_daily (PDict d) e = (Ret (PDict fields), e').
Proof.
  unfold field, summary_is_text_or_missing. intros Hu Ht Hp Hs.
  assert (H : returns_at (parse_peoples_daily (PDict d)) e).
  { unfold parse_peoples_daily.
    apply returns_at_bind; [unfold returns_at, py_get, ret; eauto|].
    intros summary e0 H0. unfold py_get, ret in H0. injection H0 as <- <-.
    apply returns_at_bind.
    { destruct (truthy _); unfold returns_at, py_get, ret; eauto. }
    intros conteudo e1 H1.
    assert (Hc : (conteudo = PNone \/ exists s, conteudo = PStr s) /\ e1 = e).
    { unfold field in Hs. unfold py_get, ret in H1. rewrite Ht in H1.
      destruct (dict_get d (lit "summary")) as [[| | | |s| |]|]; try contradiction;
        simpl in H1; try (injection H1 as <- <-; eauto).
      destruct s; simpl in H1; injection H1 as <- <-; eauto. }
    destruct Hc as [Hc ->].
    apply returns_at_bind; [eapply returns_at_intro; apply py_getitem_returns; exact Hu|].
    intros a s1 H2. erewrite py_getitem_returns in H2 by exact Hu. injection H2 as <- <-.
    apply returns_at_bind; [eapply returns_at_intro; apply py_getitem_returns; exact Ht|].
    intros a s1 H2. erewrite py_getitem_returns in H2 by exact Ht. injection H2 as <- <-.
    apply returns_at_bind; [eapply returns_at_intro; apply py_getitem_returns; exact Ht|].
    intros a s1 H2. erewrite py_getitem_returns in H2 by exact Ht. injection H2 as <- <-.
    apply returns_at_bind; [apply traduzir_pt_returns_at; eauto|].
    intros titulo_pt e2 _.
    apply returns_at_bind; [apply traduzir_pt_returns_at; exact Hc|].
    intros conteudo_pt e3 _.
    apply returns_at_bind; [eapply returns_at_intro; apply py_getitem_returns; exact Hp|].
    intros a s1 H2. erewrite py_getitem_returns in H2 by exact Hp. injection H2 as <- <-.
    apply returns_at_bind.
    { destruct (extrair_data_chinesa_returns p e3) as (s & e4 & H4 & _).
      unfold returns_at. eauto. }
    intros dp e4 _.
    apply returns_at_bind; [apply get_scraped_date_returns|].
    intros dr e5 _.
    apply returns_at_bind; [eapply returns_at_intro; apply py_getitem_returns; exact Hu|].
    intros a s1 H2. unfold returns_at, ret. eauto. }
  destruct H as (out & e' & H). pose proof H as H'.
  unfold parse_peoples_daily in H'.
  do 11 (apply bind_ret_inv in H'; destruct H' as (? & ? & _ & H')).
  unfold ret in H'. injection H' as <- _. eauto.
Qed.

(** X16: the People's Daily mapper accepts every raw article that has a
    url, a published_date and a title that is a string, and whose summary is
    a string, null or absent; whatever the values of those fields and
    whatever the translator and the clock do. *)
Theorem peoples_daily_accepts (d : list (str * pyval)) (e : env) (u p : pyval) (t : str) :
  field d "url" = Some u -> field d "title" = Some (PStr t) ->
  field d "published_date" = Some p -> summary_is_text_or_missing d ->
  exists fields e', parse_peoples_daily (PDict d) e = (Ret (PDict fields), e').
Proof. apply parse_peoples_daily_returns. Qed.

(** The fields of a record of the People's Daily mapper. *)
Lemma parse_peoples_daily_fields (item out : pyval) (e e' : env) :
  parse_peoples_daily item e = (Ret out, e') ->
  exists d fields u t p s,
    item = PDict d /\ out = PDict fields /\ List.length fields = 12%nat
    /\ field d "url" = Some u /\ field d "title" = Some t
    /\ field d "published_date" = Some p
    /\ field fields "id_origem" = Some u /\ field fields "url" = Some u
    /\ field fields "titulo_original" = Some t
    /\ field fields "plataforma" = Some (PStr (lit "Peoples Daily"))
    /\ field fields "tipo_fonte" = Some (PStr (lit "Midia"))
    /\ field fields "pais" = Some (PStr (lit "China"))
    /\ field fields "engajamento" = Some (PInt 0)
    /\ field fields "data_publicacao" = Some (PStr s).
Proof.
  intros H. unfold parse_peoples_daily in H.
  destruct item as [| | | | | |d];
    try (apply bind_ret_inv in H; destruct H as (? & ? & H & _); discriminate H).
  apply bind_ret_inv in H. destruct H as (summary & x0 & _ & H).
  apply bind_ret_inv in H. destruct H as (conteudo & x1 & _ & H).
  apply bind_ret_inv in H. destruct H as (u & x2 & Hu & H).
  apply bind_ret_inv in H. destruct H as (t & x3 & Ht & H).
  apply bind_ret_inv in H. destruct H as (t' & x4 & _ & H).
  apply bind_ret_inv in H. destruct H as (titulo_pt & x5 & _ & H).
  apply bind_ret_inv in H. destruct H as (conteudo_pt & x6 & _ & H).
  apply bind_ret_inv in H. destruct H as (p & x7 & Hp & H).
  apply bind_ret_inv in H. destruct H as (dp & x8 & Hdp & H).
  apply bind_ret_inv in H. destruct H as (dr & x9 & _ & H).
  apply bind_ret_inv in H. destruct H as (u' & x10 & Hu' & H).
  injection H as <- _.
  apply py_getitem_ret_inv in Hu, Ht, Hp, Hu'.
  destruct Hu as [Hu _], Ht as [Ht _], Hp as [Hp _], Hu' as [Hu' _].
  assert (u' = u) by congruence. subst u'.
  destruct (extrair_data_chinesa_returns p x7) as (s & e4 & H4 & _).
  rewrite H4 in Hdp. injection Hdp as <- _.
  exists d. eexists. exists u, t, p, s.
  repeat (split; [first [reflexivity | eassumption]|]). reflexivity.
Qed.

(** X17: what the People's Daily mapper accepts is a dict with the keys
    url, title and published_date, and the record it returns has twelve
    fields, among them: the url as origin_id and as url, the title as given,
    the fixed platform, source kind and country of the source, engagement
    zero, and a published date that is a string. *)
Theorem peoples_daily_record (item out : pyval) (e e' : env) :
  parse_peoples_daily item e = (Ret out, e') ->
  exists d fields u t p s,
    item = PDict d /\ out = PDict fields /\ List.length fields = 12%nat
    /\ field d "url" = Some u /\ field d "title" = Some t
    /\ field d "published_date" = Some p
    /\ field fields "id_origem" = Some u /\ field fields "url" = Some u
    /\ field fields "titulo_original" = Some t
    /\ field fields "plataforma" = Some (PStr (lit "Peoples Daily"))
    /\ field fields "tipo_fonte" = Some (PStr (lit "Midia"))
    /\ field fields "pais" = Some (PStr (lit "China"))
    /\ field fields "engajamento" = Some (PInt 0)
    /\ field fields "data_publicacao" = Some (PStr s).
Proof. apply parse_peoples_daily_fields. Qed.

End Mappers_more.

Lemma peoples_daily_accepts_witness :
  let W := Sample.june [] in
  exists fields e',
    parse_peoples_daily Sample.article_b Sample.env0 = (Ret (PDict fields), e').
Proof.
  intros W.
  apply (@peoples_daily_accepts W
           (Sample.article_fields "https://people.cn/b" "AI falls" (PStr (lit "A summary")))
           Sample.env0 (PStr (lit "https://people.cn/b")) (PStr Sample.chinese_date)
           (lit "AI falls")).
  - reflexivity.
  - reflexivity.
  - reflexivity.
  - exact I.
Defined.

Lemma peoples_daily_record_witness :
  let W := Sample.june [] in
  let outcome := parse_peoples_daily Sample.article_b Sample.env0 in
  exists d fields u t p s,
    Sample.article_b = PDict d
    /\ PDict (Sample.some_dict (fst outcome)) = PDict fields
    /\ List.length fields = 12%nat
    /\ field d "url" = Some u /\ field d "title" = Some t
    /\ field d "published_date" = Some p
    /\ field fields "id_origem" = Some u /\ field fields "url" = Some u
    /\ field fields "titulo_original" = Some t
    /\ field fields "plataforma" = Some (PStr (lit "Peoples Daily"))
    /\ field fields "tipo_fonte" = Some (PStr (lit "Midia"))
    /\ field fields "pais" = Some (PStr (lit "China"))
    /\ field fields "engajamento" = Some (PInt 0)
    /\ field fields "data_publicacao" = Some (PStr s).
Proof.
  intros W outcome.
  apply (@peoples_daily_record W Sample.article_b
           (PDict (Sample.some_dict (fst outcome))) Sample.env0 (snd outcome)).
  vm_compute. reflexivity.
Defined.

Section Mappers_other.
Context {W : World}.

(** With no relative date at all, the observed time is returned as given. *)
Lemma extrair_data_wsj_null (sc : pyval) (e : env) :
  extrair_data_wsj PNone sc e = (Ret sc, e).
Proof.
  unfold extrair_data_wsj, try_except, bind, py_fromisoformat.
  destruct sc as [| | | |s| |]; try reflexivity.
  destruct (fromisoformat s); reflexivity.
Qed.

(** The fields of a record of the WSJ mapper. *)
Lemma parse_wsj_fields (item out : pyval) (e e' : env) :
  parse_wsj item e = (Ret out, e') ->
  exists d fields u t p,
    item = PDict d /\ out = PDict fields /\ List.length fields = 12%nat
    /\ field d "url" = Some u /\ field d "title" = Some t
    /\ field d "published_date" = Some p
    /\ field fields "id_origem" = Some u /\ field fields "url" = Some u
    /\ field fields "titulo_original" = Some t
    /\ field fields "conteudo_original"
       = Some (match field d "summary" with Some v => v | None => PStr [] end)
    /\ field fields "plataforma" = Some (PStr (lit "WSJ"))
    /\ field fields "tipo_fonte" = Some (PStr (lit "Midia"))
    /\ field fields "pais" = Some (PStr (lit "USA"))
    /\ field fields "engajamento" = Some (PInt 0)
    /\ (forall sc, field d "scraped_at" = Some sc -> p = PNone ->
                   field fields "data_publicacao" = Some sc).
Proof.
  intros H. unfold parse_wsj in H.
  destruct item as [| | | | | |d];
    try (apply bind_ret_inv in H; destruct H as (? & ? & H & _); discriminate H).
  apply bind_ret_inv in H. destruct H as (conteudo & x0 & Hc & H).
  apply bind_ret_inv in H. destruct H as (u & x2 & Hu & H).
  apply bind_ret_inv in H. destruct H as (t & x3 & Ht & H).
  apply bind_ret_inv in H. destruct H as (t' & x4 & _ & H).
  apply bind_ret_inv in H. destruct H as (titulo_pt & x5 & _ & H).
  apply bind_ret_inv in H. destruct H as (conteudo_pt & x6 & _ & H).
  apply bind_ret_inv in H. destruct H as (p & x7 & Hp & H).
  apply bind_ret_inv in H. destruct H as (scraped & x8 & Hsc & H).
  apply bind_ret_inv in H. destruct H as (dp & x9 & Hdp & H).
  apply bind_ret_inv in H. destruct H as (dr & x10 & _ & H).
  apply bind_ret_inv in H. destruct H as (u' & x11 & Hu' & H).
  injection H as <- _.
  unfold py_get, ret in Hc. injection Hc as <- _.
  apply py_getitem_ret_inv in Hu, Ht, Hp, Hu'.
  destruct Hu as [Hu _], Ht as [Ht _], Hp as [Hp _], Hu' as [Hu' _].
  assert (u' = u) by congruence. subst u'.
  exists d. eexists. exists u, t, p.
  repeat (split; [first [reflexivity | eassumption]|]).
  intros sc Hscraped ->.
  rewrite extrair_data_wsj_null in Hdp. injection Hdp as <- _.
  unfold get_scraped_date, bind, now, py_get, ret in Hsc. unfold field in Hscraped.
  rewrite Hscraped in Hsc. injection Hsc as <- _. reflexivity.
Qed.

(** X18: what the WSJ mapper accepts is a dict with the keys url, title
    and published_date; in the record it returns, origin_id and url are the
    url and the platform, source kind and country are those of the source;
    content_original is the summary as given, with no fallback to the title
    (the empty string when the key is absent, null when the summary is
    null); and when the collector found no date (published_date is null)
    the published date is the collector's scraped_at. *)
Theorem wsj_record (item out : pyval) (e e' : env) :
  parse_wsj item e = (Ret out, e') ->
  exists d fields u t p,
    item = PDict d /\ out = PDict fields /\ List.length fields = 12%nat
    /\ field d "url" = Some u /\ field d "title" = Some t
    /\ field d "published_date" = Some p
    /\ field fields "id_origem" = Some u /\ field fields "url" = Some u
    /\ field fields "titulo_original" = Some t
    /\ field fields "conteudo_original"
       = Some (match field d "summary" with Some v => v | None => PStr [] end)
    /\ field fields "plataforma" = Some (PStr (lit "WSJ"))
    /\ field fields "tipo_fonte" = Some (PStr (lit "Midia"))
    /\ field fields "pais" = Some (PStr (lit "USA"))
    /\ field fields "engajamento" = Some (PInt 0)
    /\ (forall sc, field d "scraped_at" = Some sc -> p = PNone ->
                   field fields "data_publicacao" = Some sc).
Proof. apply parse_wsj_fields. Qed.

(** X19: what the Weibo mapper accepts is a dict with the keys text, mid,
    timestamp and user_url; in the record it returns, origin_id is the mid,
    content_original the text, url the user_url, both titles are null,
    engagement is the likes of the raw post, zero when the post has none,
    and the published date is a string. *)
Theorem weibo_record (item out : pyval) (e e' : env) :
  parse_weibo item e = (Ret out, e') ->
  exists d fields mid text ts uurl s,
    item = PDict d /\ out = PDict fields /\ List.length fields = 12%nat
    /\ field d "mid" = Some mid /\ field d "text" = Some text
    /\ field d "timestamp" = Some ts /\ field d "user_url" = Some uurl
    /\ field fields "id_origem" = Some mid
    /\ field fields "conteudo_original" = Some text
    /\ field fields "url" = Some uurl
    /\ field fields "titulo_original" = Some PNone
    /\ field fields "titulo_pt" = Some PNone
    /\ field fields "engajamento"
       = Some (match field d "likes" with Some v => v | None => PInt 0 end)
    /\ field fields "plataforma" = Some (PStr (lit "Weibo"))
    /\ field fields "tipo_fonte" = Some (PStr (lit "Publico"))
    /\ field fields "pais" = Some (PStr (lit "China"))
    /\ field fields "data_publicacao" = Some (PStr s).
Proof.
  intros H. unfold parse_weibo in H.
  destruct item as [| | | | | |d];
    try (apply bind_ret_inv in H; destruct H as (? & ? & H & _); discriminate H).
  apply bind_ret_inv in H. destruct H as (text & x0 & Htext & H).
  apply bind_ret_inv in H. destruct H as (texto_pt & x1 & _ & H).
  apply bind_ret_inv in H. destruct H as (mid & x2 & Hmid & H).
  apply bind_ret_inv in H. destruct H as (text' & x3 & Htext' & H).
  apply bind_ret_inv in H. destruct H as (ts & x4 & Hts & H).
  apply bind_ret_inv in H. destruct H as (dp & x5 & Hdp & H).
  apply bind_ret_inv in H. destruct H as (dr & x6 & _ & H).
  apply bind_ret_inv in H. destruct H as (likes & x7 & Hl & H).
  apply bind_ret_inv in H. destruct H as (uurl & x8 & Huurl & H).
  injection H as <- _.
  unfold py_get, ret in Hl. injection Hl as <- _.
  apply py_getitem_ret_inv in Htext, Hmid, Htext', Hts, Huurl.
  destruct Htext as [Htext _], Hmid as [Hmid _], Htext' as [Htext' _],
           Hts as [Hts _], Huurl as [Huurl _].
  assert (text' = text) by congruence. subst text'.
  destruct (extrair_data_weibo_returns ts x4) as (s & e4 & H4 & _).
  rewrite H4 in Hdp. injection Hdp as <- _.
  exists d. eexists. exists mid, text, ts, uurl, s.
  repeat (split; [first [reflexivity | eassumption]|]). reflexivity.
Qed.

Lemma digits_value_nonneg (s : str) : (0 <= digits_value s)%Z.
Proof.
  unfold digits_value.
  assert (H : forall acc, (0 <= acc)%Z ->
                          (0 <= fold_left
                                  (fun a c => a * 10
                                              + Z.of_N (match decimal_value c with
                                                        | Some d => d
                                                        | None => 0%N
                                                        end))%Z s acc)%Z).
  { induction s as [|c s IH]; intros acc Hacc; simpl; [exact Hacc|].
    apply IH. lia. }
  apply H. lia.
Qed.

Lemma twitter_likes_value (sp : soup) :
  exists likes,
    (forall e, twitter_likes sp e = (Ret likes, e))
    /\ (0 <= likes)%Z
    /\ (soup_like_aria sp = None -> likes = 0%Z)
    /\ (forall v, soup_like_aria sp = Some v ->
                  match v with
                  | PStr s => Forall (fun c => in_class ClsDigit c = false) s
                  | _ => True
                  end -> likes = 0%Z).
Proof.
  unfold twitter_likes, try_except.
  destruct (soup_like_aria sp) as [aria|].
  - destruct aria as [| | | |s| |];
      try (exists 0%Z; repeat split; auto; lia).
    unfold bind, py_re_search, ret.
    destruct (re_search re_digits s) as [[|g gs]|] eqn:Hs;
      try (exists 0%Z; repeat split; auto; lia).
    unfold py_int.
    assert (Hno : forall v, Some (PStr s) = Some v ->
                            match v with
                            | PStr s0 => Forall (fun c => in_class ClsDigit c = false) s0
                            | _ => True
                            end -> False).
    { intros v [= <-] Hd. destruct re_search_digits as [_ Hnone].
      rewrite (Hnone s Hd) in Hs. discriminate. }
    destruct int_max_str_digits as [extra|]; [destruct (640 + extra <? List.length g)%nat|];
      [exists 0%Z|exists (digits_value g)|exists (digits_value g)];
      (repeat split; auto using digits_value_nonneg; try lia; try discriminate;
       try (intros v Hv Hd; first [reflexivity|destruct (Hno v Hv Hd)])).
  - exists 0%Z. repeat split; auto; lia.
Qed.

(** X20: the like count of a tweet is read without ever failing and
    without touching the state; it is never negative, and it is zero when
    the markup has no like button, when the button's label is no string, and
    when the label has no digit in it. *)
Theorem twitter_likes_defaults (sp : soup) :
  exists likes,
    (forall e, twitter_likes sp e = (Ret likes, e))
    /\ (0 <= likes)%Z
    /\ (soup_like_aria sp = None -> likes = 0%Z)
    /\ (forall v, soup_like_aria sp = Some v ->
                  match v with
                  | PStr s => Forall (fun c => in_class ClsDigit c = false) s
                  | _ => True
                  end -> likes = 0%Z).
Proof. exact (twitter_likes_value sp). Qed.

Lemma twitter_likes_same (sp1 sp2 : soup) (e1 e2 : env) :
  soup_like_aria sp1 = soup_like_aria sp2 ->
  fst (twitter_likes sp1 e1) = fst (twitter_likes sp2 e2).
Proof.
  intros H.
  destruct (twitter_likes_value sp2) as (z2 & H2 & _).
  assert (Heq : twitter_likes sp1 e1 = twitter_likes sp2 e1)
    by (unfold twitter_likes; now rewrite H).
  rewrite Heq, !H2. reflexivity.
Qed.

(** What the tweet mapper returns, and from what. *)
Lemma twitter_record (item out : pyval) (e e' : env) :
  parse_twitter item e = (Ret out, e') ->
  exists d fields raw sp likes data_iso e0,
    item = PDict d /\ out = PDict fields
    /\ field d "raw_html" = Some raw /\ bs4_parse raw = Ret sp
    /\ fst (twitter_likes sp e0) = Ret likes
    /\ (forall t, soup_time sp = Some (Some t) -> data_iso = t)
    /\ field fields "id_origem" = Some (PStr (data_iso ++ str_of_Z likes))
    /\ field fields "data_publicacao" = Some (PStr data_iso)
    /\ field fields "engajamento" = Some (PInt likes).
Proof.
  intros H. unfold parse_twitter in H.
  destruct item as [| | | | | |d];
    try (apply bind_ret_inv in H; destruct H as (? & ? & H & _); discriminate H).
  apply bind_ret_inv in H. destruct H as (raw & x0 & Hraw & H).
  apply bind_ret_inv in H. destruct H as (sp & x1 & Hsp & H).
  apply bind_ret_inv in H. destruct H as (texto & x2 & _ & H).
  apply bind_ret_inv in H. destruct H as (data_iso & x3 & Hiso & H).
  apply bind_ret_inv in H. destruct H as (likes & x4 & Hlikes & H).
  apply bind_ret_inv in H. destruct H as (scraped & x5 & _ & H).
  apply bind_ret_inv in H. destruct H as (conteudo_pt & x6 & _ & H).
  injection H as <- _.
  apply py_getitem_ret_inv in Hraw. destruct Hraw as [Hraw _].
  unfold of_result in Hsp. injection Hsp as Hsp _.
  exists d. eexists. exists raw, sp, likes, data_iso, x3.
  split; [reflexivity|]. split; [reflexivity|]. split; [exact Hraw|].
  split; [exact Hsp|]. split; [now rewrite Hlikes|].
  split; [|repeat split].
  intros t Ht. rewrite Ht in Hiso. unfold ret in Hiso. now injection Hiso as <- _.
Qed.

(** X21: the origin_id of a tweet is made of the time attribute of its
    markup and of its like count, and of nothing else: two raw tweets whose
    markups carry the same time and the same like label get the same
    origin_id, whatever their texts, so that in the table the second is
    taken for the first. *)
Theorem twitter_identity_collides (item1 item2 out1 out2 : pyval) (e1 e1' e2 e2' : env)
        (raw1 raw2 : pyval) (sp1 sp2 : soup) (t : str) :
  parse_twitter item1 e1 = (Ret out1, e1') ->
  parse_twitter item2 e2 = (Ret out2, e2') ->
  py_getitem item1 (lit "raw_html") e1 = (Ret raw1, e1) ->
  py_getitem item2 (lit "raw_html") e2 = (Ret raw2, e2) ->
  bs4_parse raw1 = Ret sp1 -> bs4_parse raw2 = Ret sp2 ->
  soup_time sp1 = Some (Some t) -> soup_time sp2 = Some (Some t) ->
  soup_like_aria sp1 = soup_like_aria sp2 ->
  exists id fields1 fields2,
    out1 = PDict fields1 /\ out2 = PDict fields2
    /\ field fields1 "id_origem" = Some (PStr id)
    /\ field fields2 "id_origem" = Some (PStr id).
Proof.
  intros H1 H2 Hr1 Hr2 Hs1 Hs2 Ht1 Ht2 Haria.
  destruct (twitter_record _ _ H1)
    as (d1 & f1 & r1 & s1 & l1 & iso1 & x1 & -> & -> & Hd1 & Hb1 & Hl1 & Hi1 & Hid1 & _).
  destruct (twitter_record _ _ H2)
    as (d2 & f2 & r2 & s2 & l2 & iso2 & x2 & -> & -> & Hd2 & Hb2 & Hl2 & Hi2 & Hid2 & _).
  apply py_getitem_ret_inv in Hr1, Hr2. destruct Hr1 as [Hr1 _], Hr2 as [Hr2 _].
  unfold field in Hd1, Hd2.
  assert (r1 = raw1) by congruence. assert (r2 = raw2) by congruence. subst r1 r2.
  assert (s1 = sp1) by congruence. assert (s2 = sp2) by congruence. subst s1 s2.
  rewrite (Hi1 t Ht1) in Hid1. rewrite (Hi2 t Ht2) in Hid2.
  assert (l1 = l2).
  { rewrite (twitter_likes_same sp1 sp2 x1 x2 Haria) in Hl1. congruence. }
  subst l2. eauto 10.
Qed.

End Mappers_other.

Lemma wsj_record_witness :
  let W := Sample.june [] in
  let outcome := parse_wsj Sample.wsj_card Sample.env0 in
  exists d fields u t p,
    Sample.wsj_card = PDict d
    /\ PDict (Sample.some_dict (fst outcome)) = PDict fields
    /\ List.length fields = 12%nat
    /\ field d "url" = Some u /\ field d "title" = Some t
    /\ field d "published_date" = Some p
    /\ field fields "id_origem" = Some u /\ field fields "url" = Some u
    /\ field fields "titulo_original" = Some t
    /\ field fields "conteudo_original"
       = Some (match field d "summary" with Some v => v | None => PStr [] end)
    /\ field fields "plataforma" = Some (PStr (lit "WSJ"))
    /\ field fields "tipo_fonte" = Some (PStr (lit "Midia"))
    /\ field fields "pais" = Some (PStr (lit "USA"))
    /\ field fields "engajamento" = Some (PInt 0)
    /\ (forall sc, field d "scraped_at" = Some sc -> p = PNone ->
                   field fields "data_publicacao" = Some sc).
Proof.
  intros W outcome.
  apply (@wsj_record W Sample.wsj_card (PDict (Sample.some_dict (fst outcome)))
           Sample.env0 (snd outcome)).
  vm_compute. reflexivity.
Defined.

(** The card of the sample: null content, and the observed time as the
    published date. *)
Example wsj_null_summary_example :
  let W := Sample.june [] in
  let fields := Sample.some_dict (fst (parse_wsj Sample.wsj_card Sample.env0)) in
  field fields "conteudo_original" = Some PNone
  /\ field fields "conteudo_pt" = Some PNone
  /\ field fields "data_publicacao" = Some (PStr (lit "2025-06-01T10:00:00.123456")).
Proof.
  intros W fields.
  split; [vm_compute; reflexivity|].
  split; vm_compute; reflexivity.
Qed.

Lemma weibo_record_witness :
  let W := Sample.june [] in
  let outcome := parse_weibo Sample.weibo_item Sample.env0 in
  exists d fields mid text ts uurl s,
    Sample.weibo_item = PDict d
    /\ PDict (Sample.some_dict (fst outcome)) = PDict fields
    /\ List.length fields = 12%nat
    /\ field d "mid" = Some mid /\ field d "text" = Some text
    /\ field d "timestamp" = Some ts /\ field d "user_url" = Some uurl
    /\ field fields "id_origem" = Some mid
    /\ field fields "conteudo_original" = Some text
    /\ field fields "url" = Some uurl
    /\ field fields "titulo_original" = Some PNone
    /\ field fields "titulo_pt" = Some PNone
    /\ field fields "engajamento"
       = Some (match field d "likes" with Some v => v | None => PInt 0 end)
    /\ field fields "plataforma" = Some (PStr (lit "Weibo"))
    /\ field fields "tipo_fonte" = Some (PStr (lit "Publico"))
    /\ field fields "pais" = Some (PStr (lit "China"))
    /\ field fields "data_publicacao" = Some (PStr s).
Proof.
  intros W outcome.
  apply (@weibo_record W Sample.weibo_item (PDict (Sample.some_dict (fst outcome)))
           Sample.env0 (snd outcome)).
  vm_compute. reflexivity.
Defined.

(** Two tweets of different texts, one origin_id: the time and the likes. *)
Lemma twitter_identity_collides_witness :
  let W := Sample.dated_world in
  let out1 := PDict (Sample.some_dict (fst (parse_twitter Sample.tweet_one Sample.env0))) in
  let out2 := PDict (Sample.some_dict (fst (parse_twitter Sample.tweet_two Sample.env0))) in
  exists id fields1 fields2,
    out1 = PDict fields1 /\ out2 = PDict fields2
    /\ field fields1 "id_origem" = Some (PStr id)
    /\ field fields2 "id_origem" = Some (PStr id).
Proof.
  intros W out1 out2.
  refine (@twitter_identity_collides W Sample.tweet_one Sample.tweet_two out1 out2
            Sample.env0 (snd (parse_twitter Sample.tweet_one Sample.env0))
            Sample.env0 (snd (parse_twitter Sample.tweet_two Sample.env0))
            (PStr (lit "<div>first</div>")) (PStr (lit "<div>second</div>"))
            Sample.the_soup Sample.the_soup (lit "2025-06-01T10:00:00.000Z")
            _ _ _ _ _ _ _ _ _).
  - vm_compute. reflexivity.
  - vm_compute. reflexivity.
  - reflexivity.
  - reflexivity.
  - reflexivity.
  - reflexivity.
  - reflexivity.
  - reflexivity.
  - reflexivity.
Defined.

Example twitter_identity_example :
  let W := Sample.dated_world in
  field (Sample.some_dict (fst (parse_twitter Sample.tweet_one Sample.env0))) "id_origem"
  = Some (PStr (lit "2025-06-01T10:00:00.000Z12"))
  /\ field (Sample.some_dict (fst (parse_twitter Sample.tweet_two Sample.env0)))
           "conteudo_original"
     = Some (PStr (lit "second tweet")).
Proof. intros W. split; vm_compute; reflexivity. Qed.

(** ** From the raw file to the answer *)

Section End_to_end.
Context {W : World}.


Lemma row_of_params_columns (d : list (str * pyval)) (r : row) :
  row_of_params d = Ret r ->
  exists v1 v2 v3 v4 v9 v10 v11 v12,
    named_param d "id_origem" = Ret v1 /\ id_origem r = text_affinity v1
    /\ named_param d "plataforma" = Ret v2 /\ plataforma r = text_affinity v2
    /\ named_param d "tipo_fonte" = Ret v3 /\ tipo_fonte r = text_affinity v3
    /\ named_param d "pais" = Ret v4 /\ pais r = text_affinity v4
    /\ named_param d "data_publicacao" = Ret v9 /\ data_publicacao r = text_affinity v9
    /\ named_param d "data_raspagem" = Ret v10 /\ data_raspagem r = text_affinity v10
    /\ named_param d "engajamento" = Ret v11 /\ engajamento r = integer_affinity v11
    /\ named_param d "ordem_coleta" = Ret v12 /\ ordem_coleta r = integer_affinity v12.
Proof.
  unfold row_of_params, rbind.
  repeat match goal with
         | |- context [named_param d ?n] => destruct (named_param d n) eqn:?
         end; try discriminate.
  intros [= <-]. simpl. do 8 eexists. repeat split.
Qed.

Lemma stamp_other (fields : list (str * pyval)) (bd : str) (index : nat) (k : string) :
  lit k <> lit "data_raspagem" -> lit k <> lit "ordem_coleta" ->
  dict_get (stamp fields bd index) (lit k) = field fields k.
Proof.
  intros H1 H2. unfold stamp, field.
  rewrite !dict_get_set_other by (apply not_eq_sym; assumption). reflexivity.
Qed.

Lemma servable_do_update (old new : row) :
  servable old -> servable new -> servable (do_update old new).
Proof.
  unfold servable, to_item. intros [i Hi] [j Hj]. simpl.
  destruct (id_origem old), (plataforma old), (tipo_fonte old), (pais old),
    (data_publicacao old), (data_raspagem old), (validate_int (engajamento old)),
    (validate_int (ordem_coleta old)); try discriminate.
  destruct (id_origem new), (plataforma new), (tipo_fonte new), (pais new),
    (data_publicacao new), (data_raspagem new), (validate_int (engajamento new)),
    (validate_int (ordem_coleta new)); try discriminate.
  eauto.
Qed.

Lemma servable_upsert (r : row) (t : list row) :
  servable r -> Forall servable t -> Forall servable (upsert r t).
Proof.
  intros Hr Ht. unfold upsert. destruct (existsb _ t).
  - apply Forall_map. eapply Forall_impl; [|exact Ht]. intros old Hold. simpl.
    destruct (text_eq (id_origem old) (id_origem r)); [|exact Hold].
    now apply servable_do_update.
  - apply Forall_app. split; [exact Ht|]. constructor; [exact Hr|constructor].
Qed.

(** The row of a People's Daily article whose url is a string. *)
Lemma peoples_daily_row_servable (item : pyval) (fields : list (str * pyval))
      (e e1 : env) (bd : str) (index : nat) (r : row) :
  (forall d, item = PDict d -> exists u, field d "url" = Some (PStr u)) ->
  parse_peoples_daily item e = (Ret (PDict fields), e1) ->
  row_of_params (stamp fields bd index) = Ret r ->
  servable r.
Proof.
  intros Hurl Hparse Hrow.
  destruct (parse_peoples_daily_fields _ _ Hparse)
    as (d & f & u & t & p & s & -> & [= <-] & _ & Hu & _ & _ & Hid & _ & _
        & Hplat & Htipo & Hpais & Heng & Hdp).
  destruct (Hurl d eq_refl) as (us & Hus). rewrite Hu in Hus. injection Hus as ->.
  destruct (row_of_params_columns _ Hrow)
    as (v1 & v2 & v3 & v4 & v9 & v10 & v11 & v12
        & N1 & C1 & N2 & C2 & N3 & C3 & N4 & C4 & N9 & C9 & N10 & C10
        & N11 & C11 & N12 & C12).
  assert (G : forall k, lit k <> lit "data_raspagem" -> lit k <> lit "ordem_coleta" ->
                        dict_get (stamp fields bd index) (lit k) = field fields k)
    by (intros; now apply stamp_other).
  rewrite (named_param_str _ _ (eq_trans (G "id_origem"%string ltac:(discriminate) ltac:(discriminate)) Hid) N1) in C1.
  rewrite (named_param_str _ _ (eq_trans (G "plataforma"%string ltac:(discriminate) ltac:(discriminate)) Hplat) N2) in C2.
  rewrite (named_param_str _ _ (eq_trans (G "tipo_fonte"%string ltac:(discriminate) ltac:(discriminate)) Htipo) N3) in C3.
  rewrite (named_param_str _ _ (eq_trans (G "pais"%string ltac:(discriminate) ltac:(discriminate)) Hpais) N4) in C4.
  rewrite (named_param_str _ _ (eq_trans (G "data_publicacao"%string ltac:(discriminate) ltac:(discriminate)) Hdp) N9) in C9.
  rewrite (named_param_int _ _ (eq_trans (G "engajamento"%string ltac:(discriminate) ltac:(discriminate)) Heng) N11) in C11.
  assert (S1 : dict_get (stamp fields bd index) (lit "data_raspagem") = Some (PStr bd)).
  { unfold stamp. rewrite dict_get_set_other by discriminate. apply dict_get_set_same. }
  assert (S2 : dict_get (stamp fields bd index) (lit "ordem_coleta")
               = Some (PInt (Z.of_nat index))).
  { unfold stamp. apply dict_get_set_same. }
  destruct (@row_of_params_stamps _ _ _ _ _ S1 S2 Hrow) as [C10' C12'].
  unfold servable, to_item. rewrite C1, C2, C3, C4, C9, C10', C11, C12'. simpl. eauto.
Qed.

(** X23: from the raw file to the answer.  If every article of a People's
    Daily file has a string for url, and every row of the table can be
    served by the query endpoint, then after the file is processed every row
    of the table can still be served: no item of such a file, accepted or
    failed, new or seen before, leaves a row the response model refuses.
    The table is taken on both sides of the connection, what the database
    file holds and what the open transaction has written over it, since a
    refused write may roll the transaction back. *)
Theorem peoples_daily_rows_are_servable (filename bd : str) (items : list pyval) :
  urls_are_strings items ->
  forall index count w,
    db_all (Forall servable) (s_db w) ->
    db_all (Forall servable)
      (s_db (snd (process_items filename parse_peoples_daily bd index items count w))).
Proof.
  intros Hurls. induction items as [|item rest IH]; intros index count w Hw.
  - exact Hw.
  - rewrite process_items_step.
    assert (Hrest : urls_are_strings rest).
    { intros it d Hin Hit. apply (Hurls it d); [now right|exact Hit]. }
    pose proof (save_item_cases parse_peoples_daily bd index item w) as Hc.
    destruct (save_item parse_peoples_daily bd index item w) as [[[]|e] w1] eqn:Hs.
    + apply (IH Hrest).
      destruct (save_item_row _ _ _ _ _ Hs) as (fields & e1 & r & Hp & Hr & Hdb).
      rewrite Hdb. destruct Hw as [Hwc Hww]. split; [exact Hwc|]. simpl.
      apply servable_upsert; [|exact Hww].
      eapply peoples_daily_row_servable; [|exact Hp|exact Hr].
      intros d Hd. apply (Hurls item d); [now left|exact Hd].
    + apply (IH Hrest). simpl.
      destruct Hc as [->|[-> _]]; [exact Hw|now apply db_all_rollback].
Qed.

End End_to_end.


Lemma peoples_daily_rows_are_servable_witness :
  let W := Sample.june [Sample.article_a; Sample.malformed; Sample.article_b] in
  db_all (Forall servable)
    (s_db (snd (process_items Sample.pd_file parse_peoples_daily
                  (lit "2025-06-15") 0
                  [Sample.article_a; Sample.malformed; Sample.article_b]
                  0 Sample.session1))).
Proof.
  intros W.
  refine (@peoples_daily_rows_are_servable W Sample.pd_file (lit "2025-06-15")
            [Sample.article_a; Sample.malformed; Sample.article_b] _
            0%nat 0%nat Sample.session1 _).
  - intros item d [<-|[<-|[<-|[]]]] [= <-]; eexists; vm_compute; reflexivity.
  - split; (constructor; [eexists; vm_compute; reflexivity|constructor]).
Defined.

(** ** The collectors' own data steps *)

Lemma existsb_str_eqb_In (k : str) (l : list str) :
  existsb (str_eqb k) l = true <-> In k l.
Proof.
  rewrite existsb_exists. split.
  - intros (x & Hx & E). apply str_eqb_eq in E. now subst.
  - intros H. exists k. split; [exact H|apply str_eqb_refl].
Qed.

Lemma first_seen_snoc (l : list str) (t : str) :
  first_seen (l ++ [t])
  = if existsb (str_eqb t) (first_seen l) then first_seen l else first_seen l ++ [t].
Proof. unfold first_seen. now rewrite fold_left_app. Qed.

Lemma last_html_snoc (text : str) (l : list (str * str)) (x : str * str) :
  last_html text (l ++ [x]) = if str_eqb (fst x) text then snd x else last_html text l.
Proof. unfold last_html. now rewrite fold_left_app. Qed.

Lemma first_seen_In (l : list str) (t : str) : In t (first_seen l) <-> In t l.
Proof.
  induction l as [|x l IH] using rev_ind; [reflexivity|].
  rewrite first_seen_snoc, in_app_iff. simpl.
  destruct (existsb (str_eqb x) (first_seen l)) eqn:E.
  - apply existsb_str_eqb_In in E. rewrite IH. split; [tauto|].
    intros [H|[<-|[]]]; [exact H|]. now apply IH.
  - rewrite in_app_iff, IH. simpl. tauto.
Qed.

Lemma first_seen_NoDup (l : list str) : NoDup (first_seen l).
Proof.
  induction l as [|x l IH] using rev_ind; [constructor|].
  rewrite first_seen_snoc.
  destruct (existsb (str_eqb x) (first_seen l)) eqn:E; [exact IH|].
  apply NoDup_app; [exact IH|repeat constructor; intros []|].
  intros y Hy [<-|[]].
  apply existsb_str_eqb_In in Hy. congruence.
Qed.

(** Setting a key of a dict whose keys are [keys], each once. *)
Lemma dict_set_map (g : str -> pyval) (keys : list str) (k : str) (v : pyval) :
  NoDup keys ->
  dict_set (map (fun t => (t, g t)) keys) k v
  = if existsb (str_eqb k) keys
    then map (fun t => (t, if str_eqb k t then v else g t)) keys
    else map (fun t => (t, g t)) keys ++ [(k, v)].
Proof.
  induction keys as [|t keys IH]; intros Hnd; [reflexivity|].
  inversion Hnd as [|? ? Hnot Hnd']; subst. simpl.
  destruct (str_eqb t k) eqn:E.
  - apply str_eqb_eq in E; subst t. rewrite str_eqb_refl. simpl. f_equal.
    apply map_ext_in. intros t Ht.
    destruct (str_eqb k t) eqn:E; [|reflexivity].
    apply str_eqb_eq in E; subst t. contradiction.
  - assert (E' : str_eqb k t = false).
    { apply str_eqb_neq. apply str_eqb_neq in E. congruence. }
    rewrite E'. simpl. rewrite (IH Hnd').
    destruct (existsb (str_eqb k) keys); reflexivity.
Qed.

Lemma tweets_by_text_snoc (l : list (str * str)) (x : str * str) :
  tweets_by_text (l ++ [x])
  = dict_set (tweets_by_text l) (fst x) (tweet_dict (fst x) (snd x)).
Proof. unfold tweets_by_text. now rewrite fold_left_app. Qed.

Lemma tweets_by_text_map (tweets : list (str * str)) :
  tweets_by_text tweets
  = map (fun t => (t, tweet_dict t (last_html t tweets))) (first_seen (map fst tweets)).
Proof.
  induction tweets as [|x l IH] using rev_ind; [reflexivity|].
  rewrite tweets_by_text_snoc, IH, map_app. simpl map.
  rewrite first_seen_snoc, dict_set_map by apply first_seen_NoDup.
  destruct (existsb (str_eqb (fst x)) (first_seen (map fst l))) eqn:E.
  - apply map_ext. intros t. rewrite last_html_snoc.
    destruct (str_eqb (fst x) t) eqn:Et; [|reflexivity].
    apply str_eqb_eq in Et. now subst t.
  - rewrite map_app. simpl. rewrite last_html_snoc, str_eqb_refl. f_equal.
    apply map_ext_in. intros t Ht. rewrite last_html_snoc.
    destruct (str_eqb (fst x) t) eqn:Et; [|reflexivity].
    apply str_eqb_eq in Et. subst t.
    apply existsb_str_eqb_In in Ht. congruence.
Qed.

(** X24: the tweets written by the Twitter collector are one per distinct
    text, in the order in which the texts were first collected; of several
    collected tweets with one text, the html kept is that of the last. *)
Theorem unique_tweets_one_per_text (tweets_collected : list (str * str)) :
  let texts := first_seen (map fst tweets_collected) in
  NoDup texts
  /\ (forall t, In t texts <-> In t (map fst tweets_collected))
  /\ unique_tweets tweets_collected
     = map (fun t => tweet_dict t (last_html t tweets_collected)) texts.
Proof.
  intros texts. split; [apply first_seen_NoDup|].
  split; [intros t; apply first_seen_In|].
  unfold unique_tweets. rewrite tweets_by_text_map, map_map. reflexivity.
Qed.

Lemma key_eqb_eq (a b : option str * str) : key_eqb a b = true <-> a = b.
Proof.
  destruct a as [[x|] s], b as [[y|] t]; unfold key_eqb; simpl;
    rewrite ?andb_true_iff, ?str_eqb_eq; split;
    try discriminate; try (intros [-> ->]; reflexivity);
    try (intros ->; reflexivity); try (intros [= -> ->]; auto); try (intros [= ->]; auto).
Qed.

Lemma existsb_key_In (k : option str * str) (l : list (option str * str)) :
  existsb (key_eqb k) l = true <-> In k l.
Proof.
  rewrite existsb_exists. split.
  - intros (x & Hx & E). apply key_eqb_eq in E. now subst.
  - intros H. exists k. split; [exact H|now apply key_eqb_eq].
Qed.

(** One page, post by post. *)
Lemma keep_new_posts_inv (posts_limit : Z) (page_posts : list weibo_post) :
  forall st,
    keys_in_step st ->
    (Z.of_nat (List.length (all_posts st)) < posts_limit)%Z ->
    let st' := keep_new_posts posts_limit page_posts st in
    keys_in_step st'
    /\ (exists added,
           all_posts st' = all_posts st ++ added
           /\ incl added page_posts
           /\ new_count st' = (new_count st + List.length added)%nat)
    /\ (Z.of_nat (List.length (all_posts st')) <= posts_limit)%Z
    /\ ((Z.of_nat (List.length (all_posts st')) < posts_limit)%Z ->
        forall p, In p page_posts -> In (post_key p) (seen_keys st')).
Proof.
  induction page_posts as [|post rest IH]; intros st Hinv Hlim.
  - simpl. split; [exact Hinv|]. split.
    + exists []. rewrite app_nil_r. split; [reflexivity|]. split; [intros ? []|simpl; lia].
    + split; [lia|]. intros _ p [].
  - simpl keep_new_posts.
    destruct (existsb (key_eqb (post_key post)) (seen_keys st)) eqn:Eseen.
    + destruct (IH st Hinv Hlim) as (Hinv' & (added & Hall & Hincl & Hcount) & Hle & Hfull).
      split; [exact Hinv'|]. split.
      * exists added. split; [exact Hall|]. split; [|exact Hcount].
        intros p Hp. right. now apply Hincl.
      * split; [exact Hle|]. intros Hlt p [<-|Hp]; [|now apply Hfull].
        apply existsb_key_In in Eseen.
        destruct Hinv as [Hseen _]. destruct Hinv' as [Hseen' _].
        apply Hseen'. rewrite Hall, map_app, in_app_iff. left. now apply Hseen.
    + set (st1 := {| all_posts := all_posts st ++ [post];
                     seen_keys := post_key post :: seen_keys st;
                     new_count := S (new_count st) |}).
      assert (Hinv1 : keys_in_step st1).
      { destruct Hinv as [Hseen Hnd]. split.
        - intros k. simpl. rewrite map_app, in_app_iff, Hseen. simpl. tauto.
        - simpl. rewrite map_app. simpl.
          apply NoDup_app; [exact Hnd|repeat constructor; intros []|].
          intros k Hk [<-|[]]. apply Hseen in Hk.
          apply existsb_key_In in Hk. congruence. }
      assert (Hlen1 : List.length (all_posts st1) = S (List.length (all_posts st))).
      { simpl. rewrite length_app. simpl. lia. }
      change (all_posts st ++ [post]) with (all_posts st1).
      destruct (Z.of_nat (List.length (all_posts st1)) >=? posts_limit)%Z eqn:Efull.
      * split; [exact Hinv1|]. split.
        -- exists [post]. split; [reflexivity|]. split; [|simpl; lia].
           intros p [<-|[]]. now left.
        -- split; [rewrite Hlen1; lia|]. intros Hlt. apply Z.geb_le in Efull. lia.
      * rewrite Z.geb_leb in Efull. apply Z.leb_gt in Efull.
        destruct (IH st1 Hinv1 Efull)
          as (Hinv' & (added & Hall & Hincl & Hcount) & Hle & Hfull).
        split; [exact Hinv'|]. split.
        -- exists (post :: added). split.
           ++ rewrite Hall. simpl. now rewrite <- app_assoc.
           ++ split; [|rewrite Hcount; simpl; lia].
              intros p [<-|Hp]; [now left|right; now apply Hincl].
        -- split; [exact Hle|]. intros Hlt p [<-|Hp]; [|now apply Hfull].
           destruct Hinv' as [Hseen' _]. apply Hseen'.
           rewrite Hall, map_app, in_app_iff. left.
           simpl. rewrite map_app, in_app_iff. right. now left.
Qed.

(** X25: one page of the Weibo collector.  Entered below the limit, with
    the keys seen being those of the posts kept, each once, the loop leaves
    it so: it only appends posts of the page to the posts kept, counts each
    post it appends, never goes over the limit, and, when it ends below the
    limit, has seen the key of every post of the page. *)
Theorem keep_new_posts_step (posts_limit : Z) (page_posts : list weibo_post) :
  forall st,
    keys_in_step st ->
    (Z.of_nat (List.length (all_posts st)) < posts_limit)%Z ->
    let st' := keep_new_posts posts_limit page_posts st in
    keys_in_step st'
    /\ (exists added,
           all_posts st' = all_posts st ++ added
           /\ incl added page_posts
           /\ new_count st' = (new_count st + List.length added)%nat)
    /\ (Z.of_nat (List.length (all_posts st')) <= posts_limit)%Z
    /\ ((Z.of_nat (List.length (all_posts st')) < posts_limit)%Z ->
        forall p, In p page_posts -> In (post_key p) (seen_keys st')).
Proof. apply keep_new_posts_inv. Qed.

Lemma keep_new_posts_step_witness :
  let st := Sample.scrape0 in
  let st' := keep_new_posts 200 Sample.page st in
  keys_in_step st'
  /\ (exists added,
         all_posts st' = all_posts st ++ added
         /\ incl added Sample.page
         /\ new_count st' = (new_count st + List.length added)%nat)
  /\ (Z.of_nat (List.length (all_posts st')) <= 200)%Z
  /\ ((Z.of_nat (List.length (all_posts st')) < 200)%Z ->
      forall p, In p Sample.page -> In (post_key p) (seen_keys st')).
Proof.
  refine (@keep_new_posts_step 200 Sample.page Sample.scrape0 _ _).
  - split; [intros k; simpl; tauto|constructor].
  - simpl. lia.
Defined.

Section Cookie_fix.
Context {S : Type}.

Lemma dict_set_keys_present (d : list (str * pyval)) (k : str) (v : pyval) :
  existsb (fun kv => str_eqb (fst kv) k) d = true ->
  map fst (dict_set d k v) = map fst d.
Proof.
  induction d as [|[k' v'] d IH]; simpl; [discriminate|].
  destruct (str_eqb k' k) eqn:E; simpl; [reflexivity|].
  intros H. f_equal. auto.
Qed.

Lemma dict_get_existsb (d : list (str * pyval)) (k : str) :
  existsb (fun kv => str_eqb (fst kv) k) d
  = match dict_get d k with Some _ => true | None => false end.
Proof.
  induction d as [|[k' v'] d IH]; simpl; [reflexivity|].
  destruct (str_eqb k' k); simpl; auto.
Qed.

Lemma fix_same_site_dict (d : list (str * pyval)) (s : S) :
  exists c', fix_same_site (PDict d) s = (Ret c', s) /\ same_site_fixed (PDict d) c'.
Proof.
  unfold fix_same_site, bind, py_contains, ret. cbv beta iota.
  pose proof (dict_get_existsb d (lit "sameSite")) as Hex.
  destruct (existsb (fun kv => str_eqb (fst kv) (lit "sameSite")) d) eqn:Ehas.
  - unfold py_getitem.
    destruct (dict_get d (lit "sameSite")) as [v|] eqn:Ev; [|discriminate].
    unfold ret. cbv beta iota.
    destruct (same_site_ok v) eqn:Eok; cbv beta iota.
    + change (negb true) with false. cbv iota.
      exists (PDict d). split; [reflexivity|].
      exists d, d. unfold field. rewrite Ev, Eok.
      repeat split; auto. intros v' [= <-]. exact Eok.
    + change (negb false) with true. cbv iota. unfold py_setitem, ret.
      eexists. split; [reflexivity|].
      exists d, (dict_set d (lit "sameSite") (PStr (lit "Lax"))).
      unfold field. rewrite Ev, Eok, dict_get_set_same.
      split; [reflexivity|]. split; [reflexivity|].
      split; [now apply dict_set_keys_present|].
      split; [intros k Hk; apply dict_get_set_other; congruence|].
      split; [reflexivity|]. intros v' [= <-]. reflexivity.
  - exists (PDict d). split; [reflexivity|].
    exists d, d. unfold field.
    destruct (dict_get d (lit "sameSite")) as [v|] eqn:Ev; [discriminate|].
    repeat split; auto. discriminate.
Qed.

Lemma fix_cookies_dicts (cookies : list pyval) (s : S) :
  Forall is_dict cookies ->
  exists cookies', fix_cookies cookies s = (Ret cookies', s)
                   /\ Forall2 same_site_fixed cookies cookies'.
Proof.
  induction 1 as [|c rest Hc _ IH]; simpl.
  - exists []. split; [reflexivity|constructor].
  - destruct c; try contradiction.
    destruct (fix_same_site_dict d s) as (c' & Hrun & Hfix).
    destruct IH as (rest' & Hrest & Hall).
    exists (c' :: rest'). unfold bind. rewrite Hrun, Hrest. split; [reflexivity|].
    now constructor.
Qed.

(** X26: the cookies handed to the browser.  When the cookie file holds a
    list of objects, the fix returns, and gives the same cookies, in the same
    order, each with the keys it had and the values it had, except that a
    sameSite that is none of Strict, Lax and None has become Lax: no cookie
    leaves with a sameSite the browser refuses. *)
Theorem load_cookies_fix_allowed (cookies : list pyval) (s : S) :
  Forall is_dict cookies ->
  exists cookies',
    load_cookies_fix (PList cookies) s = (Ret (PList cookies'), s)
    /\ Forall2 same_site_fixed cookies cookies'.
Proof.
  intros H. destruct (fix_cookies_dicts s H) as (cookies' & Hrun & Hall).
  exists cookies'. unfold load_cookies_fix, bind. rewrite Hrun. split; [reflexivity|exact Hall].
Qed.

End Cookie_fix.

Lemma load_cookies_fix_allowed_witness :
  exists cookies',
    load_cookies_fix (PList Sample.cookies) tt = (Ret (PList cookies'), tt)
    /\ Forall2 same_site_fixed Sample.cookies cookies'.
Proof.
  refine (@load_cookies_fix_allowed unit Sample.cookies tt _).
  repeat constructor.
Defined.

(** The three sample tweets leave two, the first with the later html. *)
Example unique_tweets_example :
  unique_tweets Sample.collected
  = [tweet_dict (lit "first tweet") (lit "<div>late</div>");
     tweet_dict (lit "second tweet") (lit "<div>second</div>")].
Proof. vm_compute. reflexivity. Qed.

(** ** What a run leaves of the rows it found *)

(** X3: a run started on a connection with nothing uncommitted removes no
    row and changes no immutable column: the rows the database file held
    before the run are, in their order and with the same origin_id, platform,
    source kind, country, original title, original content, published date
    and url, the first rows of the file after it. *)
Theorem run_keeps_rows_and_immutable_columns {W : World} (w : session) :
  working (s_db w) = committed (s_db w) ->
  extends (committed (s_db w)) (committed (s_db (snd (main w)))).
Proof.
  intros Hclean.
  destruct (main_keeps_immutable_columns w) as [[H|H] _]; [exact H|].
  now rewrite <- Hclean.
Qed.

Lemma run_keeps_rows_and_immutable_columns_witness :
  let W := Sample.june [Sample.article_b; Sample.article_a; Sample.malformed] in
  extends (committed (s_db Sample.session1)) (committed (s_db (snd (main Sample.session1)))).
Proof.
  intros W. apply (@run_keeps_rows_and_immutable_columns W Sample.session1).
  reflexivity.
Defined.

(** The run of the witness: the table held one row, an article of an
    earlier run; the run writes a new article and then that article again.
    The earlier row is still the first, with its origin_id, original content
    and published date, and with the batch date and the position of this
    run; the new article's row follows. *)
Example run_keeps_rows_example :
  let W := Sample.june [Sample.article_b; Sample.article_a; Sample.malformed] in
  let after := committed (s_db (snd (main Sample.session1))) in
  map id_origem after = [Some (lit "https://people.cn/a"); Some (lit "https://people.cn/b")]
  /\ map conteudo_original after = [Some (lit "earlier text"); Some (lit "A summary")]
  /\ map data_publicacao after
     = [Some (lit "2025-05-30T00:00:00"); Some (lit "2025-12-22T00:00:00")]
  /\ map data_raspagem after = [Some (lit "2025-06-15"); Some (lit "2025-06-15")]
  /\ map ordem_coleta after = [SInt 1; SInt 0].
Proof.
  intros W after.
  split; [vm_compute; reflexivity|].
  split; [vm_compute; reflexivity|].
  split; [vm_compute; reflexivity|].
  split; vm_compute; reflexivity.
Qed.

(** ** The collectors' loops *)

Lemma scrape_pages_inv (fetch : nat -> option (list weibo_post)) (posts_limit : Z)
      (remaining : nat) :
  forall page_num no_new_pages st,
    keys_in_step st ->
    let st' := scrape_pages fetch posts_limit remaining page_num no_new_pages st in
    keys_in_step st'
    /\ (Z.of_nat (List.length (all_posts st'))
        <= Z.max (Z.of_nat (List.length (all_posts st))) posts_limit)%Z
    /\ (forall p, In p (all_posts st') ->
                  In p (all_posts st)
                  \/ exists n page, (page_num <= n < page_num + remaining)%nat
                                    /\ fetch n = Some page /\ In p page).
Proof.
  induction remaining as [|remaining IH]; intros page_num no_new_pages st Hinv.
  - simpl. split; [exact Hinv|]. split; [lia|]. intros p Hp. now left.
  - simpl scrape_pages.
    destruct (Z.of_nat (List.length (all_posts st)) <? posts_limit)%Z eqn:Elim;
      [|split; [exact Hinv|]; split; [lia|]; intros p Hp; now left].
    apply Z.ltb_lt in Elim.
    destruct (fetch page_num) as [page_posts|] eqn:Efetch;
      [|split; [exact Hinv|]; split; [lia|]; intros p Hp; now left].
    set (st0 := {| all_posts := all_posts st; seen_keys := seen_keys st; new_count := 0 |}).
    assert (Hinv0 : keys_in_step st0) by exact Hinv.
    destruct (@keep_new_posts_inv posts_limit page_posts st0 Hinv0 Elim)
      as (Hinv1 & (added & Hall & Hincl & _) & Hle & _).
    set (st1 := keep_new_posts posts_limit page_posts st0) in *.
    assert (Hfrom : forall p, In p (all_posts st1) ->
                              In p (all_posts st)
                              \/ exists n page, (page_num <= n < page_num + S remaining)%nat
                                                /\ fetch n = Some page /\ In p page).
    { intros p Hp. rewrite Hall in Hp. apply in_app_iff in Hp.
      destruct Hp as [Hp|Hp]; [now left|right].
      exists page_num, page_posts. split; [lia|]. split; [exact Efetch|now apply Hincl]. }
    assert (Hstop : keys_in_step st1
                    /\ (Z.of_nat (List.length (all_posts st1))
                        <= Z.max (Z.of_nat (List.length (all_posts st))) posts_limit)%Z
                    /\ (forall p, In p (all_posts st1) ->
                                  In p (all_posts st)
                                  \/ exists n page,
                                      (page_num <= n < page_num + S remaining)%nat
                                      /\ fetch n = Some page /\ In p page)).
    { split; [exact Hinv1|]. split; [lia|exact Hfrom]. }
    assert (Hgo : forall nn,
               let st' := scrape_pages fetch posts_limit remaining (S page_num) nn st1 in
               keys_in_step st'
               /\ (Z.of_nat (List.length (all_posts st'))
                   <= Z.max (Z.of_nat (List.length (all_posts st))) posts_limit)%Z
               /\ (forall p, In p (all_posts st') ->
                             In p (all_posts st)
                             \/ exists n page,
                                 (page_num <= n < page_num + S remaining)%nat
                                 /\ fetch n = Some page /\ In p page)).
    { intros nn. destruct (IH (S page_num) nn st1 Hinv1) as (Hi & Hl & Hf).
      split; [exact Hi|]. split; [lia|]. intros p Hp.
      destruct (Hf p Hp) as [Hp1|(n & page & Hn & Hfn & Hin)]; [now apply Hfrom|].
      right. exists n, page. split; [lia|]. split; assumption. }
    destruct (Nat.eqb (new_count st1) 0); [|apply Hgo].
    destruct no_new_pages; [apply Hgo|exact Hstop].
Qed.

(** X27: the posts the Weibo collector writes.  Whatever the pages hold and
    wherever the navigation fails, no two posts written share the key (mid,
    first 120 characters of the text), the posts are never more than the
    limit (none when the limit is zero or less), and every post written was
    found on a page of a number from 1 to max_pages. *)
Theorem run_scraper_posts_bounded (fetch : nat -> option (list weibo_post))
        (posts_limit : Z) (max_pages : nat) :
  let out := run_scraper_posts fetch posts_limit max_pages in
  NoDup (map post_key out)
  /\ (Z.of_nat (List.length out) <= Z.max 0 posts_limit)%Z
  /\ (forall p, In p out ->
                exists n page, (1 <= n <= max_pages)%nat
                               /\ fetch n = Some page /\ In p page).
Proof.
  intros out. unfold out, run_scraper_posts.
  destruct (@scrape_pages_inv fetch posts_limit max_pages 1 0
              {| all_posts := []; seen_keys := []; new_count := 0 |})
    as ((_ & Hnd) & Hle & Hfrom).
  { split; [intros k; simpl; tauto|constructor]. }
  split; [exact Hnd|]. split; [exact Hle|].
  intros p Hp. destruct (Hfrom p Hp) as [[]|(n & page & Hn & Hf & Hin)].
  exists n, page. split; [lia|]. split; assumption.
Qed.

Section Peoples_daily_scraper_properties.
Context {W : World}.

Lemma article_of_card_shape (cfg : list (str * pyval)) (c : card) (scraped_at : str)
      (a : pyval) :
  article_of_card cfg c scraped_at = Ret a ->
  exists source country title url date sm,
    a = PDict [(lit "source", source);
               (lit "country", country);
               (lit "title", PStr title);
               (lit "url", PStr url);
               (lit "published_date", opt_text date);
               (lit "summary", opt_text sm);
               (lit "author", PNone);
               (lit "scraped_at", PStr scraped_at)]
    /\ is_prefix (lit "http") url = true.
Proof.
  unfold article_of_card, rbind.
  destruct (card_title c) as [t|]; [|discriminate].
  destruct (card_href c) as [[h|]|]; try discriminate.
  destruct (card_date c) as [date|]; [|discriminate].
  destruct (card_summary c) as [sm|]; [|discriminate].
  destruct (cfg_get cfg "source") as [source|]; [|discriminate].
  destruct (cfg_get cfg "country") as [country|]; [|discriminate].
  destruct (is_prefix (lit "http") h) eqn:E; intros [= <-]; do 6 eexists;
    (split; [reflexivity|]); [exact E|reflexivity].
Qed.

Lemma article_of_card_accepted (cfg : list (str * pyval)) (c : card) (scraped_at : str)
      (a : pyval) :
  article_of_card cfg c scraped_at = Ret a ->
  well_formed_article a
  /\ forall e, exists fields e', parse_peoples_daily a e = (Ret (PDict fields), e').
Proof.
  intros H. destruct (article_of_card_shape _ _ _ H)
    as (source & country & title & url & date & sm & -> & Hhttp).
  split.
  - eexists. exists url, title. split; [reflexivity|].
    split; [reflexivity|]. split; [exact Hhttp|reflexivity].
  - intros e.
    eapply parse_peoples_daily_returns with (u := PStr url) (t := title) (p := opt_text date);
      try reflexivity.
    unfold summary_is_text_or_missing.
    change (field _ "summary") with (Some (opt_text sm)).
    destruct sm; exact I.
Qed.

Lemma collect_articles_accepted (cfg : list (str * pyval)) (clock_iso : nat -> str)
      (cards : list card) :
  forall i,
    let out := collect_articles cfg clock_iso i cards in
    (List.length (fst out) + List.length (snd out) = List.length cards)%nat
    /\ forall a, In a (fst out) ->
                 well_formed_article a
                 /\ forall e, exists fields e',
                              parse_peoples_daily a e = (Ret (PDict fields), e').
Proof.
  induction cards as [|c rest IH]; intros i.
  - simpl. split; [reflexivity|intros a []].
  - simpl. destruct (IH (S i)) as [Hlen Hall].
    destruct (collect_articles cfg clock_iso (S i) rest) as [results warnings].
    destruct (article_of_card cfg c (clock_iso i)) as [a0|e0] eqn:Ea; simpl in *.
    + split; [lia|]. intros a [<-|Ha]; [|now apply Hall].
      eapply article_of_card_accepted. exact Ea.
    + split; [lia|exact Hall].
Qed.

Lemma slice_to_length (n : Z) (cards : list card) :
  (List.length (slice_to n cards) <= List.length cards)%nat
  /\ ((0 <= n)%Z -> (Z.of_nat (List.length (slice_to n cards)) <= n)%Z).
Proof.
  unfold slice_to. destruct (0 <=? n)%Z eqn:E.
  - rewrite length_firstn. split; [lia|]. intros _. lia.
  - rewrite length_firstn. apply Z.leb_gt in E. split; [lia|]. lia.
Qed.

(** X28: the articles the People's Daily collector writes.  Whatever the
    cards of the page give, and whichever of them fail, every article
    written is a dict whose url is a string that begins with http and whose
    title is a string, and the mapper of the pipeline returns a record on it:
    no article the collector writes is refused by the mapper.  The articles
    are no more than the cards, and no more than max_articles when that is
    not negative. *)
Theorem peoples_daily_results_are_accepted (cfg : list (str * pyval)) (max_articles : Z)
        (clock_iso : nat -> str) (cards : list card) :
  let results := peoples_daily_results cfg max_articles clock_iso cards in
  (List.length results <= List.length cards)%nat
  /\ ((0 <= max_articles)%Z -> (Z.of_nat (List.length results) <= max_articles)%Z)
  /\ urls_are_strings results
  /\ (forall a, In a results ->
                well_formed_article a
                /\ forall e, exists fields e',
                             parse_peoples_daily a e = (Ret (PDict fields), e')).
Proof.
  intros results. unfold results, peoples_daily_results.
  destruct (collect_articles_accepted cfg clock_iso (slice_to max_articles cards) 0)
    as [Hlen Hall].
  destruct (slice_to_length max_articles cards) as [Hs1 Hs2].
  split; [lia|]. split; [intros Hn; specialize (Hs2 Hn); lia|].
  split; [|exact Hall].
  intros item d Hin ->. destruct (Hall _ Hin) as [(d' & u & t & [= <-] & Hu & _) _].
  exists u. exact Hu.
Qed.

End Peoples_daily_scraper_properties.

(** Of the three sample cards the first two are written, the second with an
    absolute url and null for the date and the summary. *)
Example peoples_daily_results_example :
  let W := Sample.june [] in
  map (fun a => match a with
                | PDict d => (field d "title", field d "url", field d "summary")
                | _ => (None, None, None)
                end)
      (peoples_daily_results Sample.cfg 20 (fun _ => lit "2025-06-01T10:00:00+00:00")
                             Sample.cards)
  = [(Some (PStr (lit "AI rises")), Some (PStr (lit "https://people.cn/a")),
      Some (PStr (lit "A summary")));
     (Some (PStr (lit "AI falls")),
      Some (PStr (lit "https://data.people.com.cn/detail/2")), Some PNone)].
Proof. vm_compute. reflexivity. Qed.

(** The sample page fetched twice: two posts are written, and the scrape
    stops at the second page, which brings nothing new. *)
Example run_scraper_posts_example :
  run_scraper_posts Sample.fetch 200 40
  = [Sample.post (Some (lit "501")) "a post about models";
     Sample.post None "a post with no mid"].
Proof. vm_compute. reflexivity. Qed.

(** ** A card with no link *)

Section Null_identity.
Context {W : World}.



End Null_identity.


Lemma re_digits_finds_first_run_witness :
  let W := Sample.june [] in
  re_search re_digits (lit "about 42 min ago") = Some [lit "42"]
  /\ re_search re_digits (lit "just now") = None.
Proof.
  intros W. split.
  - refine (proj1 (@re_digits_finds_first_run W) (lit "about ") (lit "42") (lit " min ago")
              _ _ _ _).
    + repeat constructor.
    + discriminate.
    + repeat constructor.
    + vm_compute. reflexivity.
  - refine (proj2 (@re_digits_finds_first_run W) (lit "just now") _).
    repeat constructor.
Defined.
